(** * Reservation export automation: a shallow embedding of [main.py]

    The development follows the source file top to bottom:

    - the Python string helpers the script relies on ([str.strip],
      [str.upper], [int]);
    - the regular expressions of [get_date_input] and of
      [datetime.strptime];
    - the calendar check and the rendering of [strftime];
    - the data frame pipeline of [download_and_parse_csv];
    - the streaming encoder behind [json.dump];
    - the browser, the site and the file system as an explicit world,
      threaded through a state-and-exception monad;
    - [run_scraper].

    Text is modelled by [string], each character standing for the code
    point of the same number (0 to 255).  In that range [\d] is exactly
    the ten digits and the white space that [str.strip] removes is the
    set given by [PyStr.isspace].  Beyond it, [\d] and [int] also take
    the decimal digits of other scripts and [str.strip] removes other
    spaces; what is said of the date prompt below is said of lines of
    characters up to U+00FF.

    The libraries are modelled as they run with CPython 3.11 on glibc
    and with pandas from 2.0 on. *)

From Stdlib Require Import ZArith Ascii String List Lia.
From Stdlib Require Import DecimalString.
From stdpp Require Import base option list strings gmap.

Local Open Scope Z_scope.

(** ** Python strings *)

Module PyStr.

(** [str.isspace] on one character: TAB to CR, FS to US, space, NEL
    and the no-break space. *)
Definition isspace (c : ascii) : bool :=
  let n := Z.of_N (N_of_ascii c) in
  ((9 <=? n) && (n <=? 13)) || ((28 <=? n) && (n <=? 32))
  || (n =? 133) || (n =? 160).

Definition is_empty (s : string) : bool :=
  match s with EmptyString => true | _ => false end.

Fixpoint lstrip (s : string) : string :=
  match s with
  | String c s' => if isspace c then lstrip s' else s
  | EmptyString => EmptyString
  end.

Fixpoint rstrip (s : string) : string :=
  match s with
  | String c s' =>
      let r := rstrip s' in
      if isspace c && is_empty r then EmptyString else String c r
  | EmptyString => EmptyString
  end.

Fixpoint ends_with_space (s : string) : bool :=
  match s with
  | EmptyString => false
  | String c EmptyString => isspace c
  | String _ s' => ends_with_space s'
  end.

(** [s.strip()] *)
Definition strip (s : string) : string := rstrip (lstrip s).

Definition isdigit (c : ascii) : bool :=
  let n := Z.of_N (N_of_ascii c) in (48 <=? n) && (n <=? 57).

Definition islower (c : ascii) : bool :=
  let n := Z.of_N (N_of_ascii c) in (97 <=? n) && (n <=? 122).

Definition isupper (c : ascii) : bool :=
  let n := Z.of_N (N_of_ascii c) in (65 <=? n) && (n <=? 90).

Definition upper_char (c : ascii) : ascii :=
  if islower c then ascii_of_N (N_of_ascii c - 32) else c.

(** [s.upper()] on text made of ASCII characters, which is all that
    [strftime] produces here. *)
Fixpoint upper (s : string) : string :=
  match s with
  | String c s' => String (upper_char c) (upper s')
  | EmptyString => EmptyString
  end.

Definition digit_value (c : ascii) : Z := Z.of_N (N_of_ascii c) - 48.

Fixpoint int_acc (acc : Z) (s : string) : Z :=
  match s with
  | String c s' => int_acc (10 * acc + digit_value c) s'
  | EmptyString => acc
  end.

(** [int(s)] for a string of digits, with or without white space
    around them. *)
Definition int (s : string) : Z := int_acc 0 (strip s).

Definition digit_char (n : Z) : ascii := ascii_of_N (Z.to_N (48 + n mod 10)).

(** ["%02d" % n] and ["%04d" % n] for [0 <= n < 100] and
    [0 <= n < 10000]. *)
Definition two_digits (n : Z) : string :=
  String (digit_char (n / 10)) (String (digit_char n) EmptyString).

Definition four_digits (n : Z) : string :=
  String (digit_char (n / 1000))
    (String (digit_char (n / 100))
       (String (digit_char (n / 10)) (String (digit_char n) EmptyString))).

(** ["%d" % n] for [0 <= n < 10000]: no leading zeros. *)
Definition decimal (n : Z) : string :=
  if n <? 10 then String (digit_char n) EmptyString
  else if n <? 100 then two_digits n
  else if n <? 1000 then String (digit_char (n / 100)) (two_digits n)
  else four_digits n.

(** [int.__repr__] *)
Definition repr_int (z : Z) : string := NilZero.string_of_int (Z.to_int z).

End PyStr.

(** ** Regular expressions

    Just the constructs the two patterns use.  [run r s] lists, in the
    order in which a backtracking matcher tries them, the ways [r]
    matches a prefix of [s]: the matched text and what is left. *)

Module Re.

Inductive regex :=
| Class (p : ascii -> bool)
| Cat (r1 r2 : regex)
| Alt (r1 r2 : regex)
| Dollar.

Definition at_end (s : string) : bool :=
  match s with
  | EmptyString => true
  | String c EmptyString => Z.of_N (N_of_ascii c) =? 10
  | _ => false
  end.

Fixpoint run (r : regex) (s : string) : list (string * string) :=
  match r with
  | Class p =>
      match s with
      | String c s' => if p c then [(String c EmptyString, s')] else []
      | EmptyString => []
      end
  | Cat r1 r2 =>
      '(m1, rest1) ← run r1 s;
      '(m2, rest2) ← run r2 rest1;
      [(m1 +:+ m2, rest2)]
  | Alt r1 r2 => run r1 s ++ run r2 s
  | Dollar => if at_end s then [(EmptyString, s)] else []
  end.

(** [pattern.match(s)]: the first way, if any. *)
Definition rmatch (r : regex) (s : string) : option (string * string) :=
  head (run r s).

Definition matches (r : regex) (s : string) : bool :=
  match rmatch r s with Some _ => true | None => false end.

Definition lit (c : ascii) : regex := Class (fun x => bool_decide (x = c)).
Definition range (lo hi : ascii) : regex :=
  Class (fun x => (N_of_ascii lo <=? N_of_ascii x)%N
                  && (N_of_ascii x <=? N_of_ascii hi)%N).
Definition digit : regex := Class PyStr.isdigit.
Definition dash : regex := lit "-".

End Re.

(** ** [datetime]: parsing with ["%d-%m-%Y"], rendering with ["%d %b %Y"] *)

Module Datetime.
Import Re.

Record datetime := { year : Z; month : Z; day : Z }.

Definition is_leap (y : Z) : bool :=
  (y mod 4 =? 0) && (negb (y mod 100 =? 0) || (y mod 400 =? 0)).

Definition days_in_month (y m : Z) : Z :=
  if m =? 2 then (if is_leap y then 29 else 28)
  else if (m =? 4) || (m =? 6) || (m =? 9) || (m =? 11) then 30
  else 31.

(** The constructor's range check ([MINYEAR = 1], [MAXYEAR = 9999]);
    [None] stands for [ValueError]. *)
Definition make (y m d : Z) : option datetime :=
  if (1 <=? y) && (y <=? 9999) && (1 <=? m) && (m <=? 12)
     && (1 <=? d) && (d <=? days_in_month y m)
  then Some {| year := y; month := m; day := d |}
  else None.

(** The groups [_strptime] compiles the directives into:
    [%d] is [3[0-1]|[1-2]\d|0[1-9]|[1-9]| [1-9]],
    [%m] is [1[0-2]|0[1-9]|[1-9]], [%Y] is [\d\d\d\d]. *)
Definition re_d : regex :=
  Alt (Cat (lit "3") (range "0" "1"))
    (Alt (Cat (range "1" "2") digit)
       (Alt (Cat (lit "0") (range "1" "9"))
          (Alt (range "1" "9") (Cat (lit " ") (range "1" "9"))))).

Definition re_m : regex :=
  Alt (Cat (lit "1") (range "0" "2"))
    (Alt (Cat (lit "0") (range "1" "9")) (range "1" "9")).

Definition re_Y : regex := Cat digit (Cat digit (Cat digit digit)).

(** The two-digit texts that the day group and the month group take
    whole, and the digits they take alone. *)
Definition valid_dd (d1 d2 : ascii) : bool :=
  let n := PyStr.int (String d1 (String d2 EmptyString)) in (1 <=? n) && (n <=? 31).
Definition valid_mm (m1 m2 : ascii) : bool :=
  let n := PyStr.int (String m1 (String m2 EmptyString)) in (1 <=? n) && (n <=? 12).
Definition nonzero (c : ascii) : bool := negb (bool_decide (c = "0"%char)).

(** The compiled format matched against the data: the three groups
    and the unconverted rest, for the first way the whole pattern
    matches. *)
Definition format_match (s : string)
  : option (string * string * string * string) :=
  head ('(d, r1) ← run re_d s;
        '(_, r2) ← run dash r1;
        '(m, r3) ← run re_m r2;
        '(_, r4) ← run dash r3;
        '(y, r5) ← run re_Y r4;
        [(d, m, y, r5)]).

(** [datetime.strptime(s, "%d-%m-%Y")]; [None] stands for
    [ValueError], raised when the data does not match the format,
    when unconverted data remains, or when the fields are not a date. *)
Definition strptime (s : string) : option datetime :=
  match format_match s with
  | Some (d, m, y, rest) =>
      if PyStr.is_empty rest
      then make (PyStr.int y) (PyStr.int m) (PyStr.int d)
      else None
  | None => None
  end.

(** [%b] in the C locale. *)
Definition month_abbr (m : Z) : string :=
  match m with
  | 1 => "Jan" | 2 => "Feb" | 3 => "Mar" | 4 => "Apr"
  | 5 => "May" | 6 => "Jun" | 7 => "Jul" | 8 => "Aug"
  | 9 => "Sep" | 10 => "Oct" | 11 => "Nov" | _ => "Dec"
  end.

(** [d.strftime("%d %b %Y")]: the day zero-padded to two digits, the
    month of the C locale, and the year as the C library writes it.
    CPython 3.11 hands [%Y] to the C library, and glibc writes the
    number without leading zeros: four digits from the year 1000 on,
    fewer before.  (A C library that pads the year writes the same
    from the year 1000 on.) *)
Definition strftime (d : datetime) : string :=
  PyStr.two_digits (day d) +:+ " " +:+ month_abbr (month d) +:+ " "
  +:+ PyStr.decimal (year d).

End Datetime.

(** ** The date prompt of [get_date_input] *)

(** [date_pattern = re.compile(r"^\d{2}-\d{2}-\d{4}$")] *)
Definition date_pattern : Re.regex :=
  Re.Cat Re.digit (Re.Cat Re.digit (Re.Cat Re.dash
    (Re.Cat Re.digit (Re.Cat Re.digit (Re.Cat Re.dash
      (Re.Cat Re.digit (Re.Cat Re.digit (Re.Cat Re.digit
        (Re.Cat Re.digit Re.Dollar))))))))).

Definition date_pattern_match (s : string) : bool := Re.matches date_pattern s.


(** ** Exceptions *)

Inductive exn :=
| EOFError                      (* [input()] at the end of standard input *)
| WebDriverException            (* the browser or a command to it failed *)
| TimeoutException              (* a [WebDriverWait] ran out *)
| NoSuchElementException        (* [find_element] found nothing *)
| ConnectionError               (* [session.get] got no response *)
| HTTPError (status : Z)        (* [raise_for_status] *)
| ParserError                   (* [pd.read_csv] *)
| KeyError                      (* a label that the frame does not have *)
| OSError                       (* [open] *)
| TypeError.                    (* a value of the wrong type *)

(** ** The data frame pipeline

    The library calls of [download_and_parse_csv], as pandas from 2.0
    on carries them out: [read_csv] marks an empty cell with NaN;
    [where(cond, None)] writes [None] into object columns and leaves
    the NaN of a float column; [convert_dtypes] casts every column to
    the best dtype that supports [pd.NA], so that a missing cell of
    such a column is [pd.NA]; [to_dict(orient="records")] zips the
    columns into one dict per row and hands out the cells of an object
    column or of a nullable column as native Python values, [pd.NA] as
    [None]. *)

Module Pandas.

(** A Python float that is not NaN: [m * 2^e], or an infinity. *)
Inductive float := Finite (m e : Z) | Inf (negative : bool).

Global Instance float_eq_dec : EqDecision float.
Proof. solve_decision. Defined.

(** What a cell can hold: the three missing markers ([None], the
    float NaN, [pd.NA]) and the scalars. *)
Inductive value :=
| VNone | VNaN | VNA
| VStr (s : string) | VInt (z : Z) | VFloat (f : float) | VBool (b : bool).

(** [pd.isnull] / [pd.notnull] on a scalar *)
Definition isnull (v : value) : bool :=
  match v with VNone | VNaN | VNA => true | _ => false end.
Definition notnull (v : value) : bool := negb (isnull v).

Inductive Dtype :=
| object | int64 | float64 | bool_             (* what [read_csv] infers *)
| string_ | Int64 | Float64 | boolean.         (* the nullable dtypes *)

(** The pandas that is installed, as far as the script can tell: the
    releases 2.x and the releases from 3.0 on differ in the records of
    a frame that has rows and no column. *)
Inductive release := Pandas2 | Pandas3.

Record Series := { name : string; dtype : Dtype; values : list value }.

(** A frame is its columns, in order.  [read_csv] gives every column
    a name of its own and the same number of cells. *)
Abbreviation DataFrame := (list Series).

Definition columns (df : DataFrame) : list string := map name df.

(** [len(df)], the number of rows. *)
Definition nrows (df : DataFrame) : nat :=
  match df with
  | [] => 0%nat
  | s :: _ => length (values s)
  end.

(** A frame as [read_csv] makes it: the labels differ from one another
    (a name that the header repeats gets a suffix) and the columns
    have one length. *)
Definition wf (df : DataFrame) : Prop :=
  NoDup (columns df) /\
  exists n : nat, Forall (fun s => length (values s) = n) df.

(** The value [where] writes for [other=None]: [None] itself in an
    object column, the column's own missing value elsewhere. *)
Definition na_value (d : Dtype) : value :=
  match d with
  | object => VNone
  | int64 | float64 | bool_ => VNaN
  | string_ | Int64 | Float64 | boolean => VNA
  end.

(** The column with a given label. *)
Fixpoint column (df : DataFrame) (label : string) : option Series :=
  match df with
  | [] => None
  | s :: df' => if bool_decide (name s = label) then Some s else column df' label
  end.

(** The cell of column [c] in row [i]. *)
Definition cell (df : DataFrame) (c : string) (i : nat) : option value :=
  s ← column df c; values s !! i.

Definition where_series (s : Series) : Series :=
  {| name := name s; dtype := dtype s;
     values := map (fun v => if notnull v then v else na_value (dtype s)) (values s) |}.

(** [df.where(pd.notnull(df), None)] *)
Definition where_notnull_none (df : DataFrame) : DataFrame := map where_series df.

(** [lib.infer_dtype(arr, skipna=True)], as far as [convert_dtypes]
    looks at it. *)
Inductive inferred := IEmpty | IString | IBoolean | IInteger | IFloating | IMixed.

Definition is_str (v : value) : bool := match v with VStr _ => true | _ => false end.
Definition is_bool (v : value) : bool := match v with VBool _ => true | _ => false end.
Definition is_int (v : value) : bool := match v with VInt _ => true | _ => false end.
Definition is_number (v : value) : bool :=
  match v with VInt _ | VFloat _ => true | _ => false end.

Definition infer_dtype (vs : list value) : inferred :=
  let present := filter (fun v => notnull v = true) vs in
  match present with
  | [] => IEmpty
  | _ =>
      if forallb is_str present then IString
      else if forallb is_bool present then IBoolean
      else if forallb is_int present then IInteger
      else if forallb is_number present then IFloating
      else IMixed
  end.

(** The integers of 64 bits. *)
Definition in_int64 (z : Z) : bool := (- 2 ^ 63 <=? z) && (z <? 2 ^ 63).

(** [arr.astype(int) == arr] on one number: the cast is to 64 bits,
    and a float out of that range does not come back as itself. *)
Definition is_integral (v : value) : bool :=
  match v with
  | VInt _ => true
  | VFloat (Finite m e) =>
      if 0 <=? e then in_int64 (m * 2 ^ e)
      else (m mod 2 ^ (- e) =? 0) && in_int64 (m / 2 ^ (- e))
  | _ => false
  end.

Definition to_int (v : value) : value :=
  match v with
  | VFloat (Finite m e) => VInt (if 0 <=? e then m * 2 ^ e else m / 2 ^ (- e))
  | _ => v
  end.

Definition to_float (v : value) : value :=
  match v with
  | VInt z => VFloat (Finite z 0)
  | _ => v
  end.

(** Casting a column to a nullable dtype: every missing cell becomes
    [pd.NA], every other cell goes through [f]. *)
Definition astype_nullable (d : Dtype) (f : value -> value) (s : Series) : Series :=
  {| name := name s; dtype := d;
     values := map (fun v => if isnull v then VNA else f v) (values s) |}.

Definition convert_numeric (s : Series) : Series :=
  if forallb is_integral (filter (fun v => notnull v = true) (values s))
  then astype_nullable Int64 to_int s
  else astype_nullable Float64 to_float s.

(** [Series.convert_dtypes()]: the best dtype that supports [pd.NA].
    An object column that is empty of values or of mixed types keeps
    its dtype and its cells. *)
Definition convert_series (s : Series) : Series :=
  match dtype s with
  | int64 | Int64 => astype_nullable Int64 id s
  | bool_ | boolean => astype_nullable boolean id s
  | string_ => astype_nullable string_ id s
  | float64 | Float64 => convert_numeric s
  | object =>
      match infer_dtype (values s) with
      | IString => astype_nullable string_ id s
      | IBoolean => astype_nullable boolean id s
      | IInteger | IFloating => convert_numeric s
      | IEmpty | IMixed => s
      end
  end.

(** [df.convert_dtypes()] *)
Definition convert_dtypes (df : DataFrame) : DataFrame := map convert_series df.

(** [df[labels]]; [None] stands for [KeyError]. *)
Definition getitem (df : DataFrame) (labels : list string) : option DataFrame :=
  mapM (column df) labels.

(** Python's [zip] over all the arrays at once: as long as the
    shortest of them, and empty when there is no array at all. *)
Fixpoint zip_star (arrays : list (list value)) : list (list value) :=
  match arrays with
  | [] => []
  | [a] => map (fun x => [x]) a
  | a :: rest => zip_with cons a (zip_star rest)
  end.

(** A [dict] with string keys, in insertion order. *)
Abbreviation dict := (list (string * value)).

Fixpoint dict_set (d : dict) (k : string) (v : value) : dict :=
  match d with
  | [] => [(k, v)]
  | (k', v') :: d' =>
      if bool_decide (k' = k) then (k', v) :: d' else (k', v') :: dict_set d' k v
  end.

(** [dict(zip(keys, row))] *)
Definition dict_of (keys : list string) (row : list value) : dict :=
  fold_left (fun d kv => dict_set d (fst kv) (snd kv)) (zip keys row) [].

(** [d.get(k)] *)
Fixpoint dict_get (d : dict) (k : string) : option value :=
  match d with
  | [] => None
  | (k', v) :: d' => if bool_decide (k' = k) then Some v else dict_get d' k
  end.

(** [maybe_box_native]: the scalars of the model are native values
    already; [pd.NA] becomes [None]. *)
Definition maybe_box_native (v : value) : value :=
  match v with
  | VNA => VNone
  | _ => v
  end.

(** The cells of a column as [to_dict] hands them out: boxed in an
    object column and in a column of a nullable dtype, as they are in
    a column of a numpy dtype. *)
Definition boxed_values (s : Series) : list value :=
  match dtype s with
  | int64 | float64 | bool_ => values s
  | object | string_ | Int64 | Float64 | boolean => map maybe_box_native (values s)
  end.

Definition box_series (s : Series) : Series :=
  {| name := name s; dtype := dtype s; values := boxed_values s |}.

(** [df.itertuples(index=False, name=None)] *)
Definition itertuples (df : DataFrame) : list (list value) :=
  zip_star (map values df).

(** One dict per tuple, under the names of the columns. *)
Definition zip_records (df : DataFrame) : list dict :=
  map (dict_of (columns df)) (itertuples df).

(** [df.to_dict(orient="records")]: one dict per tuple of the frame,
    with the cells boxed.  [index] is the number of rows of the frame,
    which a frame keeps when it has no column: pandas 2 then finds no
    tuple to zip, pandas 3 gives an empty dict for every row. *)
Definition to_dict_records (v : release) (index : nat) (df : DataFrame) : list dict :=
  match df with
  | [] =>
      match v with
      | Pandas2 => []
      | Pandas3 => replicate index []
      end
  | _ => zip_records (map box_series df)
  end.

End Pandas.

(** ** [json.dump(obj, f, ensure_ascii=False, indent=2)]

    The encoder yields the text piece by piece and [dump] writes each
    piece to the file as it comes.  [None] is written [null]; for an
    object it does not know, as [pd.NA] would be, the encoder raises
    [TypeError] and what was yielded before stays written. *)

Module Json.
Import Pandas.

(** A piece of output: text, or the [float.__repr__] of a finite
    float, which is kept as a token. *)
Inductive chunk := Text (s : string) | FloatRepr (m e : Z).

Definition hex_digit (n : Z) : ascii :=
  if n <? 10 then ascii_of_N (Z.to_N (48 + n)) else ascii_of_N (Z.to_N (87 + n)).

Definition backslash : ascii := ascii_of_N 92.
Definition quote : string := String (ascii_of_N 34) EmptyString.

(** One character of a string: the two-character escapes, [\u00XX]
    for the other control characters, and itself otherwise. *)
Definition escape_char (c : ascii) : string :=
  let n := Z.of_N (N_of_ascii c) in
  if n =? 34 then String backslash quote
  else if n =? 92 then String backslash (String backslash EmptyString)
  else if n =? 10 then String backslash "n"
  else if n =? 13 then String backslash "r"
  else if n =? 9 then String backslash "t"
  else if n =? 8 then String backslash "b"
  else if n =? 12 then String backslash "f"
  else if n <? 32 then
    String backslash ("u00" +:+
      String (hex_digit (n / 16)) (String (hex_digit (n mod 16)) EmptyString))
  else String c EmptyString.

Fixpoint escape (s : string) : string :=
  match s with
  | String c s' => escape_char c +:+ escape s'
  | EmptyString => EmptyString
  end.

(** [py_encode_basestring] *)
Definition encode_basestring (s : string) : string := quote +:+ escape s +:+ quote.

(** A scalar as the encoder writes it; [None] for an object it does
    not know, on which [default] raises [TypeError]. *)
Definition encode_scalar (v : value) : option chunk :=
  match v with
  | VStr s => Some (Text (encode_basestring s))
  | VNone => Some (Text "null")
  | VBool true => Some (Text "true")
  | VBool false => Some (Text "false")
  | VInt z => Some (Text (PyStr.repr_int z))
  | VFloat (Finite m e) => Some (FloatRepr m e)
  | VFloat (Inf false) => Some (Text "Infinity")
  | VFloat (Inf true) => Some (Text "-Infinity")
  | VNaN => Some (Text "NaN")
  | VNA => None
  end.

Definition nl : string := String (ascii_of_N 10) EmptyString.
Definition indent1 : string := nl +:+ "  ".
Definition indent2 : string := nl +:+ "    ".

(** The items of one dict, at nesting level two.  The result is what
    was yielded, and the exception that ended the iteration if one
    did. *)
Fixpoint iterencode_items (first : bool) (items : dict) : list chunk * option exn :=
  match items with
  | [] => ([], None)
  | (k, v) :: rest =>
      let pre := (if first then [] else [Text ("," +:+ indent2)])
                 ++ [Text (encode_basestring k); Text ": "] in
      match encode_scalar v with
      | Some c =>
          let '(cs, e) := iterencode_items false rest in (pre ++ c :: cs, e)
      | None => (pre, Some TypeError)
      end
  end.

Definition iterencode_dict (d : dict) : list chunk * option exn :=
  match d with
  | [] => ([Text "{}"], None)
  | _ =>
      let '(cs, e) := iterencode_items true d in
      match e with
      | None => (Text "{" :: Text indent2 :: cs ++ [Text indent1; Text "}"], None)
      | Some _ => (Text "{" :: Text indent2 :: cs, e)
      end
  end.

Fixpoint iterencode_elems (first : bool) (l : list dict) : list chunk * option exn :=
  match l with
  | [] => ([], None)
  | d :: rest =>
      let buf := if first then "[" +:+ indent1 else "," +:+ indent1 in
      let '(cs, e) := iterencode_dict d in
      match e with
      | None =>
          let '(cs', e') := iterencode_elems false rest in
          (Text buf :: cs ++ cs', e')
      | Some _ => (Text buf :: cs, e)
      end
  end.

(** [JSONEncoder(indent=2, ensure_ascii=False).iterencode(records)] *)
Definition iterencode (l : list dict) : list chunk * option exn :=
  match l with
  | [] => ([Text "[]"], None)
  | _ =>
      let '(cs, e) := iterencode_elems true l in
      match e with
      | None => (cs ++ [Text nl; Text "]"], None)
      | Some _ => (cs, e)
      end
  end.

(** One record as it stands in the output, and the output as a whole:
    the records in their order, between brackets and commas. *)
Definition encode_record (d : dict) : list chunk := fst (iterencode_dict d).

(** One field as it stands in the output: the key, the colon and the
    value. *)
Definition member (k : string) (v : chunk) : list chunk :=
  [Text (encode_basestring k); Text ": "; v].

Definition layout (docs : list (list chunk)) : list chunk :=
  match docs with
  | [] => [Text "[]"]
  | d :: ds =>
      Text ("[" +:+ indent1) :: d
      ++ flat_map (fun d' => Text ("," +:+ indent1) :: d') ds
      ++ [Text nl; Text "]"]
  end.

End Json.


(** ** The world outside the script *)

Inductive locator :=
| ByName (s : string) | ById (s : string) | ByLinkText (s : string)
| ByXPath (s : string) | ByCss (s : string).

Global Instance locator_eq_dec : EqDecision locator.
Proof. solve_decision. Defined.

(** The browser as the script sees it: the navigable location and the
    text typed into the page's input elements. *)
Record Browser := {
  current_url : string;
  inputs : list (locator * string);
}.

Inductive session := NotStarted | Running (b : Browser) | Closed.

Inductive message :=
| MsgWrongFormat | MsgInvalidDate
| MsgInitializing | MsgNavigating | MsgEnteringEmail (email : option string)
| MsgEnteringPassword | MsgWaitingDashboard | MsgLoginSuccessful
| MsgApplying (date_from date_to : string) | MsgWaitingUrl
| MsgGettingLink | MsgDownloading (url : string) | MsgFound (n : nat)
| MsgSaving | MsgSaved (filename : string)
| MsgMissingEnv | MsgError (e : exn) | MsgBrowserClosed.

(** What the script does that can be observed from outside. *)
Inductive event :=
| Prompt (label : string)          (* [input(...)] asks for a line *)
| Printed (m : message)
| CalendarCheck (s : string)       (* [datetime.strptime(s, ...)] is called *)
| Get (url : string)               (* [driver.get(url)] *)
| Download (url : string)          (* [session.get(url)] *)
| BrowserQuit.                     (* [driver.quit()] *)

Record World := {
  stdin : list string;
  trace : list event;
  fs : gmap string (list Json.chunk);
  chrome : session;
}.

(** Everything the script asks of its surroundings: the environment
    variables (after [load_dotenv]), the browser and the site behind
    it, the HTTP client, and the library functions that are used as
    black boxes.  For the waits, the answer is the one that holds when
    the wait returns or gives up. *)
Record Env := {
  (* [os.getenv(name)] *)
  getenv : string -> option string;
  (* [webdriver.Chrome()] starts a browser, or raises *)
  chrome_starts : bool;
  (* [driver.maximize_window()] goes through, or raises *)
  maximize_ok : bool;
  (* [driver.get(url)]: the page the browser lands on, or an error *)
  page_load : string -> Browser -> option Browser;
  (* [presence_of_element_located(locator)] within so many seconds *)
  present : Z -> locator -> Browser -> bool;
  (* what the page does when text and ENTER are typed into a field *)
  keys_enter : locator -> string -> Browser -> Browser;
  (* [find_element(locator).click()]: the page after the click, or no
     such element; for the filter form, the page that the wait for a
     new location ends on *)
  click : locator -> Browser -> option Browser;
  (* [export_link.get_attribute("href")] *)
  export_href : Browser -> option string;
  (* [driver.get_cookies()], as name and value *)
  get_cookies : Browser -> list (string * string);
  (* [urllib.parse.urljoin(base, href)] *)
  urljoin : string -> option string -> string;
  (* [session.get(url)] with these cookies: status code and text, or
     no response *)
  http_get : string -> list (string * string) -> option (Z * string);
  (* [pd.read_csv(StringIO(text))]: the frame, or a parse error *)
  read_csv : string -> option Pandas.DataFrame;
  (* the pandas that [import pandas] finds *)
  pandas : Pandas.release;
  (* [open(name, "w")] succeeds *)
  can_open : string -> bool;
}.

(** ** State and exceptions *)

Inductive result (A : Type) := Ok (a : A) | Raise (e : exn).
Arguments Ok {A} a.
Arguments Raise {A} e.

Definition M (A : Type) : Type := World -> result A * World.

Definition ret {A} (a : A) : M A := fun w => (Ok a, w).

Definition bind {A B} (m : M A) (k : A -> M B) : M B :=
  fun w => match m w with
           | (Ok a, w') => k a w'
           | (Raise e, w') => (Raise e, w')
           end.

Definition raise {A} (e : exn) : M A := fun w => (Raise e, w).

Notation "'let*' x ':=' m 'in' k" := (bind m (fun x => k))
  (at level 10, x pattern, m at level 100, k at level 200).
Notation "m ';;' k" := (bind m (fun _ => k))
  (at level 100, k at level 200, right associativity).

Definition emit (ev : event) : M unit :=
  fun w => (Ok tt, {| stdin := stdin w; trace := trace w ++ [ev];
                      fs := fs w; chrome := chrome w |}).

Definition print (m : message) : M unit := emit (Printed m).

Definition set_chrome (c : session) : M unit :=
  fun w => (Ok tt, {| stdin := stdin w; trace := trace w;
                      fs := fs w; chrome := c |}).

Definition set_fs (f : gmap string (list Json.chunk)) : M unit :=
  fun w => (Ok tt, {| stdin := stdin w; trace := trace w;
                      fs := f; chrome := chrome w |}).

Definition get_fs : M (gmap string (list Json.chunk)) := fun w => (Ok (fs w), w).

(** The handle [webdriver.Chrome()] returns. *)
Inductive WebDriver := ChromeDriver.

(** A command sent through the handle reaches the running browser; it
    fails when there is none. *)
Definition browser (driver : WebDriver) : M Browser :=
  fun w => match chrome w with
           | Running b => (Ok b, w)
           | _ => (Raise WebDriverException, w)
           end.

Definition set_browser (driver : WebDriver) (b : Browser) : M unit :=
  set_chrome (Running b).

Fixpoint input_text (l : list (locator * string)) (loc : locator) : string :=
  match l with
  | [] => EmptyString
  | (loc', t) :: l' => if bool_decide (loc' = loc) then t else input_text l' loc
  end.

Fixpoint set_input (l : list (locator * string)) (loc : locator) (t : string)
  : list (locator * string) :=
  match l with
  | [] => [(loc, t)]
  | (loc', t') :: l' =>
      if bool_decide (loc' = loc) then (loc', t) :: l'
      else (loc', t') :: set_input l' loc t
  end.

(** [element.clear()] and [element.send_keys(text)] *)
Definition clear (driver : WebDriver) (loc : locator) : M unit :=
  let* b := browser driver in
  set_browser driver
    {| current_url := current_url b; inputs := set_input (inputs b) loc EmptyString |}.

Definition send_keys (driver : WebDriver) (loc : locator) (text : string) : M unit :=
  let* b := browser driver in
  set_browser driver
    {| current_url := current_url b;
       inputs := set_input (inputs b) loc (input_text (inputs b) loc +:+ text) |}.

(** ** The script *)

Section Script.
Variable env : Env.

Definition default_url : string := "https://app.littlehotelier.com/".

(** [x or y] on an optional string: the empty string and [None] are
    the false ones. *)
Definition truthy (o : option string) : bool :=
  match o with
  | Some s => negb (PyStr.is_empty s)
  | None => false
  end.

Definition WEBSITE_URL : string :=
  match getenv env "WEBSITE_URL" with
  | Some s => if truthy (Some s) then s else default_url
  | None => default_url
  end.
Definition USER_EMAIL : option string := getenv env "USER_EMAIL".
Definition USER_PASS : option string := getenv env "USER_PASS".

Definition wait_for (driver : WebDriver) (loc : locator) (timeout : Z) : M unit :=
  let* b := browser driver in
  if present env timeout loc b then ret tt else raise TimeoutException.

(** One turn of the [while True] loop on the line read: what is
    printed or called, and the value returned if the loop ends. *)
Definition attempt (line : string) : list event * option (string * string) :=
  let user_input := PyStr.strip line in
  if negb (date_pattern_match user_input) then ([Printed MsgWrongFormat], None)
  else
    match Datetime.strptime user_input with
    | Some parsed_date =>
        let formatted_date := PyStr.upper (Datetime.strftime parsed_date) in
        ([CalendarCheck user_input], Some (user_input, formatted_date))
    | None => ([CalendarCheck user_input; Printed MsgInvalidDate], None)
    end.

Fixpoint prompt_loop (label : string) (lines : list string)
  : list event * result (string * string) * list string :=
  match lines with
  | [] => ([Prompt label], Raise EOFError, [])
  | line :: rest =>
      match attempt line with
      | (evs, Some r) => (Prompt label :: evs, Ok r, rest)
      | (evs, None) =>
          let '(evs', r, rest') := prompt_loop label rest in
          (Prompt label :: evs ++ evs', r, rest')
      end
  end.

(** [get_date_input(label)]: the pair is the two-element list
    [[user_input, formatted_date]]. *)
Definition get_date_input (label : string) : M (string * string) :=
  fun w =>
    let '(evs, r, rest) := prompt_loop label (stdin w) in
    (r, {| stdin := rest; trace := trace w ++ evs; fs := fs w; chrome := chrome w |}).

Definition initial_page : Browser := {| current_url := "data:,"; inputs := [] |}.

Definition initialize_driver : M WebDriver :=
  print MsgInitializing;;
  (if chrome_starts env then set_chrome (Running initial_page)
   else raise WebDriverException);;
  let driver := ChromeDriver in
  (if maximize_ok env then ret tt else raise WebDriverException);;
  ret driver.

Definition keys_with_enter (driver : WebDriver) (loc : locator) (text : option string)
  : M unit :=
  match text with
  | Some t =>
      let* b := browser driver in
      set_browser driver (keys_enter env loc t b)
  | None => raise TypeError
  end.

Definition login (driver : WebDriver) : M unit :=
  print MsgNavigating;;
  emit (Get WEBSITE_URL);;
  (let* b := browser driver in
   match page_load env WEBSITE_URL b with
   | Some b' => set_browser driver b'
   | None => raise WebDriverException
   end);;
  let EMAIL_FIELD_SELECTOR := ByName "username" in
  wait_for driver EMAIL_FIELD_SELECTOR 15;;
  print (MsgEnteringEmail USER_EMAIL);;
  keys_with_enter driver EMAIL_FIELD_SELECTOR USER_EMAIL;;
  let PASSWORD_FIELD_SELECTOR := ByName "password" in
  wait_for driver PASSWORD_FIELD_SELECTOR 15;;
  print MsgEnteringPassword;;
  keys_with_enter driver PASSWORD_FIELD_SELECTOR USER_PASS;;
  print MsgWaitingDashboard;;
  let DASHBOARD_READY_SELECTOR := ById "horizontal-nav-item-reservations" in
  wait_for driver DASHBOARD_READY_SELECTOR 60;;
  print MsgLoginSuccessful.

(** [driver.find_element(loc).click()] *)
Definition find_and_click (driver : WebDriver) (loc : locator) : M unit :=
  let* b := browser driver in
  match click env loc b with
  | Some b' => set_browser driver b'
  | None => raise NoSuchElementException
  end.

Definition apply_date_filters (driver : WebDriver) (date_from date_to : string)
  : M unit :=
  let DATE_FROM_SELECTOR := ByName "reservation_filter[date_from_display]" in
  let DATE_TO_SELECTOR := ByName "reservation_filter[date_to_display]" in
  print (MsgApplying date_from date_to);;
  let* b := browser driver in
  let old_url := current_url b in
  wait_for driver DATE_FROM_SELECTOR 15;;
  clear driver DATE_FROM_SELECTOR;;
  send_keys driver DATE_FROM_SELECTOR date_from;;
  wait_for driver DATE_TO_SELECTOR 15;;
  clear driver DATE_TO_SELECTOR;;
  send_keys driver DATE_TO_SELECTOR date_to;;
  find_and_click driver (ByXPath "//button[@type='submit']");;
  print MsgWaitingUrl;;
  let* b' := browser driver in
  if bool_decide (current_url b' <> old_url) then ret tt
  else raise TimeoutException.

Definition columns_to_keep : list string :=
  [ "Status"; "Guest first name"; "Guest last name"; "Booking reference";
    "Source"; "Occupants"; "Check in date"; "Check out date"; "Booked";
    "ETA"; "Rooms"; "Payment total"; "Payment outstanding";
    "Invoice Number"; "Guest email"; "Guest phone number" ].

(** [[col for col in columns_to_keep if col in df.columns]] *)
Definition kept_columns (df : Pandas.DataFrame) : list string :=
  filter (fun col => col ∈ Pandas.columns df) columns_to_keep.

(** Steps 5 and 6 of [download_and_parse_csv]: from the frame that
    [read_csv] returned to [reservations_json]; [None] stands for
    the [KeyError] of the selection.  The selection keeps the rows of
    the frame, whatever columns it keeps. *)
Definition normalize (df : Pandas.DataFrame) : option (list Pandas.dict) :=
  let df := Pandas.convert_dtypes (Pandas.where_notnull_none df) in
  let index := Pandas.nrows df in
  df ← Pandas.getitem df (kept_columns df);
  Some (Pandas.to_dict_records (pandas env) index df).

Definition output_filename (date_from date_to : string) : string :=
  "reservations_" +:+ date_from +:+ "_to_" +:+ date_to +:+ ".json".

(** [response.raise_for_status()] raises on the 4xx and 5xx codes. *)
Definition raise_for_status (status : Z) : M unit :=
  if (400 <=? status) && (status <? 600) then raise (HTTPError status) else ret tt.

(** [with open(name, "w") as f: json.dump(obj, f, ...)]: opening
    creates or empties the file, the encoder's chunks are written as
    they are yielded, and the file is closed on the way out, also
    when the encoder raises. *)
Definition dump_to_file (name : string) (obj : list Pandas.dict) : M unit :=
  (if can_open env name then
     (let* f := get_fs in set_fs (<[name := []]> f))
   else raise OSError);;
  let '(chunks, e) := Json.iterencode obj in
  (let* f := get_fs in set_fs (<[name := chunks]> f));;
  match e with
  | Some e => raise e
  | None => ret tt
  end.

Definition download_and_parse_csv (driver : WebDriver) (date_from date_to : string)
  : M (list Pandas.dict) :=
  print MsgGettingLink;;
  wait_for driver (ByCss "a.export") 15;;
  let* b := browser driver in
  let href := export_href env b in
  let full_url := urljoin env (current_url b) href in
  let selenium_cookies := get_cookies env b in
  print (MsgDownloading full_url);;
  emit (Download full_url);;
  match http_get env full_url selenium_cookies with
  | None => raise ConnectionError
  | Some (status, text) =>
      raise_for_status status;;
      match read_csv env text with
      | None => raise ParserError
      | Some df =>
          match normalize df with
          | None => raise KeyError
          | Some reservations_json =>
              print (MsgFound (length reservations_json));;
              print MsgSaving;;
              let output_filename := output_filename date_from date_to in
              dump_to_file output_filename reservations_json;;
              print (MsgSaved output_filename);;
              ret reservations_json
          end
      end
  end.

(** How [run_scraper] came to its end.  The Python function returns
    [None] each time; the model says which way it went. *)
Inductive exit_path :=
| MissingConfiguration
| Finished
| Failed (e : exn).

(** The statements of the [try] block after [driver] is bound. *)
Definition stages (driver : WebDriver) (date_from date_to : string * string) : M unit :=
  login driver;;
  find_and_click driver (ByLinkText "Reservations");;
  apply_date_filters driver (snd date_from) (snd date_to);;
  download_and_parse_csv driver (fst date_from) (fst date_to);;
  ret tt.

(** [try: ... except Exception as e: ... finally: ...], with the
    local variable [driver] carried along. *)
Definition guarded (date_from date_to : string * string) : M exit_path :=
  fun w =>
    let driver : option WebDriver := None in
    let '(driver, (r, w)) :=
      match initialize_driver w with
      | (Ok d, w1) => (Some d, stages d date_from date_to w1)
      | (Raise e, w1) => (driver, (Raise e, w1))
      end in
    let '(path, w) :=
      match r with
      | Ok _ => (Finished, w)
      | Raise e => (Failed e, snd (print (MsgError e) w))
      end in
    match driver with
    | Some d => (Ok path, snd ((set_chrome Closed;; emit BrowserQuit;; print MsgBrowserClosed) w))
    | None => (Ok path, w)
    end.

Definition run_scraper : M exit_path :=
  let* date_from := get_date_input "start" in
  let* date_to := get_date_input "end" in
  if negb (forallb truthy [Some WEBSITE_URL; USER_EMAIL; USER_PASS]) then
    print MsgMissingEnv;;
    ret MissingConfiguration
  else guarded date_from date_to.

End Script.

Arguments kept_columns : simpl never.
Arguments normalize : simpl never.
Arguments output_filename : simpl never.

(** ** A site to run the script against *)

Module Demo.
Import Pandas.

Definition list_url : string := "https://app.littlehotelier.com/reservations".

(** The location after the filter form is submitted: the list view
    with the two dates in its query string. *)
Definition filtered_url (b : Browser) : string :=
  list_url +:+ "?from="
  +:+ input_text (inputs b) (ByName "reservation_filter[date_from_display]")
  +:+ "&to="
  +:+ input_text (inputs b) (ByName "reservation_filter[date_to_display]").

Definition site_click (loc : locator) (b : Browser) : option Browser :=
  match loc with
  | ByLinkText _ => Some {| current_url := list_url; inputs := [] |}
  | ByXPath _ => Some {| current_url := filtered_url b; inputs := inputs b |}
  | _ => None
  end.

Definition vars (name : string) : option string :=
  if bool_decide (name = "USER_EMAIL") then Some "ann@example.com"
  else if bool_decide (name = "USER_PASS") then Some "secret"
  else None.

(** A site that answers every step; the export has status [status]
    and parses to [df]; the window can be maximized or not. *)
Definition site (df : DataFrame) (status : Z) (maximize : bool) : Env :=
  {| getenv := vars;
     chrome_starts := true;
     maximize_ok := maximize;
     page_load := fun url _ => Some {| current_url := url; inputs := [] |};
     present := fun _ _ _ => true;
     keys_enter := fun _ _ b => b;
     click := site_click;
     export_href := fun _ => Some "/reservations.csv";
     get_cookies := fun _ => [("session", "abc")];
     urljoin := fun base href => "https://app.littlehotelier.com" +:+ default "" href;
     http_get := fun _ _ => Some (status, "csv");
     read_csv := fun _ => Some df;
     pandas := Pandas3;
     can_open := fun _ => true |}.

(** Two rows; the second guest has no first name, and the second
    row has no occupants. *)
Definition export : DataFrame :=
  [ {| name := "Status"; dtype := object;
       values := [VStr "confirmed"; VStr "cancelled"] |};
    {| name := "Guest first name"; dtype := object;
       values := [VStr "Ann"; VNaN] |};
    {| name := "Extra1"; dtype := int64; values := [VInt 1; VInt 2] |};
    {| name := "Occupants"; dtype := float64;
       values := [VFloat (Finite 2 0); VNaN] |} ].

(** The same export with every cell filled in. *)
Definition full_export : DataFrame :=
  [ {| name := "Status"; dtype := object;
       values := [VStr "confirmed"; VStr "cancelled"] |};
    {| name := "Guest first name"; dtype := object;
       values := [VStr "Ann"; VStr "Bob"] |};
    {| name := "Extra1"; dtype := int64; values := [VInt 1; VInt 2] |};
    {| name := "Occupants"; dtype := int64; values := [VInt 2; VInt 1] |} ].

Definition start (lines : list string) : World :=
  {| stdin := lines; trace := []; fs := ∅; chrome := NotStarted |}.

(** The two lines typed at the prompts, and the file they name. *)
Definition january : list string := ["01-01-2025"; "31-01-2025"].
Definition january_file : string := "reservations_01-01-2025_to_31-01-2025.json".

(** The browser on the reservation list, logged in. *)
Definition at_list : World :=
  {| stdin := []; trace := []; fs := ∅;
     chrome := Running {| current_url := list_url; inputs := [] |} |}.

End Demo.


(** ** The properties in the words of the specification *)

Module Spec.

(** The shape [DD-MM-YYYY], read off the text character by character. *)
Definition matches_DD_MM_YYYY (s : string) : bool :=
  match s with
  | String d1 (String d2 (String h1 (String m1 (String m2 (String h2
      (String y1 (String y2 (String y3 (String y4 EmptyString))))))))) =>
      PyStr.isdigit d1 && PyStr.isdigit d2 && bool_decide (h1 = "-"%char)
      && PyStr.isdigit m1 && PyStr.isdigit m2 && bool_decide (h2 = "-"%char)
      && PyStr.isdigit y1 && PyStr.isdigit y2 && PyStr.isdigit y3
      && PyStr.isdigit y4
  | _ => false
  end.

Definition day_of (s : string) : Z := PyStr.int (substring 0 2 s).
Definition month_of (s : string) : Z := PyStr.int (substring 3 2 s).
Definition year_of (s : string) : Z := PyStr.int (substring 6 4 s).

(** A text of that shape denotes a date of the calendar: a month from
    1 to 12, a day that the month has in that year, and a year from 1
    on (the calendar has no year 0). *)
Definition real_calendar_date (s : string) : bool :=
  (1 <=? year_of s)
  && (1 <=? month_of s) && (month_of s <=? 12)
  && (1 <=? day_of s)
  && (day_of s <=? Datetime.days_in_month (year_of s) (month_of s)).

Inductive verdict := InvalidFormat | InvalidCalendarDate | Accepted.

Global Instance verdict_eq_dec : EqDecision verdict.
Proof. solve_decision. Defined.

Definition classify (s : string) : verdict :=
  if negb (matches_DD_MM_YYYY s) then InvalidFormat
  else if negb (real_calendar_date s) then InvalidCalendarDate
  else Accepted.

(** Two digits, a space, three upper-case letters, a space, four
    digits. *)
Definition is_display_form (s : string) : bool :=
  match s with
  | String d1 (String d2 (String s1 (String m1 (String m2 (String m3
      (String s2 (String y1 (String y2 (String y3 (String y4 EmptyString)))))))))) =>
      PyStr.isdigit d1 && PyStr.isdigit d2 && bool_decide (s1 = " "%char)
      && PyStr.isupper m1 && PyStr.isupper m2 && PyStr.isupper m3
      && bool_decide (s2 = " "%char)
      && PyStr.isdigit y1 && PyStr.isdigit y2 && PyStr.isdigit y3
      && PyStr.isdigit y4
  | _ => false
  end.


(** The whole number that the float [m * 2^e] is, when it is one. *)
Definition whole (m e : Z) : option Z :=
  if 0 <=? e then Some (m * 2 ^ e)
  else if m mod 2 ^ (- e) =? 0 then Some (m / 2 ^ (- e))
  else None.

(** A field says what the cell says: nothing for a missing cell, and
    then it is [None]; the same text; the same truth value; the same
    number, held as an integer or as a float. *)
Definition same_value (cell field : Pandas.value) : bool :=
  match cell, field with
  | (Pandas.VNone | Pandas.VNaN | Pandas.VNA), Pandas.VNone => true
  | Pandas.VStr s, Pandas.VStr s' => bool_decide (s = s')
  | Pandas.VBool b, Pandas.VBool b' => bool_decide (b = b')
  | Pandas.VInt z, Pandas.VInt z' => bool_decide (z = z')
  | Pandas.VFloat f, Pandas.VFloat f' => bool_decide (f = f')
  | Pandas.VInt z, Pandas.VFloat (Pandas.Finite m e)
  | Pandas.VFloat (Pandas.Finite m e), Pandas.VInt z => bool_decide (whole m e = Some z)
  | _, _ => false
  end.

End Spec.

(** What one turn of the prompt loop did, read off its events and its
    result: the line was taken, or one of the two complaints was
    printed. *)
Definition is_calendar_check (ev : event) : bool :=
  match ev with CalendarCheck _ => true | _ => false end.

Definition calendar_checked (evs : list event) : bool := existsb is_calendar_check evs.

Definition complaint (evs : list event) : option message :=
  last (omap (fun ev => match ev with Printed m => Some m | _ => None end) evs).

Definition verdict_of (a : list event * option (string * string)) : option Spec.verdict :=
  match a with
  | (_, Some _) => Some Spec.Accepted
  | (evs, None) =>
      match complaint evs with
      | Some MsgWrongFormat => Some Spec.InvalidFormat
      | Some MsgInvalidDate => Some Spec.InvalidCalendarDate
      | _ => None
      end
  end.

(** The navigable location, while a browser is running. *)
Definition location (w : World) : option string :=
  match chrome w with
  | Running b => Some (current_url b)
  | _ => None
  end.

(** A relation between the world before and the world after that a
    computation keeps, whatever its result. *)
Definition preserves (P : World -> World -> Prop) {A} (m : M A) : Prop :=
  forall w, P w (snd (m w)).

Definition same_fs (w w' : World) : Prop := fs w' = fs w.
Definition same_location (w w' : World) : Prop := location w' = location w.
Definition longer_trace (w w' : World) : Prop := trace w `prefix_of` trace w'.

(** ** The statements that do not hold as they are written *)

Module Claims.

(** An accepted line comes back unchanged as the canonical form, and
    the display form has its shape. *)
Definition round_trips (line : string) : Prop :=
  forall canon disp,
    snd (attempt line) = Some (canon, disp) ->
    canon = line /\ Spec.is_display_form disp = true.

(** The line itself is what is classified, and a line of the wrong
    shape never reaches the calendar check. *)
Definition classified_as_written (line : string) : Prop :=
  verdict_of (attempt line) = Some (Spec.classify line)
  /\ (Spec.classify line = Spec.InvalidFormat ->
      calendar_checked (fst (attempt line)) = false).

(** Applying the same range twice in a row succeeds twice and ends
    where the first application ended. *)
Definition filter_idempotent
    (env : Env) (d : WebDriver) (date_from date_to : string) (w : World) : Prop :=
  exists w1 w2,
    apply_date_filters env d date_from date_to w = (Ok tt, w1)
    /\ apply_date_filters env d date_from date_to w1 = (Ok tt, w2)
    /\ location w2 = location w1.


End Claims.

(** ** Notions for the further properties *)

(** Text made of white space only. *)
Fixpoint only_white_space (s : string) : bool :=
  match s with
  | EmptyString => true
  | String c s' => PyStr.isspace c && only_white_space s'
  end.

(** What one turn of the prompt loop shows for a line: the prompt,
    then what [attempt] does. *)
Definition turn (label line : string) : list event :=
  Prompt label :: fst (attempt line).

(** The events a computation adds to the trace are all of one kind. *)
Definition adds (ok : event -> bool) (w w' : World) : Prop :=
  exists evs, trace w' = trace w ++ evs /\ forallb ok evs = true.

(** What goes on at the date prompt: the prompt itself, the call of
    [strptime], the two complaints. *)
Definition console (ev : event) : bool :=
  match ev with
  | Prompt _ | CalendarCheck _
  | Printed MsgWrongFormat | Printed MsgInvalidDate => true
  | _ => false
  end.

Definition is_quit (ev : event) : bool :=
  match ev with BrowserQuit => true | _ => false end.

Definition not_quit (ev : event) : bool := negb (is_quit ev).

(** The line that says the output file was saved. *)
Definition is_saved (ev : event) : bool :=
  match ev with Printed (MsgSaved _) => true | _ => false end.

(** The events of the stages before the file is saved: no [quit], no
    line that says a file was saved. *)
Definition quiet (ev : event) : bool := negb (is_quit ev) && negb (is_saved ev).

(** The world after some events, after a file is written, and after
    the [finally] block closed the browser. *)
Definition log (evs : list event) (w : World) : World :=
  {| stdin := stdin w; trace := trace w ++ evs; fs := fs w; chrome := chrome w |}.

Definition store (name : string) (content : list Json.chunk) (w : World) : World :=
  {| stdin := stdin w; trace := trace w; fs := <[name := content]> (fs w);
     chrome := chrome w |}.

Definition closed (w : World) : World :=
  {| stdin := stdin w; trace := trace w ++ [BrowserQuit; Printed MsgBrowserClosed];
     fs := fs w; chrome := Closed |}.

(** The exceptions a computation can end in are all of one kind. *)
Definition raises_only (S : exn -> bool) {A} (m : M A) : Prop :=
  forall w e w', m w = (Raise e, w') -> S e = true.

(** What a wait can raise, what a command to the browser can raise,
    and what the [try] block of [run_scraper] can raise. *)
Definition wait_error (e : exn) : bool :=
  match e with
  | WebDriverException | TimeoutException => true
  | _ => false
  end.

Definition browser_error (e : exn) : bool :=
  match e with
  | WebDriverException | TimeoutException | NoSuchElementException => true
  | _ => false
  end.

Definition stage_error (e : exn) : bool :=
  match e with
  | WebDriverException | TimeoutException | NoSuchElementException
  | ConnectionError | ParserError | OSError | TypeError => true
  | HTTPError status => (400 <=? status) && (status <? 600)
  | KeyError | EOFError => false
  end.

(** The ways a run of [run_scraper] can go: the input ends at a
    prompt; a credential is missing; the driver is not handed over; a
    stage fails with the file system untouched; the run finishes, with
    the records of the export that it downloaded in the output file. *)
Inductive outcome (env : Env) (w : World) : result exit_path -> World -> Prop :=
| EndOfInput evs w' :
    forallb console evs = true ->
    trace w' = trace w ++ evs -> fs w' = fs w -> chrome w' = chrome w ->
    outcome env w (Raise EOFError) w'
| NotConfigured evs w' :
    truthy (USER_EMAIL env) && truthy (USER_PASS env) = false ->
    forallb console evs = true ->
    trace w' = trace w ++ evs ++ [Printed MsgMissingEnv] ->
    fs w' = fs w -> chrome w' = chrome w ->
    outcome env w (Ok MissingConfiguration) w'
| NoDriver evs w' :
    truthy (USER_EMAIL env) && truthy (USER_PASS env) = true ->
    forallb console evs = true ->
    trace w' = trace w ++ evs ++ [Printed MsgInitializing;
                                  Printed (MsgError WebDriverException)] ->
    fs w' = fs w ->
    chrome w' = chrome w \/ chrome w' = Running initial_page ->
    outcome env w (Ok (Failed WebDriverException)) w'
| StageFailed e evs w' :
    truthy (USER_EMAIL env) && truthy (USER_PASS env) = true ->
    stage_error e = true -> e <> TypeError ->
    forallb quiet evs = true ->
    trace w' = trace w ++ evs ++ [Printed (MsgError e); BrowserQuit;
                                  Printed MsgBrowserClosed] ->
    fs w' = fs w -> chrome w' = Closed ->
    outcome env w (Ok (Failed e)) w'
| Done date_from date_to w1 w2 br status text df recs evs w' :
    truthy (USER_EMAIL env) && truthy (USER_PASS env) = true ->
    get_date_input "start" w = (Ok date_from, w1) ->
    get_date_input "end" w1 = (Ok date_to, w2) ->
    Download (urljoin env (current_url br) (export_href env br)) ∈ evs ->
    http_get env (urljoin env (current_url br) (export_href env br)) (get_cookies env br)
    = Some (status, text) ->
    read_csv env text = Some df ->
    normalize env df = Some recs ->
    snd (Json.iterencode recs) = None ->
    forallb quiet evs = true ->
    trace w' = trace w ++ evs
               ++ [Printed (MsgSaved (output_filename (fst date_from) (fst date_to)));
                   BrowserQuit; Printed MsgBrowserClosed] ->
    fs w' = <[output_filename (fst date_from) (fst date_to)
              := fst (Json.iterencode recs)]> (fs w) ->
    chrome w' = Closed ->
    outcome env w (Ok Finished) w'.

(** ** More sites to run the script against *)

Module Cases.

(** An environment with other variables, and a site with other
    elements on its pages. *)
Definition with_getenv (f : string -> option string) (e : Env) : Env :=
  {| getenv := f;
     chrome_starts := chrome_starts e; maximize_ok := maximize_ok e;
     page_load := page_load e; present := present e; keys_enter := keys_enter e;
     click := click e; export_href := export_href e; get_cookies := get_cookies e;
     urljoin := urljoin e; http_get := http_get e; read_csv := read_csv e;
     pandas := pandas e; can_open := can_open e |}.

Definition with_present (p : Z -> locator -> Browser -> bool) (e : Env) : Env :=
  {| getenv := getenv e;
     chrome_starts := chrome_starts e; maximize_ok := maximize_ok e;
     page_load := page_load e; present := p; keys_enter := keys_enter e;
     click := click e; export_href := export_href e; get_cookies := get_cookies e;
     urljoin := urljoin e; http_get := http_get e; read_csv := read_csv e;
     pandas := pandas e; can_open := can_open e |}.

Definition with_pandas (v : Pandas.release) (e : Env) : Env :=
  {| getenv := getenv e;
     chrome_starts := chrome_starts e; maximize_ok := maximize_ok e;
     page_load := page_load e; present := present e; keys_enter := keys_enter e;
     click := click e; export_href := export_href e; get_cookies := get_cookies e;
     urljoin := urljoin e; http_get := http_get e; read_csv := read_csv e;
     pandas := v; can_open := can_open e |}.

(** The site as it answers when all goes well, with a missing cell in
    the export, with an export that is not found, and with an export
    that comes with the status 300. *)
Definition good : Env := Demo.site Demo.full_export 200 true.
Definition gaps : Env := Demo.site Demo.export 200 true.
Definition not_found : Env := Demo.site Demo.full_export 404 true.

(** No password in the environment. *)
Definition no_password : Env :=
  with_getenv (fun name => if bool_decide (name = "USER_EMAIL")
                           then Some "ann@example.com" else None) good.

(** A site whose dashboard never shows. *)
Definition no_dashboard : Env :=
  with_present (fun _ loc _ => negb (bool_decide
                  (loc = ById "horizontal-nav-item-reservations"))) good.

(** An export with none of the sixteen columns. *)
Definition other_columns : Pandas.DataFrame :=
  [ {| Pandas.name := "Extra1"; Pandas.dtype := Pandas.int64;
       Pandas.values := [Pandas.VInt 1; Pandas.VInt 2] |} ].

(** A header with [Status], [Guest first name] and [Extra1]. *)
Definition three_columns : Pandas.DataFrame :=
  [ {| Pandas.name := "Status"; Pandas.dtype := Pandas.object;
       Pandas.values := [Pandas.VStr "confirmed"] |};
    {| Pandas.name := "Guest first name"; Pandas.dtype := Pandas.object;
       Pandas.values := [Pandas.VStr "Ann"] |};
    {| Pandas.name := "Extra1"; Pandas.dtype := Pandas.int64;
       Pandas.values := [Pandas.VInt 1] |} ].

(** The records of [Demo.export]. *)
Definition gaps_records : list Pandas.dict :=
  [ [("Status", Pandas.VStr "confirmed"); ("Guest first name", Pandas.VStr "Ann");
     ("Occupants", Pandas.VInt 2)];
    [("Status", Pandas.VStr "cancelled"); ("Guest first name", Pandas.VNone);
     ("Occupants", Pandas.VNone)] ].

(** The records of [Demo.full_export]. *)
Definition full_records : list Pandas.dict :=
  [ [("Status", Pandas.VStr "confirmed"); ("Guest first name", Pandas.VStr "Ann");
     ("Occupants", Pandas.VInt 2)];
    [("Status", Pandas.VStr "cancelled"); ("Guest first name", Pandas.VStr "Bob");
     ("Occupants", Pandas.VInt 1)] ].

(** The reservation list with a date left in the first filter field. *)
Definition filter_left_over : World :=
  {| stdin := []; trace := []; fs := ∅;
     chrome := Running
       {| current_url := Demo.list_url;
          inputs := [(ByName "reservation_filter[date_from_display]", "01 DEC 2024")] |} |}.

End Cases.

(** * Properties *)

(** ** Strings *)

Section StringFacts.
Import PyStr.

Lemma digit_char_cases n :
  In (digit_char n)
     ["0"; "1"; "2"; "3"; "4"; "5"; "6"; "7"; "8"; "9"]%char.
Proof.
  unfold digit_char.
  assert (H : 0 <= n mod 10 < 10) by (apply Z.mod_pos_bound; lia).
  assert (C : n mod 10 = 0 \/ n mod 10 = 1 \/ n mod 10 = 2 \/ n mod 10 = 3
              \/ n mod 10 = 4 \/ n mod 10 = 5 \/ n mod 10 = 6
              \/ n mod 10 = 7 \/ n mod 10 = 8 \/ n mod 10 = 9) by lia.
  destruct C as [-> | [-> | [-> | [-> | [-> | [-> | [-> | [-> | [-> | ->]]]]]]]]];
    simpl; tauto.
Qed.

Lemma isdigit_digit_char n : isdigit (digit_char n) = true.
Proof.
  pose proof (digit_char_cases n) as H. simpl in H.
  repeat destruct H as [<- | H]; try reflexivity. contradiction.
Qed.

Lemma upper_digit_char n : upper_char (digit_char n) = digit_char n.
Proof.
  pose proof (digit_char_cases n) as H. simpl in H.
  repeat destruct H as [<- | H]; try reflexivity. contradiction.
Qed.

Lemma isdigit_cases c :
  isdigit c = true ->
  In c ["0"; "1"; "2"; "3"; "4"; "5"; "6"; "7"; "8"; "9"]%char.
Proof.
  destruct c as [[] [] [] [] [] [] [] []]; vm_compute; intros H;
    try discriminate H; tauto.
Qed.

Lemma app_cons c s t : String c s +:+ t = String c (s +:+ t).
Proof. reflexivity. Qed.

Lemma app_empty t : EmptyString +:+ t = t.
Proof. reflexivity. Qed.

Lemma upper_app s t : upper (s +:+ t) = upper s +:+ upper t.
Proof.
  induction s as [|c s IH]; [reflexivity|].
  rewrite app_cons. cbn [upper]. now rewrite IH, app_cons.
Qed.

(** What [rstrip] leaves does not end in white space. *)
Lemma rstrip_no_trailing_space s : ends_with_space (rstrip s) = false.
Proof.
  induction s as [|c s IH]; [reflexivity|].
  cbn. destruct (isspace c) eqn:Hc; cbn.
  - destruct (rstrip s) as [|c' r] eqn:Hr; cbn; [reflexivity|].
    exact IH.
  - destruct (rstrip s) as [|c' r] eqn:Hr; cbn; [exact Hc|]. exact IH.
Qed.

Lemma strip_no_trailing_space s : ends_with_space (strip s) = false.
Proof. apply rstrip_no_trailing_space. Qed.

(** Text without white space at either end is left alone. *)
Lemma rstrip_id s : ends_with_space s = false -> rstrip s = s.
Proof.
  induction s as [|c s IH]; [reflexivity|].
  intros H. cbn in *. destruct s as [|c' s'].
  - cbn. now rewrite H.
  - rewrite IH by exact H. cbn.
    now rewrite andb_false_r.
Qed.

Lemma isdigit_not_space c : isdigit c = true -> isspace c = false.
Proof. unfold isdigit, isspace. lia. Qed.

(** On digits [int] has no white space to remove. *)
Lemma int_two d1 d2 :
  isdigit d1 = true -> isdigit d2 = true ->
  int (String d1 (String d2 EmptyString)) = 10 * digit_value d1 + digit_value d2.
Proof.
  intros H1 H2. unfold int, strip. cbn [lstrip].
  rewrite (isdigit_not_space d1 H1). cbn [rstrip].
  rewrite (isdigit_not_space d1 H1), (isdigit_not_space d2 H2). cbn. lia.
Qed.

Lemma int_four y1 y2 y3 y4 :
  isdigit y1 = true -> isdigit y2 = true -> isdigit y3 = true -> isdigit y4 = true ->
  int (String y1 (String y2 (String y3 (String y4 EmptyString))))
  = 1000 * digit_value y1 + 100 * digit_value y2 + 10 * digit_value y3 + digit_value y4.
Proof.
  intros H1 H2 H3 H4. unfold int, strip. cbn [lstrip].
  rewrite (isdigit_not_space y1 H1). cbn [rstrip].
  rewrite (isdigit_not_space y1 H1), (isdigit_not_space y2 H2),
    (isdigit_not_space y3 H3), (isdigit_not_space y4 H4). cbn. lia.
Qed.

(** From 1000 on the numeral has its four digits. *)
Lemma decimal_four n : 1000 <= n -> decimal n = four_digits n.
Proof.
  intros H. unfold decimal.
  destruct (Z.ltb_spec n 10); [lia|]. destruct (Z.ltb_spec n 100); [lia|].
  destruct (Z.ltb_spec n 1000); [lia | reflexivity].
Qed.

End StringFacts.

(** ** The date prompt *)

Section RegexFacts.
Import Re PyStr Datetime.

Lemma run_cat_class p r c s :
  run (Cat (Class p) r) (String c s)
  = if p c then (fun mr => (String c (fst mr), snd mr)) <$> run r s else [].
Proof.
  cbn. destruct (p c); cbn; [|reflexivity].
  rewrite app_nil_r.
  induction (run r s) as [|[m rest] l IH]; [reflexivity|].
  cbn. f_equal. exact IH.
Qed.

Lemma matches_cat_class p r s :
  matches (Cat (Class p) r) s
  = match s with
    | String c s' => p c && matches r s'
    | EmptyString => false
    end.
Proof.
  destruct s as [|c s]; [reflexivity|].
  unfold matches, rmatch. rewrite run_cat_class.
  destruct (p c); [|reflexivity].
  destruct (run r s); reflexivity.
Qed.

Lemma matches_dollar s : matches Dollar s = at_end s.
Proof. unfold matches, rmatch. cbn. destruct (at_end s); reflexivity. Qed.

Lemma at_end_no_space s :
  ends_with_space s = false -> at_end s = is_empty s.
Proof.
  destruct s as [|c [|c' s]]; try reflexivity.
  cbn. intros H. destruct (Z.eqb_spec (Z.of_N (N_of_ascii c)) 10) as [E|]; [|reflexivity].
  unfold isspace in H. rewrite E in H. discriminate H.
Qed.

(** On text that does not end in white space, the pattern of
    [get_date_input] accepts exactly the shape [DD-MM-YYYY]. *)
Lemma date_pattern_match_shape s :
  ends_with_space s = false ->
  date_pattern_match s = Spec.matches_DD_MM_YYYY s.
Proof.
  intros H. unfold date_pattern_match, date_pattern, digit, dash, lit.
  repeat (rewrite matches_cat_class;
          destruct s as [|? s]; [reflexivity || (cbn; rewrite ?andb_false_r; reflexivity)|]).
  rewrite matches_dollar.
  rewrite at_end_no_space.
  - cbn. destruct s; cbn; rewrite ?andb_true_r, ?andb_false_r, ?andb_assoc; reflexivity.
  - clear -H. destruct s; [reflexivity | exact H].
Qed.

Lemma digit_value_range c : isdigit c = true -> 0 <= digit_value c <= 9.
Proof. unfold isdigit, digit_value. lia. Qed.

Lemma isdigit_not_dash c : isdigit c = true -> bool_decide (c = "-"%char) = false.
Proof.
  intros H. apply bool_decide_eq_false. intros ->. discriminate H.
Qed.

Lemma run_day d1 d2 rest :
  isdigit d1 = true -> isdigit d2 = true ->
  run Datetime.re_d (String d1 (String d2 rest))
  = (if valid_dd d1 d2 then [(String d1 (String d2 EmptyString), rest)] else [])
    ++ (if nonzero d1 then [(String d1 EmptyString, String d2 rest)] else []).
Proof.
  intros H1 H2.
  apply isdigit_cases in H1. apply isdigit_cases in H2. simpl in H1, H2.
  repeat destruct H1 as [<- | H1]; try contradiction;
    repeat destruct H2 as [<- | H2]; try contradiction;
    vm_compute; reflexivity.
Qed.

Lemma run_month m1 m2 rest :
  isdigit m1 = true -> isdigit m2 = true ->
  run Datetime.re_m (String m1 (String m2 rest))
  = (if valid_mm m1 m2 then [(String m1 (String m2 EmptyString), rest)] else [])
    ++ (if nonzero m1 then [(String m1 EmptyString, String m2 rest)] else []).
Proof.
  intros H1 H2.
  apply isdigit_cases in H1. apply isdigit_cases in H2. simpl in H1, H2.
  repeat destruct H1 as [<- | H1]; try contradiction;
    repeat destruct H2 as [<- | H2]; try contradiction;
    vm_compute; reflexivity.
Qed.

Lemma run_dash_dash rest : run dash (String "-" rest) = [(String "-" EmptyString, rest)].
Proof. vm_compute. reflexivity. Qed.

Lemma run_dash_digit c rest : isdigit c = true -> run dash (String c rest) = [].
Proof. intros H. cbn. now rewrite isdigit_not_dash. Qed.

Lemma run_year y1 y2 y3 y4 rest :
  isdigit y1 = true -> isdigit y2 = true -> isdigit y3 = true -> isdigit y4 = true ->
  run Datetime.re_Y (String y1 (String y2 (String y3 (String y4 rest))))
  = [(String y1 (String y2 (String y3 (String y4 EmptyString))), rest)].
Proof.
  intros H1 H2 H3 H4. unfold Datetime.re_Y, digit.
  rewrite !run_cat_class. cbn. rewrite H1, H2, H3, H4. reflexivity.
Qed.

Lemma bind_nil_l {A B} (f : A -> list B) : [] ≫= f = [].
Proof. reflexivity. Qed.

Ltac step_bind :=
  repeat first
    [ rewrite bind_app | rewrite bind_cons | rewrite bind_nil_l
    | rewrite run_dash_dash | rewrite run_dash_digit by assumption
    | rewrite app_nil_r | rewrite app_nil_l | progress cbv beta iota ].

Lemma format_match_shape d1 d2 m1 m2 y1 y2 y3 y4 :
  isdigit d1 = true -> isdigit d2 = true -> isdigit m1 = true -> isdigit m2 = true ->
  isdigit y1 = true -> isdigit y2 = true -> isdigit y3 = true -> isdigit y4 = true ->
  Datetime.format_match
    (String d1 (String d2 (String "-" (String m1 (String m2 (String "-"
       (String y1 (String y2 (String y3 (String y4 EmptyString))))))))))
  = if valid_dd d1 d2 && valid_mm m1 m2
    then Some (String d1 (String d2 EmptyString), String m1 (String m2 EmptyString),
               String y1 (String y2 (String y3 (String y4 EmptyString))), EmptyString)
    else None.
Proof.
  intros. unfold Datetime.format_match.
  rewrite run_day by assumption.
  destruct (valid_dd d1 d2), (nonzero d1); step_bind; try reflexivity;
    rewrite run_month by assumption;
    destruct (valid_mm m1 m2), (nonzero m1); step_bind; try reflexivity;
    rewrite run_year by assumption; reflexivity.
Qed.

Lemma days_in_month_bound y m : 28 <= Datetime.days_in_month y m <= 31.
Proof.
  unfold Datetime.days_in_month.
  destruct (m =? 2); [destruct (Datetime.is_leap y); lia|].
  destruct ((m =? 4) || (m =? 6) || (m =? 9) || (m =? 11)); lia.
Qed.

Lemma matches_DD_MM_YYYY_inv s :
  Spec.matches_DD_MM_YYYY s = true ->
  exists d1 d2 m1 m2 y1 y2 y3 y4,
    s = String d1 (String d2 (String "-" (String m1 (String m2 (String "-"
          (String y1 (String y2 (String y3 (String y4 EmptyString)))))))))
    /\ isdigit d1 = true /\ isdigit d2 = true /\ isdigit m1 = true
    /\ isdigit m2 = true /\ isdigit y1 = true /\ isdigit y2 = true
    /\ isdigit y3 = true /\ isdigit y4 = true.
Proof.
  do 10 (destruct s as [|? s]; [discriminate|]).
  destruct s; [|discriminate].
  cbn. rewrite !andb_true_iff, !bool_decide_eq_true.
  intros [[[[[[[[[? ?] ->] ?] ?] ->] ?] ?] ?] ?].
  do 8 eexists. split; [reflexivity|]. tauto.
Qed.

(** On text of the shape [DD-MM-YYYY], [strptime] returns exactly
    when the text denotes a date of the calendar, and then with the
    three numbers that are written. *)
Lemma strptime_shape s :
  Spec.matches_DD_MM_YYYY s = true ->
  Datetime.strptime s
  = if Spec.real_calendar_date s
    then Some {| Datetime.year := Spec.year_of s;
                 Datetime.month := Spec.month_of s;
                 Datetime.day := Spec.day_of s |}
    else None.
Proof.
  intros H. apply matches_DD_MM_YYYY_inv in H.
  destruct H as (d1 & d2 & m1 & m2 & y1 & y2 & y3 & y4 & -> & Hd1 & Hd2
                 & Hm1 & Hm2 & Hy1 & Hy2 & Hy3 & Hy4).
  unfold Datetime.strptime. rewrite format_match_shape by assumption.
  assert (Hy : 0 <= int (String y1 (String y2 (String y3 (String y4 EmptyString))))
               <= 9999).
  { rewrite int_four by assumption.
    apply digit_value_range in Hy1, Hy2, Hy3, Hy4. lia. }
  unfold Spec.real_calendar_date, Spec.year_of, Spec.month_of, Spec.day_of.
  cbn [substring].
  destruct (valid_dd d1 d2 && valid_mm m1 m2) eqn:Hv; cbv beta iota;
    unfold valid_dd, valid_mm in Hv; cbv zeta in Hv; unfold Datetime.make.
  all: pose proof (days_in_month_bound
                     (int (String y1 (String y2 (String y3 (String y4 EmptyString)))))
                     (int (String m1 (String m2 EmptyString)))) as Hdim.
  all: revert Hv Hy Hdim. all: clear.
  all: generalize (int (String y1 (String y2 (String y3 (String y4 EmptyString))))).
  all: generalize (int (String m1 (String m2 EmptyString))).
  all: generalize (int (String d1 (String d2 EmptyString))).
  all: intros d m y Hv Hy Hdim.
  all: repeat match goal with
         | |- context [?a <=? ?b] => destruct (Z.leb_spec a b)
         end; cbn; try reflexivity; try lia.
  all: exfalso; revert Hv;
    repeat match goal with
           | |- context [?a <=? ?b] => destruct (Z.leb_spec a b)
           end; cbn; try discriminate; lia.
Qed.
End RegexFacts.

Section DateFacts.
Import PyStr.

Lemma month_abbr_cases m :
  In (Datetime.month_abbr m)
     ["Jan"; "Feb"; "Mar"; "Apr"; "May"; "Jun";
      "Jul"; "Aug"; "Sep"; "Oct"; "Nov"; "Dec"].
Proof.
  unfold Datetime.month_abbr.
  destruct m as [|p|p]; try (simpl; tauto).
  do 4 (try destruct p as [p|p|]); simpl; tauto.
Qed.

(** From the year 1000 on the rendering has the eleven characters. *)
Lemma display_form_strftime d :
  1000 <= Datetime.year d ->
  Spec.is_display_form (upper (Datetime.strftime d)) = true.
Proof.
  intros Hy. unfold Datetime.strftime. rewrite (decimal_four _ Hy).
  unfold two_digits, four_digits.
  pose proof (month_abbr_cases (Datetime.month d)) as H. simpl in H.
  repeat destruct H as [<- | H]; try contradiction;
    cbv beta iota delta [String.append upper Spec.is_display_form];
    rewrite !upper_digit_char, !isdigit_digit_char; reflexivity.
Qed.

(** Before the year 1000 it is shorter. *)
Lemma short_form_strftime d :
  Datetime.year d < 1000 ->
  (String.length (upper (Datetime.strftime d)) < 11)%nat.
Proof.
  intros Hy. unfold Datetime.strftime, decimal, two_digits.
  pose proof (month_abbr_cases (Datetime.month d)) as H. simpl in H.
  destruct (Z.ltb_spec (Datetime.year d) 10);
    [|destruct (Z.ltb_spec (Datetime.year d) 100);
      [|destruct (Z.ltb_spec (Datetime.year d) 1000); [|lia]]];
    repeat destruct H as [<- | H]; try contradiction;
    cbv beta iota delta [String.append upper String.length]; lia.
Qed.

Lemma is_display_form_length s :
  Spec.is_display_form s = true -> String.length s = 11%nat.
Proof.
  do 11 (destruct s as [|? s]; [discriminate|]).
  destruct s; [reflexivity|discriminate].
Qed.

Lemma attempt_Some line canon disp :
  snd (attempt line) = Some (canon, disp) ->
  canon = strip line
  /\ exists parsed, Datetime.strptime canon = Some parsed
                    /\ disp = upper (Datetime.strftime parsed).
Proof.
  unfold attempt.
  destruct (date_pattern_match (strip line)); cbn; [|discriminate].
  destruct (Datetime.strptime (strip line)) as [parsed|] eqn:E; cbn; [|discriminate].
  intros [= <- <-]. split; [reflexivity|]. exists parsed. auto.
Qed.

Lemma prompt_loop_Ok label lines evs r rest :
  prompt_loop label lines = (evs, Ok r, rest) ->
  exists rejected line,
    lines = rejected ++ line :: rest
    /\ snd (attempt line) = Some r
    /\ Forall (fun l => snd (attempt l) = None) rejected.
Proof.
  revert evs. induction lines as [|line lines IH]; intros evs; cbn; [discriminate|].
  destruct (attempt line) as [evs0 [r0|]] eqn:E.
  - intros [= <- <- <-]. exists [], line. rewrite E. auto.
  - destruct (prompt_loop label lines) as [[evs' r'] rest'] eqn:E'.
    intros [= <- -> ->].
    destruct (IH _ eq_refl) as (rejected & l & -> & Hl & Hrej).
    exists (line :: rejected), l. split; [reflexivity|]. split; [exact Hl|].
    constructor; [now rewrite E | exact Hrej].
Qed.

End DateFacts.

(** The line that is taken denotes a date, and the display form is
    that date rendered. *)
Lemma attempt_Some_date line canon disp :
  snd (attempt line) = Some (canon, disp) ->
  canon = PyStr.strip line
  /\ Spec.classify canon = Spec.Accepted
  /\ disp = PyStr.upper (Datetime.strftime
                           {| Datetime.year := Spec.year_of canon;
                              Datetime.month := Spec.month_of canon;
                              Datetime.day := Spec.day_of canon |}).
Proof.
  unfold attempt, Spec.classify.
  rewrite date_pattern_match_shape by apply strip_no_trailing_space.
  destruct (Spec.matches_DD_MM_YYYY (PyStr.strip line)) eqn:Hm; cbn; [|discriminate].
  rewrite strptime_shape by exact Hm.
  destruct (Spec.real_calendar_date (PyStr.strip line)) eqn:Hr; cbn; [|discriminate].
  intros [= <- <-]. rewrite Hm, Hr. auto.
Qed.

Example attempt_22_10_2025 :
  attempt "22-10-2025" = ([CalendarCheck "22-10-2025"], Some ("22-10-2025", "22 OCT 2025")).
Proof. reflexivity. Qed.

Example attempt_30_02_2025 :
  attempt "30-02-2025" = ([CalendarCheck "30-02-2025"; Printed MsgInvalidDate], None).
Proof. reflexivity. Qed.

Example attempt_31_04_2025 :
  attempt "31-04-2025" = ([CalendarCheck "31-04-2025"; Printed MsgInvalidDate], None).
Proof. reflexivity. Qed.

Example attempt_slashes : attempt "22/10/2025" = ([Printed MsgWrongFormat], None).
Proof. reflexivity. Qed.

(** The year 999 has three digits in the display form. *)
Example attempt_01_01_0999 :
  attempt "01-01-0999" = ([CalendarCheck "01-01-0999"], Some ("01-01-0999", "01 JAN 999")).
Proof. reflexivity. Qed.

(** C3, as amended: when [get_date_input] returns, some line of the
    input was taken after the lines before it were turned down; the
    canonical form is that line with the white space at its two ends
    removed, so the line itself when it has none; it denotes a date of
    the calendar, and the display form is that date as [strftime]
    renders it.  From the year 1000 on that is exactly 11 characters:
    two digits, a space, three upper-case letters, a space and four
    digits; before the year 1000 the year is written without its
    leading zeros and the display form is shorter. *)
Theorem get_date_input_forms (label : string) (w w' : World) (canon disp : string) :
  get_date_input label w = (Ok (canon, disp), w') ->
  exists rejected line,
    stdin w = rejected ++ line :: stdin w'
    /\ Forall (fun l => snd (attempt l) = None) rejected
    /\ canon = PyStr.strip line
    /\ (PyStr.strip line = line -> canon = line)
    /\ Spec.classify canon = Spec.Accepted
    /\ disp = PyStr.upper (Datetime.strftime
                             {| Datetime.year := Spec.year_of canon;
                                Datetime.month := Spec.month_of canon;
                                Datetime.day := Spec.day_of canon |})
    /\ (1000 <= Spec.year_of canon ->
        Spec.is_display_form disp = true /\ String.length disp = 11%nat)
    /\ (Spec.year_of canon < 1000 -> (String.length disp < 11)%nat).
Proof.
  unfold get_date_input.
  destruct (prompt_loop label (stdin w)) as [[evs r] rest] eqn:E.
  intros [= -> <-]. cbn.
  apply prompt_loop_Ok in E as (rejected & line & Hl & Ha & Hrej).
  apply attempt_Some_date in Ha as (Hc & Hv & Hd).
  exists rejected, line.
  do 3 (split; [assumption|]). split; [congruence|].
  split; [exact Hv|]. split; [exact Hd|]. split.
  - intros Hy.
    assert (Hshape : Spec.is_display_form disp = true)
      by (rewrite Hd; apply display_form_strftime; exact Hy).
    auto using is_display_form_length.
  - intros Hy. rewrite Hd. apply short_form_strftime. exact Hy.
Qed.

Lemma get_date_input_forms_witness :
  get_date_input "start" (Demo.start [" 31-12-2025 "; "x"])
  = (Ok ("31-12-2025", "31 DEC 2025"),
     {| stdin := ["x"]; trace := [Prompt "start"; CalendarCheck "31-12-2025"];
        fs := ∅; chrome := NotStarted |})
  /\ exists rejected line,
    stdin (Demo.start [" 31-12-2025 "; "x"]) = rejected ++ line :: ["x"]
    /\ Forall (fun l => snd (attempt l) = None) rejected
    /\ "31-12-2025" = PyStr.strip line
    /\ Spec.is_display_form "31 DEC 2025" = true
    /\ String.length "31 DEC 2025" = 11%nat.
Proof.
  split; [reflexivity|].
  destruct (get_date_input_forms "start" (Demo.start [" 31-12-2025 "; "x"]) _ _ _ eq_refl)
    as (rejected & line & H1 & H2 & H3 & _ & _ & _ & H4 & _).
  exists rejected, line.
  destruct H4 as [H4 H5]; [vm_compute; discriminate|]. auto.
Defined.

(** The line [" 22-10-2025"] is taken, and what comes back is not the
    line. *)
Lemma round_trips_counterexample : ~ Claims.round_trips " 22-10-2025".
Proof.
  intros H.
  destruct (H "22-10-2025" "22 OCT 2025" eq_refl) as [E _]. discriminate E.
Qed.

(** C4, as amended: a line of characters up to U+00FF is classified
    after the white space at its two ends is removed.  What is left is
    turned down for its format, with no calendar check, when it does
    not have the shape DD-MM-YYYY; it is turned down as no date of the
    calendar when it has the shape and denotes none; and it is taken
    otherwise. *)
Theorem attempt_classifies (line : string) :
  verdict_of (attempt line) = Some (Spec.classify (PyStr.strip line))
  /\ calendar_checked (fst (attempt line))
     = negb (bool_decide (Spec.classify (PyStr.strip line) = Spec.InvalidFormat)).
Proof.
  unfold attempt, Spec.classify.
  rewrite date_pattern_match_shape by apply strip_no_trailing_space.
  destruct (Spec.matches_DD_MM_YYYY (PyStr.strip line)) eqn:Hm; cbn; [|auto].
  rewrite strptime_shape by exact Hm.
  destruct (Spec.real_calendar_date (PyStr.strip line)); cbn; auto.
Qed.

(** The line [" 22-10-2025"] does not have the shape, and it is taken. *)
Lemma classified_as_written_counterexample :
  ~ Claims.classified_as_written " 22-10-2025".
Proof. intros [H _]. vm_compute in H. discriminate H. Qed.

(** ** The data frame pipeline *)

Section FrameFacts.
Import Pandas.

Lemma name_where_series s : name (where_series s) = name s.
Proof. reflexivity. Qed.

Lemma name_convert_series s : name (convert_series s) = name s.
Proof.
  unfold convert_series, convert_numeric, astype_nullable.
  repeat case_match; reflexivity.
Qed.

Lemma columns_where df : columns (where_notnull_none df) = columns df.
Proof.
  unfold columns, where_notnull_none. rewrite map_map. reflexivity.
Qed.

Lemma columns_convert df : columns (convert_dtypes df) = columns df.
Proof.
  unfold columns, convert_dtypes. rewrite map_map.
  apply map_ext. intros s. apply name_convert_series.
Qed.

Lemma column_Some df l s : column df l = Some s -> name s = l /\ s ∈ df.
Proof.
  induction df as [|s' df IH]; cbn; [discriminate|].
  case_bool_decide as E.
  - intros [= <-]. split; [exact E | left].
  - intros H. destruct (IH H). split; [assumption | now right].
Qed.

Lemma column_is_Some df l : l ∈ columns df -> is_Some (column df l).
Proof.
  induction df as [|s' df IH]; cbn.
  - intros H. inversion H.
  - intros H. case_bool_decide as E; [eauto|].
    apply IH. inversion H; subst; [contradiction | assumption].
Qed.

(** Mapping the columns by a function that keeps their names maps the
    column found under a label. *)
Lemma column_map (f : Series -> Series) df l :
  (forall s, name (f s) = name s) ->
  column (map f df) l = f <$> column df l.
Proof.
  intros Hf. induction df as [|s df IH]; [reflexivity|].
  cbn. rewrite Hf. case_bool_decide; [reflexivity | exact IH].
Qed.

Lemma getitem_columns df labels df' :
  getitem df labels = Some df' -> columns df' = labels.
Proof.
  unfold getitem. intros H. apply mapM_Some_1 in H.
  induction H as [|l s labels df' Hl _ IH]; [reflexivity|].
  cbn. f_equal; [|exact IH]. now apply column_Some in Hl.
Qed.

Lemma getitem_total df labels :
  Forall (fun l => l ∈ columns df) labels -> is_Some (getitem df labels).
Proof.
  intros H. unfold getitem. apply mapM_is_Some.
  eapply Forall_impl; [exact H|]. intros l Hl. cbn. now apply column_is_Some.
Qed.

Lemma getitem_column df labels df' l :
  NoDup labels -> getitem df labels = Some df' -> l ∈ labels ->
  column df' l = column df l.
Proof.
  unfold getitem. intros Hnd H. apply mapM_Some_1 in H.
  induction H as [|l0 s labels df' Hl _ IH]; intros Hin; [inversion Hin|].
  apply NoDup_cons in Hnd as [Hnotin Hnd].
  cbn. destruct (column_Some _ _ _ Hl) as [Hn _].
  case_bool_decide as E.
  - assert (l0 = l) as -> by congruence. now rewrite Hl.
  - apply IH; [assumption|].
    inversion Hin; subst; [congruence | assumption].
Qed.

Lemma kept_columns_NoDup df : NoDup (kept_columns df).
Proof.
  unfold kept_columns. apply NoDup_filter.
  unfold columns_to_keep. apply NoDup_ListNoDup.
  repeat (constructor; [cbn; intuition discriminate|]). constructor.
Qed.

Lemma kept_columns_spec df c :
  c ∈ kept_columns df <-> c ∈ columns_to_keep /\ c ∈ columns df.
Proof. unfold kept_columns. rewrite list_elem_of_filter. tauto. Qed.

Lemma kept_columns_sublist df : kept_columns df `sublist_of` columns_to_keep.
Proof. apply sublist_filter. Qed.

(** The tuples of [zip_star]. *)
Lemma zip_star_lookup arrays i row :
  zip_star arrays !! i = Some row ->
  Forall2 (fun a x => a !! i = Some x) arrays row.
Proof.
  revert row. induction arrays as [|a rest IH]; intros row; [discriminate|].
  destruct rest as [|b rest].
  - cbn. rewrite list_lookup_fmap. destruct (a !! i) as [x|] eqn:E; [|discriminate].
    intros [= <-]. repeat constructor. exact E.
  - change (zip_star (a :: b :: rest)) with (zip_with cons a (zip_star (b :: rest))).
    rewrite lookup_zip_with_Some. intros (x & r & -> & Hx & Hr).
    constructor; [exact Hx | apply IH, Hr].
Qed.

Lemma zip_star_length arrays n :
  arrays <> [] -> Forall (fun a => length a = n) arrays ->
  length (zip_star arrays) = n.
Proof.
  induction arrays as [|a rest IH]; [congruence|]. intros _ H.
  apply Forall_cons in H as [Ha Hrest].
  destruct rest as [|b rest].
  - cbn. now rewrite length_map.
  - change (zip_star (a :: b :: rest)) with (zip_with cons a (zip_star (b :: rest))).
    rewrite length_zip_with, IH by (congruence || assumption). lia.
Qed.

Lemma dict_set_fresh d k v :
  k ∉ d.*1 -> dict_set d k v = d ++ [(k, v)].
Proof.
  induction d as [|[k' v'] d IH]; [reflexivity|].
  cbn. intros H. apply not_elem_of_cons in H as [Hne H].
  rewrite bool_decide_eq_false_2 by congruence. now rewrite IH.
Qed.

Lemma dict_of_acc kvs acc :
  NoDup (acc.*1 ++ kvs.*1) ->
  fold_left (fun d kv => dict_set d (fst kv) (snd kv)) kvs acc = acc ++ kvs.
Proof.
  revert acc. induction kvs as [|[k v] kvs IH]; intros acc H; cbn.
  - now rewrite app_nil_r.
  - cbn in H. pose proof H as H'. apply NoDup_app in H' as (_ & Hdis & _).
    rewrite dict_set_fresh.
    + rewrite IH.
      * now rewrite <- app_assoc.
      * rewrite fmap_app. cbn. rewrite <- app_assoc. exact H.
    + intros Hin. apply (Hdis _ Hin). left.
Qed.

Lemma dict_of_zip keys row :
  NoDup keys -> length keys = length row -> dict_of keys row = zip keys row.
Proof.
  intros Hnd Hlen. unfold dict_of.
  rewrite dict_of_acc; [reflexivity|].
  cbn. rewrite fst_zip by lia. exact Hnd.
Qed.

Lemma dict_get_zip keys row j c :
  NoDup keys -> keys !! j = Some c -> length keys = length row ->
  dict_get (zip keys row) c = row !! j.
Proof.
  revert row j. induction keys as [|k keys IH]; intros row j Hnd Hj Hlen; [discriminate|].
  destruct row as [|x row]; [discriminate|].
  apply NoDup_cons in Hnd as [Hnotin Hnd]. cbn.
  destruct j as [|j]; cbn in Hj.
  - injection Hj as ->. now rewrite bool_decide_eq_true_2.
  - rewrite bool_decide_eq_false_2.
    + apply (IH row j); auto.
    + intros ->. apply Hnotin. eapply list_elem_of_lookup_2, Hj.
Qed.


(** ** From the frame to the record list *)

Lemma convert_series_cellwise s :
  exists f, values (convert_series s) = map f (values s).
Proof.
  unfold convert_series, convert_numeric, astype_nullable.
  repeat case_match; cbn; try (eexists; reflexivity).
  all: exists id; now rewrite map_id.
Qed.

(** [where] and [convert_dtypes] keep the number of rows. *)
Lemma nrows_converted df : nrows (convert_dtypes (where_notnull_none df)) = nrows df.
Proof.
  destruct df as [|s df]; [reflexivity|]. cbn.
  destruct (convert_series_cellwise (where_series s)) as [g ->].
  cbn. now rewrite !length_map.
Qed.

Lemma normalize_frame env df :
  exists df',
    getitem (convert_dtypes (where_notnull_none df)) (kept_columns df) = Some df'
    /\ columns df' = kept_columns df
    /\ normalize env df = Some (to_dict_records (pandas env) (nrows df) df').
Proof.
  assert (Hk : kept_columns (convert_dtypes (where_notnull_none df)) = kept_columns df).
  { unfold kept_columns. now rewrite columns_convert, columns_where. }
  destruct (getitem_total (convert_dtypes (where_notnull_none df)) (kept_columns df))
    as [df' Hdf'].
  { apply Forall_forall. intros c Hc. apply kept_columns_spec in Hc as [_ Hc].
    now rewrite columns_convert, columns_where. }
  exists df'. split; [exact Hdf'|]. split; [eapply getitem_columns, Hdf'|].
  unfold normalize. cbv zeta. rewrite Hk, Hdf', nrows_converted. reflexivity.
Qed.

Lemma record_fields df' r :
  NoDup (columns df') -> r ∈ zip_records df' -> r.*1 = columns df'.
Proof.
  intros Hnd Hr. unfold zip_records, itertuples in Hr.
  apply list_elem_of_fmap in Hr as (row & -> & Hrow).
  apply list_elem_of_lookup in Hrow as [i Hi].
  apply zip_star_lookup in Hi. apply Forall2_length in Hi.
  rewrite length_map in Hi.
  rewrite dict_of_zip.
  - apply fst_zip. unfold columns. rewrite length_map. lia.
  - exact Hnd.
  - unfold columns. rewrite length_map. exact Hi.
Qed.

Lemma record_cell df' i r c :
  NoDup (columns df') -> zip_records df' !! i = Some r -> c ∈ columns df' ->
  dict_get r c = cell df' c i /\ is_Some (cell df' c i).
Proof.
  intros Hnd Hr Hc. unfold zip_records, itertuples in Hr.
  rewrite list_lookup_fmap in Hr.
  destruct (zip_star (map values df') !! i) as [row|] eqn:Hrow; [|discriminate].
  injection Hr as <-.
  apply zip_star_lookup in Hrow.
  pose proof (Forall2_length _ _ _ Hrow) as Hlen. rewrite length_map in Hlen.
  apply list_elem_of_lookup in Hc as [j Hj].
  rewrite dict_of_zip by (auto; unfold columns; now rewrite length_map).
  rewrite (dict_get_zip _ _ j) by (auto; unfold columns; now rewrite length_map).
  unfold columns in Hj. rewrite list_lookup_fmap in Hj.
  destruct (df' !! j) as [s|] eqn:Hs; cbn in Hj; [|discriminate]. injection Hj as Hn.
  assert (Hcol : column df' c = Some s).
  { clear -Hnd Hs Hn. revert j Hs. induction df' as [|s0 df' IH]; intros j Hs; [discriminate|].
    cbn in Hnd. apply NoDup_cons in Hnd as [Hnotin Hnd]. cbn.
    destruct j as [|j]; cbn in Hs.
    - injection Hs as ->. now rewrite bool_decide_eq_true_2.
    - rewrite bool_decide_eq_false_2; [eapply IH; eauto|].
      intros E. apply Hnotin. rewrite E, <- Hn.
      apply list_elem_of_fmap. exists s. split; [reflexivity|].
      eapply list_elem_of_lookup_2, Hs. }
  unfold cell. rewrite Hcol. cbn.
  pose proof (Forall2_lookup_l _ _ _ j (values s) Hrow) as Hl.
  rewrite list_lookup_fmap, Hs in Hl. destruct (Hl eq_refl) as (x & Hx & Hsx).
  rewrite Hx, Hsx. eauto.
Qed.

(** The column of the converted frame under a label is the column of
    the source under that label, converted. *)
Lemma column_converted df c :
  column (convert_dtypes (where_notnull_none df)) c
  = (fun s => convert_series (where_series s)) <$> column df c.
Proof.
  unfold convert_dtypes, where_notnull_none. rewrite map_map.
  apply (column_map (fun s => convert_series (where_series s))).
  intros s. now rewrite name_convert_series.
Qed.

Lemma columns_box df : columns (map box_series df) = columns df.
Proof. unfold columns. rewrite map_map. reflexivity. Qed.

Lemma column_box df c : column (map box_series df) c = box_series <$> column df c.
Proof. apply column_map. reflexivity. Qed.

End FrameFacts.

(** ** The encoder *)

Section JsonFacts.
Import Pandas Json.

Lemma iterencode_items_error first items cs e :
  iterencode_items first items = (cs, Some e) -> e = TypeError.
Proof.
  revert first cs. induction items as [|[k v] items IH]; intros first cs; cbn; [discriminate|].
  destruct (encode_scalar v).
  - destruct (iterencode_items false items) as [cs' e'] eqn:E.
    intros [= <- ->]. eapply IH, E.
  - now intros [= <- <-].
Qed.

Lemma iterencode_items_ok first items :
  snd (iterencode_items first items) = None
  <-> Forall (fun kv => snd kv <> VNA) items.
Proof.
  revert first. induction items as [|[k v] items IH]; intros first; cbn.
  - split; [constructor | reflexivity].
  - rewrite Forall_cons. cbn.
    destruct (encode_scalar v) as [c|] eqn:Ev.
    + specialize (IH false).
      destruct (iterencode_items false items) as [cs' e']. cbn in *.
      rewrite IH. split; [|tauto]. intros H. split; [|exact H].
      intros ->. discriminate Ev.
    + cbn. split; [discriminate|]. intros [H _]. exfalso. apply H.
      destruct v as [| | |?|?|[? ?|[]]|[]]; try discriminate Ev. reflexivity.
Qed.

Lemma iterencode_dict_ok d :
  snd (iterencode_dict d) = None <-> Forall (fun kv => snd kv <> VNA) d.
Proof.
  unfold iterencode_dict. destruct d as [|kv d]; [split; [constructor|reflexivity]|].
  rewrite <- (iterencode_items_ok true).
  destruct (iterencode_items true (kv :: d)) as [cs [e|]]; cbn; tauto.
Qed.

Lemma iterencode_dict_error d cs e :
  iterencode_dict d = (cs, Some e) -> e = TypeError.
Proof.
  unfold iterencode_dict. destruct d as [|kv d]; [discriminate|].
  destruct (iterencode_items true (kv :: d)) as [cs' [e'|]] eqn:E; [|discriminate].
  intros [= <- <-]. eapply iterencode_items_error, E.
Qed.

Lemma iterencode_elems_ok first l :
  snd (iterencode_elems first l) = None
  <-> Forall (Forall (fun kv => snd kv <> VNA)) l.
Proof.
  revert first. induction l as [|d l IH]; intros first; cbn.
  - split; [constructor | reflexivity].
  - rewrite Forall_cons, <- iterencode_dict_ok, <- (IH false).
    destruct (iterencode_dict d) as [cs [e|]]; cbn.
    + split; [discriminate | intros [H _]; discriminate H].
    + destruct (iterencode_elems false l) as [cs' e']. cbn. tauto.
Qed.

Lemma iterencode_elems_error first l cs e :
  iterencode_elems first l = (cs, Some e) -> e = TypeError.
Proof.
  revert first cs. induction l as [|d l IH]; intros first cs; cbn; [discriminate|].
  destruct (iterencode_dict d) as [cs0 [e0|]] eqn:Ed.
  - intros [= <- <-]. eapply iterencode_dict_error, Ed.
  - destruct (iterencode_elems false l) as [cs' e'] eqn:E.
    intros [= <- ->]. eapply IH, E.
Qed.

(** The encoder gets through exactly when no field holds [pd.NA], and
    [TypeError] is the only way it ends otherwise. *)
Lemma iterencode_ok l :
  snd (iterencode l) = None <-> Forall (Forall (fun kv => snd kv <> VNA)) l.
Proof.
  unfold iterencode. destruct l as [|d l]; [split; [constructor|reflexivity]|].
  rewrite <- (iterencode_elems_ok true).
  destruct (iterencode_elems true (d :: l)) as [cs [e|]]; cbn; tauto.
Qed.

Lemma iterencode_error l e : snd (iterencode l) = Some e -> e = TypeError.
Proof.
  unfold iterencode. destruct l as [|d l]; [discriminate|].
  destruct (iterencode_elems true (d :: l)) as [cs [e'|]] eqn:E; [|discriminate].
  cbn. intros [= <-]. eapply iterencode_elems_error, E.
Qed.

Lemma iterencode_elems_layout l cs :
  iterencode_elems false l = (cs, None) ->
  cs = flat_map (fun d' => Text ("," +:+ indent1) :: d') (map encode_record l).
Proof.
  revert cs. induction l as [|d l IH]; intros cs; cbn; [now intros [= <-]|].
  unfold encode_record at 1.
  destruct (iterencode_dict d) as [cs0 [e0|]]; [discriminate|].
  destruct (iterencode_elems false l) as [cs' e'].
  intros [= <- ->]. cbn. now rewrite (IH _ eq_refl).
Qed.

(** When the encoder gets through, the output is the records in their
    order. *)
Lemma iterencode_layout l :
  snd (iterencode l) = None -> fst (iterencode l) = layout (map encode_record l).
Proof.
  unfold iterencode. destruct l as [|d l]; [reflexivity|].
  cbn [iterencode_elems]. unfold layout, encode_record at 1. cbn [map].
  destruct (iterencode_dict d) as [cs0 [e0|]]; [discriminate|].
  destruct (iterencode_elems false l) as [cs' [e'|]] eqn:E; [discriminate|].
  intros _. cbn. rewrite (iterencode_elems_layout _ _ E).
  now rewrite <- app_assoc.
Qed.

(** A field that the encoder wrote stands in the record as its key,
    the colon and its value. *)
Lemma iterencode_items_member first items k v c :
  (k, v) ∈ items -> encode_scalar v = Some c ->
  snd (iterencode_items first items) = None ->
  exists pre post, fst (iterencode_items first items) = pre ++ member k c ++ post.
Proof.
  revert first. induction items as [|[k0 v0] items IH]; intros first Hin Hc;
    [inversion Hin|].
  cbn. destruct (encode_scalar v0) as [c0|] eqn:E0; [|discriminate].
  destruct (iterencode_items false items) as [cs e] eqn:E. cbn. intros ->.
  apply elem_of_cons in Hin as [[= <- <-] | Hin].
  - rewrite E0 in Hc. injection Hc as ->.
    exists (if first then [] else [Text ("," +:+ indent2)]), cs.
    unfold member. now rewrite <- app_assoc.
  - destruct (IH false Hin Hc) as (pre & post & Hpp); [now rewrite E|].
    rewrite E in Hpp. cbn in Hpp. rewrite Hpp.
    exists (((if first then [] else [Text ("," +:+ indent2)])
             ++ [Text (encode_basestring k0); Text ": "]) ++ c0 :: pre), post.
    now rewrite <- !app_assoc.
Qed.

Lemma encode_record_member d k v c :
  (k, v) ∈ d -> encode_scalar v = Some c -> snd (iterencode_dict d) = None ->
  exists pre post, encode_record d = pre ++ member k c ++ post.
Proof.
  intros Hin Hc. unfold encode_record, iterencode_dict.
  destruct d as [|kv d]; [inversion Hin|].
  pose proof (iterencode_items_member true (kv :: d) k v c Hin Hc) as H.
  destruct (iterencode_items true (kv :: d)) as [cs [e|]]; [discriminate|].
  intros _. destruct (H eq_refl) as (pre & post & Hpp). cbn in Hpp. subst cs.
  exists (Text "{" :: Text indent2 :: pre), (post ++ [Text indent1; Text "}"]).
  cbn. now rewrite <- !app_assoc.
Qed.

End JsonFacts.

Section CellFacts.
Import Pandas.

(** A missing cell is still a missing marker after [where] and
    [convert_dtypes]: [pd.NA], or [None] in an object column that is
    left as it is. *)
Lemma missing_cell_marker s i v :
  values s !! i = Some v -> isnull v = true ->
  values (convert_series (where_series s)) !! i = Some VNA
  \/ values (convert_series (where_series s)) !! i = Some VNone.
Proof.
  intros Hi Hv.
  assert (Hw : values (where_series s) !! i = Some (na_value (dtype s))).
  { cbn. rewrite list_lookup_fmap, Hi. cbn. unfold notnull. now rewrite Hv. }
  assert (Hn : isnull (na_value (dtype s)) = true) by (destruct (dtype s); reflexivity).
  assert (Ha : forall d f, values (astype_nullable d f (where_series s)) !! i = Some VNA).
  { intros d f. unfold astype_nullable. cbn [values].
    rewrite list_lookup_fmap, Hw. cbn. now rewrite Hn. }
  unfold convert_series, convert_numeric.
  repeat case_match; rewrite ?Ha; auto.
  all: right; rewrite Hw.
  all: match goal with H : dtype (where_series _) = object |- _ => cbn in H; rewrite H end.
  all: reflexivity.
Qed.

(** In a column of text with at least one value, it is [pd.NA]. *)
Lemma missing_text_cell_is_NA s i v :
  dtype s = object -> infer_dtype (values (where_series s)) = IString ->
  values s !! i = Some v -> isnull v = true ->
  values (convert_series (where_series s)) !! i = Some VNA.
Proof.
  intros Hd Hinf Hi Hv. unfold convert_series.
  change (dtype (where_series s)) with (dtype s). rewrite Hd, Hinf.
  unfold astype_nullable. cbn [values where_series].
  rewrite !list_lookup_fmap, Hi. cbn. unfold notnull. rewrite Hv, Hd. reflexivity.
Qed.

End CellFacts.

(** ** The cells of the records *)

Section CellValues.
Import Pandas.

Lemma where_series_values s v :
  v ∈ values (where_series s) ->
  notnull v = true \/ v = na_value (dtype s).
Proof.
  cbn. intros (v0 & -> & _)%list_elem_of_fmap.
  destruct (notnull v0) eqn:E; auto.
Qed.

Lemma astype_nullable_values d f s v :
  v ∈ values (astype_nullable d f s) ->
  v = VNA \/ exists v0, v0 ∈ values s /\ isnull v0 = false /\ v = f v0.
Proof.
  cbn. intros (v0 & -> & Hin)%list_elem_of_fmap.
  destruct (isnull v0) eqn:E; eauto.
Qed.

(** After [where] and [convert_dtypes] no cell holds the float NaN. *)
Lemma converted_values_no_NaN s v :
  v ∈ values (convert_series (where_series s)) -> v <> VNaN.
Proof.
  assert (Ha : forall d f, (forall v0, isnull v0 = false -> f v0 <> VNaN) ->
                 v ∈ values (astype_nullable d f (where_series s)) -> v <> VNaN).
  { intros d f Hf [-> | (v0 & _ & Hn & ->)]%astype_nullable_values; [discriminate | auto]. }
  assert (Hid : forall v0, isnull v0 = false -> id v0 <> VNaN)
    by (intros v0 Hn E; unfold id in E; subst; discriminate Hn).
  assert (Hint : forall v0, isnull v0 = false -> to_int v0 <> VNaN)
    by (intros [| | |?|?|[]|?]; cbn; intros; discriminate).
  assert (Hfloat : forall v0, isnull v0 = false -> to_float v0 <> VNaN)
    by (intros [| | |?|?|[]|?]; cbn; intros; discriminate).
  unfold convert_series, convert_numeric.
  repeat case_match; eauto.
  all: intros [Hn | ->]%where_series_values;
    [intros ->; discriminate Hn|].
  all: match goal with H : dtype (where_series _) = object |- _ => cbn in H; rewrite H end.
  all: discriminate.
Qed.

Lemma dict_set_elem d k v k' v' :
  (k', v') ∈ dict_set d k v -> (k', v') ∈ d \/ v' = v.
Proof.
  induction d as [|[k0 v0] d IH]; cbn.
  - intros [= _ ->]%list_elem_of_singleton. auto.
  - case_bool_decide as E.
    + intros [[= _ ->] | Hin]%elem_of_cons; [auto | left; now right].
    + intros [-> | Hin]%elem_of_cons; [left; left|].
      destruct (IH Hin); [left; now right | auto].
Qed.

Lemma dict_of_acc_elem kvs acc k v :
  (k, v) ∈ fold_left (fun d kv => dict_set d (fst kv) (snd kv)) kvs acc ->
  (k, v) ∈ acc \/ v ∈ kvs.*2.
Proof.
  revert acc. induction kvs as [|[k0 v0] kvs IH]; intros acc; cbn; [auto|].
  intros [[H | ->]%dict_set_elem | H]%IH.
  - auto.
  - right. left.
  - right. now right.
Qed.

Lemma dict_of_elem keys row k v : (k, v) ∈ dict_of keys row -> v ∈ row.
Proof.
  unfold dict_of. intros [H | H]%dict_of_acc_elem; [inversion H|].
  apply list_elem_of_fmap in H as ([k0 v0] & -> & H).
  apply elem_of_zip_r in H. exact H.
Qed.

Lemma zip_star_elem arrays row v :
  row ∈ zip_star arrays -> v ∈ row -> exists a, a ∈ arrays /\ v ∈ a.
Proof.
  intros [i Hi]%list_elem_of_lookup [j Hj]%list_elem_of_lookup.
  apply zip_star_lookup in Hi.
  destruct (Forall2_lookup_r _ _ _ _ _ Hi Hj) as (a & Ha & Hv).
  exists a. split; eapply list_elem_of_lookup_2; eauto.
Qed.

Lemma getitem_elem df labels df' s :
  getitem df labels = Some df' -> s ∈ df' -> s ∈ df.
Proof.
  unfold getitem. intros H [j Hj]%list_elem_of_lookup.
  apply mapM_Some_1 in H.
  destruct (Forall2_lookup_r _ _ _ _ _ H Hj) as (l & _ & Hl).
  now apply column_Some in Hl.
Qed.

(** A cell of text goes through [where] and [convert_dtypes] as it
    is, whatever the column. *)
Lemma convert_series_text s i t :
  values s !! i = Some (VStr t) ->
  values (convert_series (where_series s)) !! i = Some (VStr t).
Proof.
  intros Hi.
  assert (Hw : values (where_series s) !! i = Some (VStr t)).
  { cbn. rewrite list_lookup_fmap, Hi. reflexivity. }
  assert (Ha : forall d f, f (VStr t) = VStr t ->
                 values (astype_nullable d f (where_series s)) !! i = Some (VStr t)).
  { intros d f Hf. unfold astype_nullable. cbn [values].
    rewrite list_lookup_fmap, Hw. cbn. now rewrite Hf. }
  unfold convert_series, convert_numeric.
  repeat case_match; rewrite ?Ha; auto.
Qed.


(** [convert_dtypes] leaves no column with a numpy dtype, so that
    [to_dict] boxes every cell. *)
Lemma dtype_convert_series s :
  dtype (convert_series s) <> int64 /\ dtype (convert_series s) <> float64
  /\ dtype (convert_series s) <> bool_.
Proof.
  unfold convert_series, convert_numeric, astype_nullable.
  repeat case_match; cbn; repeat split; congruence.
Qed.

Lemma boxed_converted s :
  boxed_values (convert_series s) = map maybe_box_native (values (convert_series s)).
Proof.
  unfold boxed_values. destruct (dtype_convert_series s) as (? & ? & ?).
  destruct (dtype (convert_series s)); congruence.
Qed.

Lemma length_boxed_values s : length (boxed_values s) = length (values s).
Proof. unfold boxed_values. destruct (dtype s); now rewrite ?length_map. Qed.

Lemma same_value_refl v : notnull v = true -> Spec.same_value v v = true.
Proof.
  destruct v as [| | |?|?|[]|?]; cbn; try discriminate; intros _;
    now apply bool_decide_eq_true.
Qed.

Lemma same_value_missing v : isnull v = true -> Spec.same_value v VNone = true.
Proof. destruct v as [| | |?|?|[]|?]; cbn; try discriminate; reflexivity. Qed.

(** A field that says what a missing cell says is [None]. *)
Lemma same_value_null v v' :
  isnull v = true -> Spec.same_value v v' = true -> v' = VNone.
Proof.
  destruct v as [| | |?|?|[]|?]; cbn; try discriminate; intros _;
    destruct v' as [| | |?|?|[]|?]; cbn; try discriminate; reflexivity.
Qed.

Lemma dict_get_elem (d : dict) k v : dict_get d k = Some v -> (k, v) ∈ d.
Proof.
  induction d as [|[k' v'] d IH]; cbn; [discriminate|].
  case_bool_decide as E.
  - intros [= ->]. subst k'. left.
  - intros H. right. now apply IH.
Qed.

Lemma box_present v : notnull v = true -> maybe_box_native v = v.
Proof. destruct v; cbn; try discriminate; reflexivity. Qed.

Lemma box_not_NA v : maybe_box_native v <> VNA.
Proof. destruct v; discriminate. Qed.

Lemma to_int_present v : notnull v = true -> notnull (to_int v) = true.
Proof. destruct v as [| | |?|?|[]|?]; cbn; auto. Qed.

Lemma to_float_present v : notnull v = true -> notnull (to_float v) = true.
Proof. destruct v as [| | |?|?|[]|?]; cbn; auto. Qed.

(** The integer that [astype] makes of a whole float is the number
    that the float is. *)
Lemma same_value_to_int v :
  is_integral v = true -> Spec.same_value v (to_int v) = true.
Proof.
  destruct v as [| | |?|z|[m e|]|?];
    cbn [is_integral to_int Spec.same_value]; try discriminate.
  - intros _. now apply bool_decide_eq_true.
  - intros H. apply bool_decide_eq_true. unfold Spec.whole.
    destruct (0 <=? e); [reflexivity|].
    apply andb_true_iff in H as [H _]. now rewrite H.
Qed.

Lemma same_value_to_float v :
  notnull v = true -> Spec.same_value v (to_float v) = true.
Proof.
  destruct v as [| | |?|z|[]|?];
    cbn [notnull isnull negb to_float Spec.same_value]; try discriminate; intros _;
    apply bool_decide_eq_true; try reflexivity.
  unfold Spec.whole. cbn. f_equal. lia.
Qed.

(** What [where], [convert_dtypes] and the boxing of [to_dict] make of
    a cell says what the cell says. *)
Lemma converted_same_value s i v :
  values s !! i = Some v ->
  exists v',
    boxed_values (convert_series (where_series s)) !! i = Some v'
    /\ Spec.same_value v v' = true.
Proof.
  intros Hi. rewrite boxed_converted, list_lookup_fmap.
  assert (Hna : isnull (na_value (dtype s)) = true) by (destruct (dtype s); reflexivity).
  assert (Hw : exists w1,
             values (where_series s) !! i = Some w1
             /\ (notnull v = true -> w1 = v)
             /\ (isnull v = true -> w1 = na_value (dtype s))).
  { exists (if notnull v then v else na_value (dtype s)). split.
    - cbn. rewrite list_lookup_fmap, Hi. reflexivity.
    - unfold notnull. destruct (isnull v); cbn; split; congruence. }
  destruct Hw as (w1 & Hw & Hpresent & Hmissing).
  assert (Ha : forall d f,
             (notnull v = true ->
              Spec.same_value v (f v) = true /\ notnull (f v) = true) ->
             exists v',
               maybe_box_native <$> values (astype_nullable d f (where_series s)) !! i
               = Some v'
               /\ Spec.same_value v v' = true).
  { intros d f Hf. unfold astype_nullable. cbn [values].
    rewrite list_lookup_fmap, Hw. cbn [fmap option_fmap option_map].
    destruct (isnull v) eqn:Hn.
    - rewrite (Hmissing eq_refl), Hna. eexists. split; [reflexivity|].
      now apply same_value_missing.
    - assert (Hp : notnull v = true) by (unfold notnull; now rewrite Hn).
      rewrite (Hpresent Hp), Hn. destruct (Hf Hp) as [Hs Hp'].
      eexists. split; [reflexivity|]. rewrite box_present by exact Hp'. exact Hs. }
  assert (Hid : notnull v = true ->
                Spec.same_value v (id v) = true /\ notnull (id v) = true)
    by (intros Hn; split; [now apply same_value_refl | exact Hn]).
  assert (Hfl : notnull v = true ->
                Spec.same_value v (to_float v) = true /\ notnull (to_float v) = true)
    by (intros Hn; split; [now apply same_value_to_float | now apply to_float_present]).
  assert (Hin : forallb is_integral
                  (filter (fun x => notnull x = true) (values (where_series s))) = true ->
                notnull v = true ->
                Spec.same_value v (to_int v) = true /\ notnull (to_int v) = true).
  { intros Hall Hn. rewrite forallb_forall in Hall.
    split; [|now apply to_int_present].
    apply same_value_to_int, Hall, list_elem_of_In, list_elem_of_filter.
    split; [exact Hn|]. apply list_elem_of_lookup_2 with i.
    now rewrite Hw, (Hpresent Hn). }
  assert (Hkeep : dtype s = object ->
                  exists v', maybe_box_native <$> values (where_series s) !! i = Some v'
                             /\ Spec.same_value v v' = true).
  { intros Hd. rewrite Hw. cbn [fmap option_fmap option_map].
    eexists. split; [reflexivity|].
    destruct (isnull v) eqn:Hn.
    - rewrite (Hmissing eq_refl), Hd. now apply same_value_missing.
    - assert (Hp : notnull v = true) by (unfold notnull; now rewrite Hn).
      rewrite (Hpresent Hp), box_present by exact Hp. now apply same_value_refl. }
  clear Hw Hpresent Hmissing Hna Hi.
  unfold convert_series, convert_numeric.
  change (dtype (where_series s)) with (dtype s).
  destruct (dtype s) eqn:Hd; try (apply Ha; assumption).
  - destruct (infer_dtype (values (where_series s))); try (apply Ha; assumption);
      try (apply Hkeep; reflexivity);
      destruct (forallb is_integral _) eqn:Hall; apply Ha; auto.
  - destruct (forallb is_integral _) eqn:Hall; apply Ha; auto.
  - destruct (forallb is_integral _) eqn:Hall; apply Ha; auto.
Qed.

End CellValues.

(** ** The record list *)

Section RecordFacts.
Import Pandas.
Variable env : Env.

Lemma wf_export : wf Demo.export.
Proof.
  split.
  - apply NoDup_ListNoDup. cbn.
    repeat (constructor; [cbn; intuition discriminate|]). constructor.
  - exists 2%nat. repeat constructor.
Qed.

Lemma wf_full_export : wf Demo.full_export.
Proof.
  split.
  - apply NoDup_ListNoDup. cbn.
    repeat (constructor; [cbn; intuition discriminate|]). constructor.
  - exists 2%nat. repeat constructor.
Qed.

Lemma wf_three_columns : wf Cases.three_columns.
Proof.
  split.
  - apply NoDup_ListNoDup. cbn.
    repeat (constructor; [cbn; intuition discriminate|]). constructor.
  - exists 1%nat. repeat constructor.
Qed.

(** The columns that are zipped all have the rows of the frame. *)
Lemma kept_series_length df df' n s :
  Forall (fun s => length (values s) = n) df ->
  getitem (convert_dtypes (where_notnull_none df)) (kept_columns df) = Some df' ->
  s ∈ df' -> length (values (box_series s)) = n.
Proof.
  intros Hn Hget Hs. cbn. rewrite length_boxed_values.
  apply (getitem_elem _ _ _ _ Hget) in Hs.
  unfold convert_dtypes, where_notnull_none in Hs. rewrite map_map in Hs.
  apply list_elem_of_fmap in Hs as (s0 & -> & Hs0).
  destruct (convert_series_cellwise (where_series s0)) as [g ->].
  cbn. rewrite !length_map. rewrite Forall_forall in Hn. now apply Hn.
Qed.

(** With a column kept, there is one record for every row. *)
Lemma kept_records df df' :
  wf df ->
  getitem (convert_dtypes (where_notnull_none df)) (kept_columns df) = Some df' ->
  columns df' = kept_columns df ->
  kept_columns df <> [] ->
  to_dict_records (pandas env) (nrows df) df' = zip_records (map box_series df')
  /\ length (zip_records (map box_series df')) = nrows df.
Proof.
  intros [Hnd [n Hn]] Hget Hcols Hne.
  assert (Hdf' : df' <> []) by (intros ->; now apply Hne).
  split; [destruct df'; [congruence | reflexivity]|].
  assert (Hdf : df <> []) by (intros ->; now apply Hne).
  unfold zip_records, itertuples. rewrite length_map.
  rewrite (zip_star_length _ n).
  - destruct df as [|s0 df0]; [congruence|]. cbn.
    apply Forall_cons in Hn as [Hs0 _]. now rewrite Hs0.
  - intros E. apply map_eq_nil, map_eq_nil in E. congruence.
  - apply Forall_forall. intros a Ha.
    apply list_elem_of_fmap in Ha as (s & -> & Hs).
    apply list_elem_of_fmap in Hs as (s1 & -> & Hs1).
    eapply kept_series_length; eauto.
Qed.

(** The records of a frame: their number, their keys, and what their
    fields say. *)
Lemma normalize_cells df recs :
  wf df -> normalize env df = Some recs ->
  (kept_columns df <> [] -> length recs = nrows df)
  /\ Forall (fun r => r.*1 = kept_columns df) recs
  /\ forall c i v,
      c ∈ kept_columns df -> cell df c i = Some v ->
      exists r v',
        recs !! i = Some r /\ dict_get r c = Some v'
        /\ Spec.same_value v v' = true.
Proof.
  intros Hwf Hnorm.
  destruct (normalize_frame env df) as (df' & Hget & Hcols & Hnorm').
  rewrite Hnorm' in Hnorm. injection Hnorm as <-.
  assert (Hnd' : NoDup (columns df')) by (rewrite Hcols; apply kept_columns_NoDup).
  pose proof (kept_records df df' Hwf Hget Hcols) as Hrows.
  split; [intros Hne; destruct (Hrows Hne) as [-> ?]; assumption|]. split.
  - apply Forall_forall. intros r Hr.
    destruct (kept_columns df) as [|c0 l] eqn:Hk.
    + destruct df' as [|? ?]; [|discriminate Hcols]. cbn in Hr.
      destruct (pandas env); [inversion Hr|].
      apply elem_of_replicate in Hr as [-> _]. reflexivity.
    + destruct Hrows as [E _]; [discriminate|]. rewrite E in Hr.
      rewrite <- Hcols, <- (columns_box df').
      apply record_fields; [now rewrite columns_box | exact Hr].
  - intros c i v Hc Hcell.
    assert (Hne : kept_columns df <> []) by (intros E; rewrite E in Hc; inversion Hc).
    destruct (Hrows Hne) as [-> Hlen].
    unfold cell in Hcell.
    destruct (column df c) as [s0|] eqn:Hcol; [|discriminate Hcell].
    cbn in Hcell.
    assert (Hi : (i < length (zip_records (map box_series df')))%nat).
    { rewrite Hlen. destruct Hwf as [_ [n Hn]].
      apply column_Some in Hcol as [_ Hin].
      pose proof Hn as Hn'. rewrite Forall_forall in Hn'.
      apply lookup_lt_Some in Hcell. rewrite (Hn' _ Hin) in Hcell.
      destruct df as [|s1 df1]; [inversion Hin|]. cbn.
      apply Forall_cons in Hn as [-> _]. exact Hcell. }
    apply lookup_lt_is_Some_2 in Hi as [r Hr].
    destruct (record_cell (map box_series df') i r c) as [Hget' _];
      [now rewrite columns_box | exact Hr | now rewrite columns_box, Hcols|].
    unfold cell in Hget'.
    rewrite column_box, (getitem_column _ _ _ c (kept_columns_NoDup df) Hget Hc),
      column_converted, Hcol in Hget'.
    cbn in Hget'.
    destruct (converted_same_value s0 i v Hcell) as (v' & Hv' & Hs).
    exists r, v'. rewrite Hget', Hv'. auto.
Qed.

(** Every field of a record is a cell of a converted column, boxed. *)
Lemma record_values df recs r k v :
  normalize env df = Some recs -> r ∈ recs -> (k, v) ∈ r ->
  exists s v1,
    v1 ∈ values (convert_series (where_series s)) /\ v = maybe_box_native v1.
Proof.
  intros Hnorm Hr Hkv.
  destruct (normalize_frame env df) as (df' & Hget & _ & Hnorm').
  rewrite Hnorm' in Hnorm. injection Hnorm as <-.
  assert (Hz : r ∈ zip_records (map box_series df')).
  { destruct df' as [|s1 df1]; [|exact Hr].
    cbn in Hr. destruct (pandas env); [inversion Hr|].
    apply elem_of_replicate in Hr as [-> _]. inversion Hkv. }
  clear Hr. unfold zip_records, itertuples in Hz.
  apply list_elem_of_fmap in Hz as (row & -> & Hrow).
  apply dict_of_elem in Hkv.
  destruct (zip_star_elem _ _ _ Hrow Hkv) as (a & Ha & Hv).
  apply list_elem_of_fmap in Ha as (s & -> & Hs).
  apply list_elem_of_fmap in Hs as (s2 & -> & Hs2).
  apply (getitem_elem _ _ _ _ Hget) in Hs2.
  unfold convert_dtypes, where_notnull_none in Hs2.
  rewrite map_map in Hs2. apply list_elem_of_fmap in Hs2 as (s0 & -> & _).
  cbn [values box_series] in Hv. rewrite boxed_converted in Hv.
  apply list_elem_of_fmap in Hv as (v1 & -> & Hv1).
  eauto.
Qed.

(** No field of a record is [pd.NA], so the encoder gets through. *)
Lemma normalize_clean df recs :
  normalize env df = Some recs -> Forall (Forall (fun kv => snd kv <> VNA)) recs.
Proof.
  intros Hnorm. apply Forall_forall. intros r Hr.
  apply Forall_forall. intros [k v] Hkv. cbn.
  destruct (record_values _ _ _ _ _ Hnorm Hr Hkv) as (s & v1 & _ & ->).
  apply box_not_NA.
Qed.

Lemma normalize_encodes df recs :
  normalize env df = Some recs -> snd (Json.iterencode recs) = None.
Proof. intros Hnorm. now apply iterencode_ok, normalize_clean with df. Qed.

End RecordFacts.

(** C5: for every frame that [read_csv] can return the selection
    succeeds, whatever columns the frame has; the kept columns are the
    columns of the allow-list that are in the header, in the order of
    the allow-list; every record has exactly these fields, in this
    order; and with a column kept there is one record for every row. *)
Theorem normalize_projects (env : Env) (df : Pandas.DataFrame) :
  Pandas.wf df ->
  exists recs,
    normalize env df = Some recs
    /\ (kept_columns df <> [] -> length recs = Pandas.nrows df)
    /\ Forall (fun r => r.*1 = kept_columns df) recs
    /\ kept_columns df `sublist_of` columns_to_keep
    /\ forall c, c ∈ kept_columns df <-> c ∈ columns_to_keep /\ c ∈ Pandas.columns df.
Proof.
  intros Hwf.
  destruct (normalize_frame env df) as (df' & _ & _ & Hn).
  eexists. split; [exact Hn|].
  destruct (normalize_cells env df _ Hwf Hn) as (Hlen & Hkeys & _).
  split; [exact Hlen|]. split; [exact Hkeys|].
  split; [apply kept_columns_sublist | apply kept_columns_spec].
Qed.

Lemma normalize_projects_witness :
  Pandas.wf Cases.three_columns
  /\ kept_columns Cases.three_columns = ["Status"; "Guest first name"]
  /\ exists recs,
      normalize Cases.good Cases.three_columns = Some recs
      /\ length recs = 1%nat
      /\ Forall (fun r => r.*1 = ["Status"; "Guest first name"]) recs.
Proof.
  assert (Hk : kept_columns Cases.three_columns = ["Status"; "Guest first name"])
    by (vm_compute; reflexivity).
  split; [exact wf_three_columns|]. split; [exact Hk|].
  destruct (normalize_projects Cases.good Cases.three_columns wf_three_columns)
    as (recs & H1 & H2 & H3 & _).
  exists recs. split; [exact H1|]. rewrite Hk in H2, H3.
  split; [apply H2; discriminate | exact H3].
Defined.

(** A header with [Status], [Guest first name] and [Extra1]: the
    records have the first two and nothing else. *)
Example projection_example :
  normalize Cases.good Cases.three_columns
  = Some [[("Status", Pandas.VStr "confirmed"); ("Guest first name", Pandas.VStr "Ann")]].
Proof. vm_compute. reflexivity. Qed.

(** Rows and no kept column: no record at all with pandas 2, an empty
    record for every row with pandas 3. *)
Example no_kept_column :
  normalize (Cases.with_pandas Pandas.Pandas2 Cases.good) Cases.other_columns = Some []
  /\ normalize (Cases.with_pandas Pandas.Pandas3 Cases.good) Cases.other_columns
     = Some [[]; []].
Proof. split; vm_compute; reflexivity. Qed.

(** The export with the two empty cells: they are [None] in the
    record of their row. *)
Example records_of_export :
  normalize Cases.gaps Demo.export = Some Cases.gaps_records.
Proof. vm_compute. reflexivity. Qed.

(** ** The monad *)

Lemma bind_inv {A B} (m : M A) (k : A -> M B) w r w' :
  bind m k w = (r, w') ->
  (exists e, m w = (Raise e, w') /\ r = Raise e)
  \/ (exists a w1, m w = (Ok a, w1) /\ k a w1 = (r, w')).
Proof.
  unfold bind. destruct (m w) as [[a|e] w1].
  - intros H. right. eauto.
  - intros [= <- <-]. left. eauto.
Qed.

Lemma bind_Ok_inv {A B} (m : M A) (k : A -> M B) w b w' :
  bind m k w = (Ok b, w') ->
  exists a w1, m w = (Ok a, w1) /\ k a w1 = (Ok b, w').
Proof.
  intros H. apply bind_inv in H as [(e & _ & [=]) | H]. exact H.
Qed.

Section Preserves.
Variable P : World -> World -> Prop.
Hypothesis P_refl : forall w, P w w.
Hypothesis P_trans : forall w1 w2 w3, P w1 w2 -> P w2 w3 -> P w1 w3.

Lemma preserves_ret {A} (a : A) : preserves P (ret a).
Proof. intros w. apply P_refl. Qed.

Lemma preserves_raise {A} e : preserves P (@raise A e).
Proof. intros w. apply P_refl. Qed.

Lemma preserves_bind {A B} (m : M A) (k : A -> M B) :
  preserves P m -> (forall a, preserves P (k a)) -> preserves P (bind m k).
Proof.
  intros Hm Hk w. unfold bind. specialize (Hm w).
  destruct (m w) as [[a|e] w1]; cbn in *; [|exact Hm].
  eapply P_trans; [exact Hm | apply Hk].
Qed.

Lemma preserves_if {A} (c : bool) (m1 m2 : M A) :
  preserves P m1 -> preserves P m2 -> preserves P (if c then m1 else m2).
Proof. now destruct c. Qed.

Lemma preserves_option {A B} (o : option B) (k : B -> M A) (m : M A) :
  (forall b, preserves P (k b)) -> preserves P m ->
  preserves P (match o with Some b => k b | None => m end).
Proof. now destruct o. Qed.

End Preserves.

Section Frames.
Variable env : Env.

(** The file system is touched by nothing but [dump_to_file]. *)
Lemma same_fs_refl w : same_fs w w.
Proof. reflexivity. Qed.
Lemma same_fs_trans w1 w2 w3 : same_fs w1 w2 -> same_fs w2 w3 -> same_fs w1 w3.
Proof. unfold same_fs. congruence. Qed.

Lemma longer_trace_refl w : longer_trace w w.
Proof. unfold longer_trace. reflexivity. Qed.
Lemma longer_trace_trans w1 w2 w3 :
  longer_trace w1 w2 -> longer_trace w2 w3 -> longer_trace w1 w3.
Proof. unfold longer_trace. intros. etrans; eauto. Qed.

Lemma emit_fs ev : preserves same_fs (emit ev).
Proof. intros w. reflexivity. Qed.
Lemma set_chrome_fs c : preserves same_fs (set_chrome c).
Proof. intros w. reflexivity. Qed.
Lemma browser_fs d : preserves same_fs (browser d).
Proof. intros w. unfold browser. now destruct (chrome w). Qed.

Lemma emit_trace ev : preserves longer_trace (emit ev).
Proof. intros w. cbn. now apply prefix_app_r. Qed.
Lemma set_chrome_trace c : preserves longer_trace (set_chrome c).
Proof. intros w. unfold longer_trace. reflexivity. Qed.
Lemma set_fs_trace f : preserves longer_trace (set_fs f).
Proof. intros w. unfold longer_trace. reflexivity. Qed.
Lemma get_fs_trace : preserves longer_trace get_fs.
Proof. intros w. apply longer_trace_refl. Qed.
Lemma browser_trace d : preserves longer_trace (browser d).
Proof. intros w. unfold browser. destruct (chrome w); apply longer_trace_refl. Qed.

Ltac fs_steps :=
  repeat first
    [ apply emit_fs | apply set_chrome_fs | apply browser_fs
    | apply (preserves_ret same_fs same_fs_refl)
    | apply (preserves_raise same_fs same_fs_refl)
    | apply (preserves_bind same_fs same_fs_trans); [|intros ?]
    | apply preserves_if | apply preserves_option; [intros ?|] ].

Ltac trace_steps :=
  repeat first
    [ apply emit_trace | apply set_chrome_trace | apply browser_trace
    | apply set_fs_trace | apply get_fs_trace
    | apply (preserves_ret longer_trace longer_trace_refl)
    | apply (preserves_raise longer_trace longer_trace_refl)
    | apply (preserves_bind longer_trace longer_trace_trans); [|intros ?]
    | apply preserves_if | apply preserves_option; [intros ?|] ].

Lemma wait_for_fs d loc t : preserves same_fs (wait_for env d loc t).
Proof. unfold wait_for. fs_steps. Qed.

Lemma login_fs d : preserves same_fs (login env d).
Proof.
  unfold login, wait_for, keys_with_enter, print, set_browser. fs_steps.
Qed.

Lemma find_and_click_fs d loc : preserves same_fs (find_and_click env d loc).
Proof. unfold find_and_click, set_browser. fs_steps. Qed.

Lemma apply_date_filters_fs d a b : preserves same_fs (apply_date_filters env d a b).
Proof.
  unfold apply_date_filters, find_and_click, wait_for, clear, send_keys, print, set_browser.
  fs_steps.
Qed.

Lemma get_date_input_fs label : preserves same_fs (get_date_input label).
Proof.
  intros w. unfold get_date_input.
  destruct (prompt_loop label (stdin w)) as [[evs r] rest]. reflexivity.
Qed.

Lemma initialize_driver_fs : preserves same_fs (initialize_driver env).
Proof. unfold initialize_driver, print. fs_steps. Qed.


(** [download_and_parse_csv], step by step. *)
Lemma download_steps d date_from date_to w :
  download_and_parse_csv env d date_from date_to w
  = match chrome w with
    | Running br =>
        if present env 15 (ByCss "a.export") br then
          let url := urljoin env (current_url br) (export_href env br) in
          let w1 := log [Printed MsgGettingLink; Printed (MsgDownloading url);
                         Download url] w in
          match http_get env url (get_cookies env br) with
          | None => (Raise ConnectionError, w1)
          | Some (status, text) =>
              if (400 <=? status) && (status <? 600)
              then (Raise (HTTPError status), w1)
              else
                match read_csv env text with
                | None => (Raise ParserError, w1)
                | Some df =>
                    match normalize env df with
                    | None => (Raise KeyError, w1)
                    | Some recs =>
                        let name := output_filename date_from date_to in
                        let w2 := log [Printed (MsgFound (length recs));
                                       Printed MsgSaving] w1 in
                        if can_open env name then
                          match snd (Json.iterencode recs) with
                          | None =>
                              (Ok recs,
                               log [Printed (MsgSaved name)]
                                 (store name (fst (Json.iterencode recs)) w2))
                          | Some e =>
                              (Raise e, store name (fst (Json.iterencode recs)) w2)
                          end
                        else (Raise OSError, w2)
                    end
                end
          end
        else (Raise TimeoutException, log [Printed MsgGettingLink] w)
    | _ => (Raise WebDriverException, log [Printed MsgGettingLink] w)
    end.
Proof.
  unfold download_and_parse_csv, wait_for, browser, print, emit, bind, raise, ret, log, store.
  cbn -[dump_to_file].
  destruct (chrome w) as [|br|] eqn:Hc; cbn -[dump_to_file]; try reflexivity.
  destruct (present env 15 (ByCss "a.export") br); cbn -[dump_to_file]; [|reflexivity].
  rewrite ?Hc. cbn -[dump_to_file].
  destruct (http_get env _ _) as [[status text]|]; cbn -[dump_to_file];
    [|now rewrite <- !app_assoc].
  unfold raise_for_status, raise, ret.
  destruct ((400 <=? status) && (status <? 600)); cbn -[dump_to_file];
    [now rewrite <- !app_assoc|].
  destruct (read_csv env text) as [df|]; cbn -[dump_to_file];
    [|now rewrite <- !app_assoc].
  destruct (normalize env df) as [recs|]; cbn -[dump_to_file];
    [|now rewrite <- !app_assoc].
  unfold dump_to_file, bind, get_fs, set_fs, raise, ret.
  destruct (can_open env (output_filename date_from date_to)).
  - destruct (Json.iterencode recs) as [chunks [e|]];
      cbv beta iota; cbn [fst snd fs chrome trace stdin];
      rewrite insert_insert_eq, <- !app_assoc; reflexivity.
  - cbv beta iota. cbn [fst snd fs chrome trace stdin]. now rewrite <- !app_assoc.
Qed.

(** What [download_and_parse_csv] ends in: an exception with the file
    system as it was, or the records of the export that it downloaded,
    returned and written to the output file in full. *)
Lemma download_cases d date_from date_to w r w' :
  download_and_parse_csv env d date_from date_to w = (r, w') ->
  chrome w' = chrome w /\ stdin w' = stdin w
  /\ ((exists e evs,
          r = Raise e /\ stage_error e = true /\ e <> TypeError
          /\ forallb quiet evs = true /\ trace w' = trace w ++ evs /\ fs w' = fs w)
      \/ exists br status text df recs evs,
          chrome w = Running br
          /\ http_get env (urljoin env (current_url br) (export_href env br))
               (get_cookies env br) = Some (status, text)
          /\ (400 <=? status) && (status <? 600) = false
          /\ read_csv env text = Some df
          /\ normalize env df = Some recs
          /\ snd (Json.iterencode recs) = None
          /\ r = Ok recs
          /\ forallb quiet evs = true
          /\ Download (urljoin env (current_url br) (export_href env br)) ∈ evs
          /\ trace w' = trace w ++ evs
                        ++ [Printed (MsgSaved (output_filename date_from date_to))]
          /\ fs w' = <[output_filename date_from date_to
                       := fst (Json.iterencode recs)]> (fs w)).
Proof.
  rewrite download_steps.
  assert (Hfail : forall (e : exn) evs,
             stage_error e = true -> e <> TypeError -> forallb quiet evs = true ->
             (@Raise (list Pandas.dict) e, log evs w) = (r, w') ->
             chrome w' = chrome w /\ stdin w' = stdin w
             /\ ((exists e evs,
                     r = Raise e /\ stage_error e = true /\ e <> TypeError
                     /\ forallb quiet evs = true /\ trace w' = trace w ++ evs
                     /\ fs w' = fs w)
                 \/ exists br status text df recs evs,
                     chrome w = Running br
                     /\ http_get env (urljoin env (current_url br) (export_href env br))
                          (get_cookies env br) = Some (status, text)
                     /\ (400 <=? status) && (status <? 600) = false
                     /\ read_csv env text = Some df
                     /\ normalize env df = Some recs
                     /\ snd (Json.iterencode recs) = None
                     /\ r = Ok recs
                     /\ forallb quiet evs = true
                     /\ Download (urljoin env (current_url br) (export_href env br)) ∈ evs
                     /\ trace w' = trace w ++ evs
                                   ++ [Printed (MsgSaved (output_filename date_from date_to))]
                     /\ fs w' = <[output_filename date_from date_to
                                  := fst (Json.iterencode recs)]> (fs w))).
  { intros e evs He Hne Hq [= <- <-]. cbn. do 2 (split; [reflexivity|]).
    left. exists e, evs. repeat split; auto. }
  destruct (chrome w) as [|br|] eqn:Hc;
    try (apply (Hfail WebDriverException); [reflexivity | discriminate | reflexivity]).
  destruct (present env 15 (ByCss "a.export") br);
    [|apply (Hfail TimeoutException); [reflexivity | discriminate | reflexivity]].
  cbv zeta.
  destruct (http_get env _ _) as [[status text]|] eqn:Hget;
    [|apply (Hfail ConnectionError); [reflexivity | discriminate | reflexivity]].
  destruct ((400 <=? status) && (status <? 600)) eqn:Hst;
    [apply (Hfail (HTTPError status)); [exact Hst | discriminate | reflexivity]|].
  destruct (read_csv env text) as [df|] eqn:Hcsv;
    [|apply (Hfail ParserError); [reflexivity | discriminate | reflexivity]].
  destruct (normalize env df) as [recs|] eqn:Hn;
    [|destruct (normalize_frame env df) as (? & _ & _ & Hn'); congruence].
  pose proof (normalize_encodes env df recs Hn) as Henc.
  set (name := output_filename date_from date_to).
  set (url := urljoin env (current_url br) (export_href env br)) in Hget |- *.
  set (evs := [Printed MsgGettingLink; Printed (MsgDownloading url); Download url;
               Printed (MsgFound (length recs)); Printed MsgSaving]).
  assert (Hq : forallb quiet evs = true) by reflexivity.
  assert (Hd : Download url ∈ evs) by (unfold evs; right; right; left).
  assert (Hw2 : log [Printed (MsgFound (length recs)); Printed MsgSaving]
                  (log [Printed MsgGettingLink; Printed (MsgDownloading url);
                        Download url] w)
                = log evs w).
  { unfold log, evs. cbn. now rewrite <- app_assoc. }
  rewrite Hw2. clearbody evs.
  destruct (can_open env name).
  - rewrite Henc.
    intros [= <- <-]. cbn [log store chrome stdin fs trace].
    split; [exact Hc|]. split; [reflexivity|].
    right. exists br, status, text, df, recs, evs.
    do 8 (split; [assumption || reflexivity|]).
    split; [exact Hd|]. split; [now rewrite <- app_assoc | reflexivity].
  - apply (Hfail OSError); [reflexivity | discriminate | exact Hq].
Qed.

(** When nothing stands in its way, [download_and_parse_csv] returns
    the records of the frame and leaves them in the output file. *)
Lemma download_returns d date_from date_to w br status text df recs :
  chrome w = Running br ->
  present env 15 (ByCss "a.export") br = true ->
  http_get env (urljoin env (current_url br) (export_href env br)) (get_cookies env br)
  = Some (status, text) ->
  (400 <=? status) && (status <? 600) = false ->
  read_csv env text = Some df ->
  normalize env df = Some recs ->
  can_open env (output_filename date_from date_to) = true ->
  download_and_parse_csv env d date_from date_to w
  = (Ok recs,
     {| stdin := stdin w;
        trace := trace w
                 ++ [Printed MsgGettingLink;
                     Printed (MsgDownloading
                                (urljoin env (current_url br) (export_href env br)));
                     Download (urljoin env (current_url br) (export_href env br));
                     Printed (MsgFound (length recs));
                     Printed MsgSaving;
                     Printed (MsgSaved (output_filename date_from date_to))];
        fs := <[output_filename date_from date_to
                := Json.layout (map Json.encode_record recs)]> (fs w);
        chrome := chrome w |}).
Proof.
  intros Hc Hp Hget Hst Hcsv Hn Hopen.
  rewrite download_steps, Hc, Hp. cbv zeta. rewrite Hget, Hst, Hcsv, Hn, Hopen.
  pose proof (normalize_encodes env df recs Hn) as Henc.
  rewrite Henc, (iterencode_layout _ Henc).
  unfold log, store. cbn [stdin trace fs chrome app]. rewrite ?Hc, <- ?app_assoc.
  reflexivity.
Qed.


(** Typing into the page does not move the browser. *)
Lemma step_result {A} (P : World -> World -> Prop) (m : M A) w r w' :
  preserves P m -> m w = (r, w') -> P w w'.
Proof. intros Hm H. specialize (Hm w). now rewrite H in Hm. Qed.

Lemma print_location msg : preserves same_location (print msg).
Proof. intros w. reflexivity. Qed.

Lemma wait_for_location d loc t : preserves same_location (wait_for env d loc t).
Proof.
  intros w. unfold wait_for, bind, browser, same_location, location.
  destruct (chrome w) as [|b|] eqn:Hc; cbn; rewrite ?Hc; try reflexivity.
  destruct (present env t loc b); cbn; now rewrite Hc.
Qed.

Lemma clear_location d loc : preserves same_location (clear d loc).
Proof.
  intros w. unfold clear, bind, browser, same_location, location.
  destruct (chrome w) eqn:Hc; cbn; now rewrite ?Hc.
Qed.

Lemma send_keys_location d loc text : preserves same_location (send_keys d loc text).
Proof.
  intros w. unfold send_keys, bind, browser, same_location, location.
  destruct (chrome w) eqn:Hc; cbn; now rewrite ?Hc.
Qed.

Lemma browser_Ok d w b w' :
  browser d w = (Ok b, w') -> w' = w /\ chrome w = Running b.
Proof.
  unfold browser. destruct (chrome w); intros [= <- <-] || intros [=]. auto.
Qed.

(** A successful application leaves the browser at another location
    than the one it started from. *)
Lemma apply_date_filters_moves d date_from date_to w w1 :
  apply_date_filters env d date_from date_to w = (Ok tt, w1) ->
  exists b0 b1,
    chrome w = Running b0 /\ chrome w1 = Running b1
    /\ current_url b1 <> current_url b0.
Proof.
  unfold apply_date_filters. intros H.
  apply bind_Ok_inv in H as (? & wa & Hp & H).
  apply (step_result same_location) in Hp; [|apply print_location].
  apply bind_Ok_inv in H as (b0 & ? & [-> Hb0]%browser_Ok & H).
  do 8 (apply bind_Ok_inv in H as (? & ? & _ & H)).
  apply bind_Ok_inv in H as (b1 & ? & [-> Hb1]%browser_Ok & H).
  case_bool_decide as Hne; [|discriminate H].
  injection H as <-.
  unfold same_location, location in Hp. rewrite Hb0 in Hp.
  destruct (chrome w) as [|b|] eqn:Hw; try discriminate Hp.
  injection Hp as Hp. exists b, b1. rewrite Hp in Hne. auto.
Qed.

(** An application that fails after it has printed its two lines has
    failed in the wait for a new location, which raises
    [TimeoutException]. *)
Lemma apply_date_filters_waited d date_from date_to w e w' :
  apply_date_filters env d date_from date_to w = (Raise e, w') ->
  trace w' = trace w ++ [Printed (MsgApplying date_from date_to); Printed MsgWaitingUrl] ->
  e = TimeoutException.
Proof.
  assert (Hshort : forall t (a b : event), t ++ [a] = t ++ [a; b] -> False).
  { intros t a b E. apply app_inv_head in E. discriminate E. }
  unfold apply_date_filters, wait_for, clear, send_keys, find_and_click, set_browser,
    set_chrome, browser, print, emit, bind, ret, raise.
  cbn.
  destruct (chrome w) as [|b0|]; cbn;
    try (intros [= <- <-]; cbn; intros E; destruct (Hshort _ _ _ E)).
  destruct (present env 15 _ b0); cbn;
    [|intros [= <- <-]; cbn; intros E; destruct (Hshort _ _ _ E)].
  destruct (present env 15 _ _); cbn;
    [|intros [= <- <-]; cbn; intros E; destruct (Hshort _ _ _ E)].
  destruct (click env _ _) as [b'|]; cbn;
    [|intros [= <- <-]; cbn; intros E; destruct (Hshort _ _ _ E)].
  case_bool_decide; [discriminate|]. now intros [= <- _].
Qed.

End Frames.

(** C2, as amended: an application that succeeds leaves the browser
    at a location other than the one it started from; so when the same
    range is applied again and the browser ends where the first
    application left it, the second application has not succeeded; and
    when it got as far as the wait for a new location, having typed
    the dates and clicked the button, it ended in the timeout of that
    wait. *)
Theorem apply_date_filters_changes_location
    (env : Env) (d : WebDriver) (date_from date_to : string) (w w1 : World) :
  apply_date_filters env d date_from date_to w = (Ok tt, w1) ->
  is_Some (location w1)
  /\ location w1 <> location w
  /\ forall r w2,
      apply_date_filters env d date_from date_to w1 = (r, w2) ->
      location w2 = location w1 ->
      (exists e, r = Raise e)
      /\ (trace w2 = trace w1 ++ [Printed (MsgApplying date_from date_to);
                                  Printed MsgWaitingUrl] ->
          r = Raise TimeoutException).
Proof.
  intros H. destruct (apply_date_filters_moves _ _ _ _ _ _ H) as (b0 & b1 & H0 & H1 & Hne).
  unfold location. rewrite H0, H1. split; [eauto|]. split; [congruence|].
  intros [[]|e] w2 H2 Hloc.
  - destruct (apply_date_filters_moves _ _ _ _ _ _ H2) as (b1' & b2 & H1' & H2' & Hne').
    rewrite H2' in Hloc. rewrite H1 in H1'. congruence.
  - split; [eauto|]. intros Ht. f_equal.
    eapply apply_date_filters_waited; eauto.
Qed.

(** ** The workflow *)

Section Workflow.
Variable env : Env.

Ltac trace_steps :=
  repeat first
    [ apply emit_trace | apply set_chrome_trace | apply browser_trace
    | apply set_fs_trace | apply get_fs_trace
    | apply (preserves_ret longer_trace longer_trace_refl)
    | apply (preserves_raise longer_trace longer_trace_refl)
    | apply (preserves_bind longer_trace longer_trace_trans); [|intros ?]
    | apply preserves_if | apply preserves_option; [intros ?|] ].

Lemma find_and_click_trace d loc : preserves longer_trace (find_and_click env d loc).
Proof. unfold find_and_click, set_browser. trace_steps. Qed.

Lemma apply_date_filters_trace d a b :
  preserves longer_trace (apply_date_filters env d a b).
Proof.
  unfold apply_date_filters, find_and_click, wait_for, clear, send_keys, print, set_browser.
  trace_steps.
Qed.

Lemma download_trace d a b : preserves longer_trace (download_and_parse_csv env d a b).
Proof.
  unfold download_and_parse_csv, wait_for, print, raise_for_status, dump_to_file.
  trace_steps.
  match goal with p : (Z * string)%type |- _ => destruct p as [status text] end.
  trace_steps.
  match goal with |- context [Json.iterencode ?x] => destruct (Json.iterencode x) as [chunks e] end.
  trace_steps.
Qed.

(** [login] asks the browser for [WEBSITE_URL] before anything else
    can go wrong. *)
Lemma login_navigates d w :
  Get (WEBSITE_URL env) ∈ trace (snd (login env d w)).
Proof.
  unfold login.
  match goal with
  | |- context [bind (print MsgNavigating) (fun _ => bind (emit ?ev) ?k)] =>
      set (rest := k)
  end.
  assert (Hrest : forall u, preserves longer_trace (rest u)).
  { intros u. unfold rest, wait_for, keys_with_enter, print, set_browser. trace_steps. }
  unfold bind at 1 2, print, emit. cbn [fst snd].
  match goal with |- context [rest tt ?w0] =>
    pose proof (Hrest tt w0) as H;
    destruct (rest tt w0) as [[u|e] w2];
    unfold longer_trace in H; cbn [trace snd] in H
  end; cbn [snd] in *;
    (eapply elem_of_prefix; [|exact H]);
    rewrite !elem_of_app, !list_elem_of_singleton; auto.
Qed.

Lemma stages_navigates d a b w :
  Get (WEBSITE_URL env) ∈ trace (snd (stages env d a b w)).
Proof.
  unfold stages.
  match goal with
  | |- context [bind (login env d) ?k] => set (rest := k)
  end.
  assert (Hrest : forall u, preserves longer_trace (rest u)).
  { intros u. unfold rest.
    apply (preserves_bind longer_trace longer_trace_trans); [apply find_and_click_trace|intros ?].
    apply (preserves_bind longer_trace longer_trace_trans); [apply apply_date_filters_trace|intros ?].
    apply (preserves_bind longer_trace longer_trace_trans); [apply download_trace|intros ?].
    apply (preserves_ret longer_trace longer_trace_refl). }
  unfold bind at 1. pose proof (login_navigates d w) as Hl.
  destruct (login env d w) as [[u|e] w1]; cbn [snd] in *; [|exact Hl].
  eapply elem_of_prefix; [exact Hl | apply Hrest].
Qed.

(** The two ends of the [try] statement. *)
Lemma guarded_bound a b w d w1 :
  initialize_driver env w = (Ok d, w1) ->
  exists path w2,
    guarded env a b w = (Ok path, w2)
    /\ chrome w2 = Closed
    /\ fs w2 = fs (snd (stages env d a b w1))
    /\ trace (snd (stages env d a b w1)) `prefix_of` trace w2
    /\ BrowserQuit ∈ trace w2
    /\ (path = Finished /\ (exists u, fst (stages env d a b w1) = Ok u)
        \/ exists e, path = Failed e /\ fst (stages env d a b w1) = Raise e).
Proof.
  intros Hinit. unfold guarded. rewrite Hinit.
  destruct (stages env d a b w1) as [[u|e] w2]; cbn.
  - do 2 eexists. split; [reflexivity|]. cbn. split; [reflexivity|].
    split; [reflexivity|]. split; [|split].
    + rewrite <- app_assoc. now apply prefix_app_r.
    + rewrite !elem_of_app, !list_elem_of_singleton. auto.
    + left. eauto.
  - do 2 eexists. split; [reflexivity|]. cbn. split; [reflexivity|].
    split; [reflexivity|]. split; [|split].
    + rewrite <- !app_assoc. now apply prefix_app_r.
    + rewrite !elem_of_app, !list_elem_of_singleton. auto.
    + right. eauto.
Qed.

Lemma guarded_unbound a b w e w1 :
  initialize_driver env w = (Raise e, w1) ->
  guarded env a b w = (Ok (Failed e), snd (print (MsgError e) w1)).
Proof. intros Hinit. unfold guarded. rewrite Hinit. reflexivity. Qed.

Lemma initialize_driver_cases w :
  (chrome_starts env = false
   /\ exists w1, initialize_driver env w = (Raise WebDriverException, w1)
                 /\ chrome w1 = chrome w /\ fs w1 = fs w)
  \/ (chrome_starts env = true /\ maximize_ok env = false
      /\ exists w1, initialize_driver env w = (Raise WebDriverException, w1)
                    /\ chrome w1 = Running initial_page /\ fs w1 = fs w)
  \/ (chrome_starts env = true /\ maximize_ok env = true
      /\ exists w1, initialize_driver env w = (Ok ChromeDriver, w1)
                    /\ chrome w1 = Running initial_page /\ fs w1 = fs w
                    /\ trace w `prefix_of` trace w1).
Proof.
  unfold initialize_driver, print, emit, set_chrome, bind, ret, raise.
  destruct (chrome_starts env); cbn.
  - destruct (maximize_ok env); cbn.
    + right. right. do 2 (split; [reflexivity|]). eexists. split; [reflexivity|].
      cbn. repeat split. now apply prefix_app_r.
    + right. left. do 2 (split; [reflexivity|]). eexists. split; [reflexivity|].
      cbn. auto.
  - left. split; [reflexivity|]. eexists. split; [reflexivity|]. cbn. auto.
Qed.

Lemma WEBSITE_URL_truthy : truthy (Some (WEBSITE_URL env)) = true.
Proof.
  unfold WEBSITE_URL. destruct (getenv env "WEBSITE_URL") as [s|]; [|reflexivity].
  destruct (truthy (Some s)) eqn:E; [exact E | reflexivity].
Qed.

Lemma prompt_loop_Raise label lines evs e rest :
  prompt_loop label lines = (evs, Raise e, rest) -> e = EOFError.
Proof.
  revert evs rest. induction lines as [|line lines IH]; intros evs rest; cbn.
  - now intros [= _ <- _].
  - destruct (attempt line) as [evs0 [r0|]]; [discriminate|].
    destruct (prompt_loop label lines) as [[evs' r'] rest'].
    intros [= _ -> _]. eapply IH. reflexivity.
Qed.

Lemma get_date_input_frame label w r w' :
  get_date_input label w = (r, w') ->
  chrome w' = chrome w /\ fs w' = fs w
  /\ trace w `prefix_of` trace w'
  /\ (forall e, r = Raise e -> e = EOFError).
Proof.
  unfold get_date_input.
  destruct (prompt_loop label (stdin w)) as [[evs r1] rest] eqn:E.
  intros [= <- <-]. cbn. repeat split; [now apply prefix_app_r|].
  intros e ->. eapply prompt_loop_Raise, E.
Qed.

(** What [run_scraper] does after the two prompts. *)
Lemma run_scraper_inv w r w' :
  run_scraper env w = (r, w') ->
  (r = Raise EOFError /\ chrome w' = chrome w /\ fs w' = fs w)
  \/ exists date_from date_to w1 w2,
      get_date_input "start" w = (Ok date_from, w1)
      /\ get_date_input "end" w1 = (Ok date_to, w2)
      /\ chrome w2 = chrome w /\ fs w2 = fs w
      /\ (truthy (USER_EMAIL env) && truthy (USER_PASS env) = false
          /\ r = Ok MissingConfiguration /\ chrome w' = chrome w2 /\ fs w' = fs w2
          \/ truthy (USER_EMAIL env) && truthy (USER_PASS env) = true
             /\ guarded env date_from date_to w2 = (r, w')).
Proof.
  unfold run_scraper. intros H.
  apply bind_inv in H as [(e & H1 & ->) | (date_from & w1 & H1 & H)].
  { left. destruct (get_date_input_frame _ _ _ _ H1) as (? & ? & _ & He).
    rewrite (He e eq_refl). auto. }
  destruct (get_date_input_frame _ _ _ _ H1) as (Hc1 & Hf1 & _ & _).
  apply bind_inv in H as [(e & H2 & ->) | (date_to & w2 & H2 & H)].
  { left. destruct (get_date_input_frame _ _ _ _ H2) as (? & ? & _ & He).
    rewrite (He e eq_refl). split; [reflexivity|]. split; congruence. }
  destruct (get_date_input_frame _ _ _ _ H2) as (Hc2 & Hf2 & _ & _).
  right. exists date_from, date_to, w1, w2.
  split; [exact H1|]. split; [exact H2|]. split; [congruence|]. split; [congruence|].
  revert H. cbn [forallb].
  rewrite WEBSITE_URL_truthy, andb_true_r. cbn [andb].
  destruct (truthy (USER_EMAIL env) && truthy (USER_PASS env)); cbn [negb].
  - intros H. right. auto.
  - unfold print, emit, bind, ret. cbn. intros [= <- <-]. left. auto.
Qed.


Lemma stages_Ok d a b w u w' :
  stages env d a b w = (Ok u, w') ->
  exists recs,
    fs w' = <[output_filename (fst a) (fst b) := fst (Json.iterencode recs)]> (fs w)
    /\ snd (Json.iterencode recs) = None.
Proof.
  unfold stages. intros H.
  apply bind_Ok_inv in H as (? & w1 & H1 & H).
  apply (step_result same_fs) in H1; [|apply login_fs].
  apply bind_Ok_inv in H as (? & w2 & H2 & H).
  apply (step_result same_fs) in H2; [|apply find_and_click_fs].
  apply bind_Ok_inv in H as (? & w3 & H3 & H).
  apply (step_result same_fs) in H3; [|apply apply_date_filters_fs].
  apply bind_Ok_inv in H as (recs & w4 & H4 & H).
  injection H as _ <-.
  apply download_cases in H4 as (_ & _ & H4).
  destruct H4 as [(e & evs & [=] & _)
                 | (b0 & status & text & df & recs' & evs & _ & _ & _ & _ & _ & Henc
                    & [= <-] & _ & _ & _ & Hfs)].
  exists recs. split; [|exact Henc].
  rewrite Hfs. unfold same_fs in *. congruence.
Qed.

End Workflow.

(** C9: when the run finishes, the file system differs from the one
    at the start in one file, whose name is made of the two canonical
    forms that the prompts returned and of nothing else. *)
Theorem run_scraper_writes_one_file (env : Env) (w w' : World) :
  run_scraper env w = (Ok Finished, w') ->
  exists date_from date_to w1 w2 content,
    get_date_input "start" w = (Ok date_from, w1)
    /\ get_date_input "end" w1 = (Ok date_to, w2)
    /\ fs w' = <[output_filename (fst date_from) (fst date_to) := content]> (fs w)
    /\ output_filename (fst date_from) (fst date_to)
       = "reservations_" +:+ fst date_from +:+ "_to_" +:+ fst date_to +:+ ".json".
Proof.
  intros H. apply run_scraper_inv in H.
  destruct H as [([=] & _) | (date_from & date_to & w1 & w2 & H1 & H2 & _ & Hfs & H)].
  destruct H as [(_ & [=] & _) | (_ & H)].
  destruct (initialize_driver_cases env w2)
    as [(_ & w3 & Hi & _) | [(_ & _ & w3 & Hi & _) | (_ & _ & w3 & Hi & _ & Hfs3 & _)]].
  - rewrite (guarded_unbound _ _ _ _ _ _ Hi) in H. discriminate H.
  - rewrite (guarded_unbound _ _ _ _ _ _ Hi) in H. discriminate H.
  - destruct (guarded_bound _ date_from date_to _ _ _ Hi)
      as (path & w4 & Hg & _ & Hfs4 & _ & _ & Hpath).
    rewrite Hg in H. injection H as -> ->.
    destruct Hpath as [[_ [u Hu]] | (e & [=] & _)].
    destruct (stages env ChromeDriver date_from date_to w3) as [r5 w5] eqn:Hst.
    cbn in Hu, Hfs4. subst r5.
    apply stages_Ok in Hst as (recs & Hfs5 & _).
    exists date_from, date_to, w1, w2, (fst (Json.iterencode recs)).
    repeat (split; [assumption|]). split; [|reflexivity].
    congruence.
Qed.

(** Once [initialize_driver] has handed the session over, it is closed
    on every way out. *)
Lemma session_closed_once_bound (env : Env) (w : World) r w' :
  chrome w = NotStarted -> maximize_ok env = true ->
  run_scraper env w = (r, w') ->
  chrome w' = Closed /\ BrowserQuit ∈ trace w'
  \/ chrome w' = NotStarted.
Proof.
  intros Hw Hmax H. apply run_scraper_inv in H.
  destruct H as [(_ & Hc & _) | (date_from & date_to & w1 & w2 & _ & _ & Hc2 & _ & H)].
  { right. congruence. }
  destruct H as [(_ & _ & Hc & _) | (_ & H)].
  { right. congruence. }
  destruct (initialize_driver_cases env w2)
    as [(_ & w3 & Hi & Hc3 & _) | [(_ & Hmax' & _) | (_ & _ & w3 & Hi & _)]].
  - rewrite (guarded_unbound _ _ _ _ _ _ Hi) in H. injection H as _ <-.
    right. cbn. congruence.
  - congruence.
  - destruct (guarded_bound _ date_from date_to _ _ _ Hi)
      as (path & w4 & Hg & Hclosed & _ & _ & Hquit & _).
    rewrite Hg in H. injection H as _ <-. left. auto.
Qed.

(** C10: the run ends with the missing-configuration message only
    when the login identity or the login secret is unset or empty, and
    then it does, once the two dates are read; with both present and
    the URL setting unset or empty the run goes on, and the browser is
    sent to the default URL. *)
Theorem missing_configuration_means_credentials (env : Env) (w : World) r w' :
  run_scraper env w = (r, w') ->
  (r = Ok MissingConfiguration ->
   truthy (USER_EMAIL env) = false \/ truthy (USER_PASS env) = false)
  /\ (truthy (USER_EMAIL env) = false \/ truthy (USER_PASS env) = false ->
      r = Ok MissingConfiguration \/ r = Raise EOFError)
  /\ (truthy (getenv env "WEBSITE_URL") = false ->
      truthy (USER_EMAIL env) = true -> truthy (USER_PASS env) = true ->
      r <> Ok MissingConfiguration
      /\ WEBSITE_URL env = default_url
      /\ (chrome_starts env = true -> maximize_ok env = true ->
          r = Raise EOFError \/ Get default_url ∈ trace w')).
Proof.
  intros H. apply run_scraper_inv in H.
  assert (Hurl : truthy (getenv env "WEBSITE_URL") = false -> WEBSITE_URL env = default_url).
  { unfold WEBSITE_URL. destruct (getenv env "WEBSITE_URL") as [s|]; [|reflexivity].
    now intros ->. }
  destruct H as [(-> & _) | (date_from & date_to & w1 & w2 & _ & _ & _ & _ & H)].
  { repeat split; auto; discriminate. }
  destruct H as [(Hcred & -> & _) | (Hcred & H)].
  - apply andb_false_iff in Hcred.
    split; [auto|]. split; [auto|]. intros _ He Hp. destruct Hcred; congruence.
  - apply andb_true_iff in Hcred as [He Hp].
    assert (Hpath : r <> Ok MissingConfiguration).
    { destruct (initialize_driver env w2) as [[d|e] w3] eqn:Hi.
      - destruct (guarded_bound _ date_from date_to _ _ _ Hi)
          as (path & w4 & Hg & _ & _ & _ & _ & Hpath).
        rewrite Hg in H. injection H as <- _.
        destruct Hpath as [[-> _] | (e & -> & _)]; discriminate.
      - rewrite (guarded_unbound _ _ _ _ _ _ Hi) in H. injection H as <- _. discriminate. }
    split; [intros; contradiction|]. split; [intros []; congruence|].
    intros Hfalsy _ _. split; [exact Hpath|]. split; [auto|].
    intros Hstart Hmax. right. rewrite <- (Hurl Hfalsy).
    destruct (initialize_driver_cases env w2)
      as [(? & _) | [(_ & ? & _) | (_ & _ & w3 & Hi & _)]]; try congruence.
    destruct (guarded_bound _ date_from date_to _ _ _ Hi)
      as (path & w4 & Hg & _ & _ & Htr & _).
    rewrite Hg in H. injection H as _ <-.
    eapply elem_of_prefix; [|exact Htr].
    apply stages_navigates.
Qed.

(** ** The script on the demonstration site *)

Lemma missing_configuration_means_credentials_witness :
  let env := Demo.site Demo.full_export 200 true in
  let w := Demo.start Demo.january in
  run_scraper env w = (Ok Finished, snd (run_scraper env w))
  /\ truthy (getenv env "WEBSITE_URL") = false
  /\ Ok Finished <> Ok MissingConfiguration
  /\ Get default_url ∈ trace (snd (run_scraper env w)).
Proof.
  intros env w.
  assert (H : run_scraper env w = (Ok Finished, snd (run_scraper env w)))
    by (vm_compute; reflexivity).
  split; [exact H|]. split; [reflexivity|].
  destruct (missing_configuration_means_credentials env w _ _ H) as (_ & _ & H3).
  destruct (H3 eq_refl eq_refl eq_refl) as (Hne & _ & Hget).
  split; [exact Hne|].
  destruct (Hget eq_refl eq_refl) as [[=] | Hin]. exact Hin.
Defined.

Lemma run_scraper_writes_one_file_witness :
  let env := Demo.site Demo.full_export 200 true in
  let w := Demo.start Demo.january in
  run_scraper env w = (Ok Finished, snd (run_scraper env w))
  /\ exists content, fs (snd (run_scraper env w)) = <[Demo.january_file := content]> (fs w).
Proof.
  intros env w.
  assert (H : run_scraper env w = (Ok Finished, snd (run_scraper env w)))
    by (vm_compute; reflexivity).
  split; [exact H|].
  destruct (run_scraper_writes_one_file env w _ H)
    as (date_from & date_to & w1 & w2 & content & H1 & H2 & Hfs & _).
  exists content.
  assert (Hw1 : w1 = snd (get_date_input "start" w)) by now rewrite H1.
  assert (Hd1 : fst date_from = "01-01-2025").
  { transitivity (fst (default ("", "") (match fst (get_date_input "start" w) with
                                         | Ok p => Some p | Raise _ => None end))).
    - now rewrite H1.
    - vm_compute. reflexivity. }
  assert (Hd2 : fst date_to = "31-01-2025").
  { transitivity (fst (default ("", "")
                         (match fst (get_date_input "end" (snd (get_date_input "start" w))) with
                          | Ok p => Some p | Raise _ => None end))).
    - rewrite <- Hw1. now rewrite H2.
    - vm_compute. reflexivity. }
  rewrite Hd1, Hd2 in Hfs. exact Hfs.
Defined.

Lemma apply_date_filters_changes_location_witness :
  let env := Demo.site Demo.full_export 200 true in
  let w1 := snd (apply_date_filters env ChromeDriver "01 JAN 2025" "31 JAN 2025"
                   Demo.at_list) in
  let out := apply_date_filters env ChromeDriver "01 JAN 2025" "31 JAN 2025" w1 in
  apply_date_filters env ChromeDriver "01 JAN 2025" "31 JAN 2025" Demo.at_list
  = (Ok tt, w1)
  /\ location w1 <> location Demo.at_list
  /\ location (snd out) = location w1
  /\ trace (snd out) = trace w1 ++ [Printed (MsgApplying "01 JAN 2025" "31 JAN 2025");
                                    Printed MsgWaitingUrl]
  /\ fst out = Raise TimeoutException.
Proof.
  intros env w1 out.
  assert (H : apply_date_filters env ChromeDriver "01 JAN 2025" "31 JAN 2025"
                Demo.at_list = (Ok tt, w1)) by (vm_compute; reflexivity).
  assert (Hloc : location (snd out) = location w1) by (vm_compute; reflexivity).
  assert (Ht : trace (snd out)
               = trace w1 ++ [Printed (MsgApplying "01 JAN 2025" "31 JAN 2025");
                              Printed MsgWaitingUrl]) by (vm_compute; reflexivity).
  split; [exact H|].
  destruct (apply_date_filters_changes_location env _ _ _ _ _ H) as (_ & Hne & H2).
  split; [exact Hne|]. split; [exact Hloc|]. split; [exact Ht|].
  exact (proj2 (H2 (fst out) (snd out) (surjective_pairing out) Hloc) Ht).
Defined.

(** On the demonstration site the second application finds the
    location unchanged and runs out of time. *)
Lemma filter_idempotent_counterexample :
  ~ Claims.filter_idempotent (Demo.site Demo.full_export 200 true) ChromeDriver
      "01 JAN 2025" "31 JAN 2025" Demo.at_list.
Proof.
  intros (w1 & w2 & H1 & H2 & _).
  vm_compute in H1. injection H1 as <-.
  vm_compute in H2. discriminate H2.
Qed.



(** C1: when the export is downloaded and parsed, every cell of a
    kept column that [read_csv] marked as missing is [None] in the
    record of its row, in the list that is returned; and in the output
    file, which holds the records of that list in their order, the
    record has the key of the column followed by [null]. *)
Theorem missing_cell_is_written_null
    (env : Env) (d : WebDriver) (date_from date_to : string) (w : World)
    (br : Browser) (status : Z) (text : string) (df : Pandas.DataFrame) :
  let url := urljoin env (current_url br) (export_href env br) in
  let name := output_filename date_from date_to in
  chrome w = Running br ->
  present env 15 (ByCss "a.export") br = true ->
  http_get env url (get_cookies env br) = Some (status, text) ->
  (400 <=? status) && (status <? 600) = false ->
  read_csv env text = Some df ->
  Pandas.wf df ->
  can_open env name = true ->
  exists recs w',
    download_and_parse_csv env d date_from date_to w = (Ok recs, w')
    /\ fs w' !! name = Some (Json.layout (map Json.encode_record recs))
    /\ forall c i v,
        c ∈ kept_columns df -> Pandas.cell df c i = Some v -> Pandas.isnull v = true ->
        exists r,
          recs !! i = Some r
          /\ Pandas.dict_get r c = Some Pandas.VNone
          /\ exists pre post,
              Json.encode_record r
              = pre ++ Json.member c (Json.Text "null") ++ post.
Proof.
  intros url name Hc Hp Hget Hst Hcsv Hwf Hopen.
  destruct (normalize_frame env df) as (df' & _ & _ & Hn).
  eexists _, _.
  split; [exact (download_returns env d _ _ w br status text df _
                   Hc Hp Hget Hst Hcsv Hn Hopen)|].
  cbn [fs]. split; [apply lookup_insert_eq|].
  intros c i v Hk Hcell Hnull.
  destruct (normalize_cells env df _ Hwf Hn) as (_ & _ & Hcells).
  destruct (Hcells c i v Hk Hcell) as (r & v' & Hr & Hg & Hs).
  rewrite (same_value_null v v' Hnull Hs) in Hg.
  exists r. split; [exact Hr|]. split; [exact Hg|].
  apply (encode_record_member r c Pandas.VNone);
    [now apply dict_get_elem | reflexivity|].
  apply iterencode_dict_ok.
  pose proof (normalize_clean env df _ Hn) as Hclean.
  rewrite Forall_forall in Hclean. eapply Hclean, list_elem_of_lookup_2, Hr.
Qed.

Lemma missing_cell_is_written_null_witness :
  Pandas.cell Demo.export "Guest first name" 1 = Some Pandas.VNaN
  /\ exists recs w',
      download_and_parse_csv Cases.gaps ChromeDriver "01-01-2025" "31-01-2025"
        Demo.at_list = (Ok recs, w')
      /\ fs w' !! Demo.january_file = Some (Json.layout (map Json.encode_record recs))
      /\ exists r,
          recs !! 1%nat = Some r
          /\ Pandas.dict_get r "Guest first name" = Some Pandas.VNone
          /\ exists pre post,
              Json.encode_record r
              = pre ++ Json.member "Guest first name" (Json.Text "null") ++ post.
Proof.
  split; [reflexivity|].
  destruct (missing_cell_is_written_null Cases.gaps ChromeDriver "01-01-2025" "31-01-2025"
              Demo.at_list {| current_url := Demo.list_url; inputs := [] |} 200 "csv"
              Demo.export eq_refl eq_refl eq_refl eq_refl eq_refl wf_export eq_refl)
    as (recs & w' & Hrun & Hfs & Hnull).
  exists recs, w'. split; [exact Hrun|]. split; [exact Hfs|].
  apply (Hnull "Guest first name" 1%nat Pandas.VNaN).
  - apply kept_columns_spec. split.
    + right. left.
    + right. left.
  - reflexivity.
  - reflexivity.
Defined.



(** C6: when the browser starts and the window cannot be maximized,
    [initialize_driver] raises before [driver] is bound; the handler
    prints the error, the [finally] block finds [driver] unset, and
    the session is still running at the end. *)
Theorem maximize_failure_leaves_the_session :
  let env := Demo.site Demo.full_export 200 false in
  let out := run_scraper env (Demo.start Demo.january) in
  fst out = Ok (Failed WebDriverException)
  /\ chrome (snd out) = Running initial_page
  /\ BrowserQuit ∉ trace (snd out).
Proof.
  intros env out. split; [vm_compute; reflexivity|].
  split; [vm_compute; reflexivity|].
  intros H. vm_compute in H.
  repeat (apply elem_of_cons in H as [H|H]; [discriminate H|]).
  inversion H.
Qed.

(** * Further properties of the script *)

(** ** White space around a date *)

Section StripFacts.
Import PyStr.

Lemma lstrip_space_app pre t :
  only_white_space pre = true -> lstrip (pre +:+ t) = lstrip t.
Proof.
  induction pre as [|c pre IH]; [reflexivity|].
  cbn [only_white_space]. intros [Hc Hpre]%andb_true_iff.
  rewrite app_cons. cbn [lstrip]. rewrite Hc. auto.
Qed.

Lemma lstrip_space post : only_white_space post = true -> lstrip post = EmptyString.
Proof.
  induction post as [|c post IH]; [reflexivity|].
  cbn [only_white_space]. intros [Hc Hpost]%andb_true_iff.
  cbn [lstrip]. rewrite Hc. auto.
Qed.

Lemma rstrip_space post : only_white_space post = true -> rstrip post = EmptyString.
Proof.
  induction post as [|c post IH]; [reflexivity|].
  cbn [only_white_space]. intros [Hc Hpost]%andb_true_iff.
  cbn [rstrip]. rewrite IH by exact Hpost. cbn. now rewrite Hc.
Qed.

Lemma rstrip_app_space t post :
  only_white_space post = true -> rstrip (t +:+ post) = rstrip t.
Proof.
  intros Hpost. induction t as [|c t IH].
  - rewrite app_empty. now apply rstrip_space.
  - rewrite app_cons. cbn [rstrip]. now rewrite IH.
Qed.

Lemma strip_app_space line post :
  only_white_space post = true -> strip (line +:+ post) = strip line.
Proof.
  intros Hpost. unfold strip. induction line as [|c line IH].
  - rewrite app_empty. now rewrite lstrip_space.
  - rewrite app_cons. cbn [lstrip]. destruct (isspace c); [exact IH|].
    rewrite <- app_cons. now apply rstrip_app_space.
Qed.

(** White space on either side of a line is gone after [strip],
    whatever the line holds. *)
Lemma strip_padded pre line post :
  only_white_space pre = true -> only_white_space post = true ->
  strip (pre +:+ line +:+ post) = strip line.
Proof.
  intros Hpre Hpost. unfold strip at 1.
  rewrite lstrip_space_app by exact Hpre.
  now apply strip_app_space.
Qed.

End StripFacts.

Lemma attempt_strip line line' :
  PyStr.strip line = PyStr.strip line' -> attempt line = attempt line'.
Proof. unfold attempt. now intros ->. Qed.

(** X1: white space typed before or after a line changes nothing in
    what [get_date_input] does with the line: the same events, the
    same verdict, the same two forms. *)
Theorem attempt_ignores_surrounding_space (pre line post : string) :
  only_white_space pre = true -> only_white_space post = true ->
  attempt (pre +:+ line +:+ post) = attempt line.
Proof. intros Hpre Hpost. apply attempt_strip. now apply strip_padded. Qed.

Lemma attempt_ignores_surrounding_space_witness :
  attempt ("  " +:+ "22-10-2025" +:+ String (ascii_of_N 9) " ") = attempt "22-10-2025"
  /\ attempt "22-10-2025"
     = ([CalendarCheck "22-10-2025"], Some ("22-10-2025", "22 OCT 2025")).
Proof.
  split; [|reflexivity].
  apply (attempt_ignores_surrounding_space "  " "22-10-2025" (String (ascii_of_N 9) " "));
    reflexivity.
Defined.

(** ** The prompt loop *)

Lemma prompt_loop_rejected label rejected lines :
  Forall (fun l => snd (attempt l) = None) rejected ->
  prompt_loop label (rejected ++ lines)
  = let '(evs, r, rest) := prompt_loop label lines in
    (flat_map (turn label) rejected ++ evs, r, rest).
Proof.
  induction 1 as [|l rejected Hl _ IH]; cbn [app flat_map].
  - now destruct (prompt_loop label lines) as [[evs r] rest].
  - cbn [prompt_loop]. unfold turn at 1.
    destruct (attempt l) as [evs0 [r0|]]; [discriminate Hl|].
    rewrite IH. destruct (prompt_loop label lines) as [[evs r] rest].
    cbn. now rewrite <- app_assoc.
Qed.

(** X2: when the input holds a line that [get_date_input] takes,
    after lines that it turns down, the call returns the two forms of
    that line; it has read the lines up to that one and no further,
    and it has prompted once for each of them. *)
Theorem get_date_input_takes_first_valid_line
    (label : string) (rejected : list string) (line : string) (rest : list string)
    (r : string * string) (w : World) :
  stdin w = rejected ++ line :: rest ->
  Forall (fun l => snd (attempt l) = None) rejected ->
  snd (attempt line) = Some r ->
  get_date_input label w
  = (Ok r, {| stdin := rest;
              trace := trace w ++ flat_map (turn label) (rejected ++ [line]);
              fs := fs w; chrome := chrome w |}).
Proof.
  intros Hin Hrej Hline.
  unfold get_date_input. rewrite Hin. rewrite prompt_loop_rejected by exact Hrej.
  cbn [prompt_loop]. rewrite flat_map_app. cbn [flat_map]. unfold turn.
  destruct (attempt line) as [evs0 [r0|]]; [|discriminate Hline].
  cbn in Hline. injection Hline as ->. cbn. now rewrite app_nil_r.
Qed.

Lemma get_date_input_takes_first_valid_line_witness :
  get_date_input "start" (Demo.start ["22/10/2025"; "30-02-2025"; " 22-10-2025 "; "x"])
  = (Ok ("22-10-2025", "22 OCT 2025"),
     {| stdin := ["x"];
        trace := [Prompt "start"; Printed MsgWrongFormat;
                  Prompt "start"; CalendarCheck "30-02-2025"; Printed MsgInvalidDate;
                  Prompt "start"; CalendarCheck "22-10-2025"];
        fs := ∅; chrome := NotStarted |}).
Proof.
  apply (get_date_input_takes_first_valid_line "start" ["22/10/2025"; "30-02-2025"]
           " 22-10-2025 " ["x"] ("22-10-2025", "22 OCT 2025")
           (Demo.start ["22/10/2025"; "30-02-2025"; " 22-10-2025 "; "x"])).
  - reflexivity.
  - repeat constructor.
  - reflexivity.
Defined.

(** X3: when the input holds no line that [get_date_input] takes, the
    call reads all of it, complains about every line, prompts once
    more and ends in the [EOFError] of [input]. *)
Theorem get_date_input_end_of_input (label : string) (w : World) :
  Forall (fun l => snd (attempt l) = None) (stdin w) ->
  get_date_input label w
  = (Raise EOFError,
     {| stdin := [];
        trace := trace w ++ flat_map (turn label) (stdin w) ++ [Prompt label];
        fs := fs w; chrome := chrome w |}).
Proof.
  intros Hrej. unfold get_date_input.
  rewrite <- (app_nil_r (stdin w)) at 1.
  rewrite prompt_loop_rejected by exact Hrej. reflexivity.
Qed.

Lemma get_date_input_end_of_input_witness :
  get_date_input "end" (Demo.start ["2025-10-22"])
  = (Raise EOFError,
     {| stdin := [];
        trace := [Prompt "end"; Printed MsgWrongFormat; Prompt "end"];
        fs := ∅; chrome := NotStarted |}).
Proof.
  apply (get_date_input_end_of_input "end" (Demo.start ["2025-10-22"])).
  repeat constructor.
Defined.

(** ** The display form *)

Section DisplayFacts.
Import PyStr.

Lemma digit_char_of_value n c :
  isdigit c = true -> n mod 10 = digit_value c -> digit_char n = c.
Proof.
  intros Hc Hn. unfold digit_char. rewrite Hn. unfold digit_value.
  replace (48 + (Z.of_N (N_of_ascii c) - 48)) with (Z.of_N (N_of_ascii c)) by lia.
  rewrite N2Z.id. apply ascii_N_embedding.
Qed.

Lemma digit_value_inj c c' : digit_value c = digit_value c' -> c = c'.
Proof.
  unfold digit_value. intros H.
  rewrite <- (ascii_N_embedding c), <- (ascii_N_embedding c').
  f_equal. lia.
Qed.

Lemma digit_value_digit_char n : digit_value (digit_char n) = n mod 10.
Proof.
  unfold digit_value, digit_char.
  assert (H : 0 <= n mod 10 < 10) by (apply Z.mod_pos_bound; lia).
  rewrite N_ascii_embedding by lia. lia.
Qed.

(** Two digits read as a number and written back with two digits are
    the same two digits; so are four. *)
Lemma two_digits_int d1 d2 :
  isdigit d1 = true -> isdigit d2 = true ->
  two_digits (int (String d1 (String d2 EmptyString)))
  = String d1 (String d2 EmptyString).
Proof.
  intros H1 H2. unfold two_digits. rewrite int_two by assumption.
  pose proof (digit_value_range _ H1). pose proof (digit_value_range _ H2).
  f_equal; [|f_equal]; apply digit_char_of_value; try assumption;
    Z.to_euclidean_division_equations; lia.
Qed.

Lemma four_digits_int y1 y2 y3 y4 :
  isdigit y1 = true -> isdigit y2 = true -> isdigit y3 = true -> isdigit y4 = true ->
  four_digits (int (String y1 (String y2 (String y3 (String y4 EmptyString)))))
  = String y1 (String y2 (String y3 (String y4 EmptyString))).
Proof.
  intros H1 H2 H3 H4. unfold four_digits. rewrite int_four by assumption.
  pose proof (digit_value_range _ H1). pose proof (digit_value_range _ H2).
  pose proof (digit_value_range _ H3). pose proof (digit_value_range _ H4).
  repeat f_equal; apply digit_char_of_value; try assumption;
    Z.to_euclidean_division_equations; lia.
Qed.

Lemma upper_digit c : isdigit c = true -> upper_char c = c.
Proof.
  intros H. apply isdigit_cases in H. simpl in H.
  repeat destruct H as [<- | H]; try reflexivity. contradiction.
Qed.

Lemma upper_decimal n : upper (decimal n) = decimal n.
Proof.
  unfold decimal, two_digits, four_digits.
  repeat case_match; cbn [upper]; now rewrite !upper_digit_char.
Qed.

(** A number below 10000 can be read back from its numeral. *)
Lemma decimal_inj n n' :
  0 <= n < 10000 -> 0 <= n' < 10000 -> decimal n = decimal n' -> n = n'.
Proof.
  intros Hn Hn'. unfold decimal, two_digits, four_digits.
  destruct (Z.ltb_spec n 10);
    [|destruct (Z.ltb_spec n 100); [|destruct (Z.ltb_spec n 1000)]];
    (destruct (Z.ltb_spec n' 10);
     [|destruct (Z.ltb_spec n' 100); [|destruct (Z.ltb_spec n' 1000)]]);
    intros E; try discriminate E; injection E; intros;
    repeat match goal with
      | H : digit_char _ = digit_char _ |- _ =>
          apply (f_equal digit_value) in H; rewrite !digit_value_digit_char in H
      end;
    Z.to_euclidean_division_equations; lia.
Qed.

(** The line that is taken, character by character, and the display
    form made of its digits and of the number of its year. *)
Lemma accepted_shape line canon disp :
  snd (attempt line) = Some (canon, disp) ->
  exists d1 d2 m1 m2 y1 y2 y3 y4,
    canon = String d1 (String d2 (String "-" (String m1 (String m2 (String "-"
              (String y1 (String y2 (String y3 (String y4 EmptyString)))))))))
    /\ isdigit m1 = true /\ isdigit m2 = true
    /\ isdigit y1 = true /\ isdigit y2 = true /\ isdigit y3 = true /\ isdigit y4 = true
    /\ 1 <= int (String m1 (String m2 EmptyString)) <= 12
    /\ disp = String d1 (String d2 (String " "
                (upper (Datetime.month_abbr (int (String m1 (String m2 EmptyString))))
                 +:+ String " "
                       (decimal (int (String y1 (String y2 (String y3
                                       (String y4 EmptyString))))))))).
Proof.
  intros H. apply attempt_Some_date in H as (_ & Hc & ->).
  unfold Spec.classify in Hc.
  destruct (Spec.matches_DD_MM_YYYY canon) eqn:Hm; [|discriminate Hc].
  destruct (Spec.real_calendar_date canon) eqn:Hr; [|discriminate Hc].
  apply matches_DD_MM_YYYY_inv in Hm
    as (d1 & d2 & m1 & m2 & y1 & y2 & y3 & y4 & -> & Hd1 & Hd2 & Hm1 & Hm2
        & Hy1 & Hy2 & Hy3 & Hy4).
  exists d1, d2, m1, m2, y1, y2, y3, y4.
  split; [reflexivity|]. do 6 (split; [assumption|]).
  unfold Spec.real_calendar_date, Spec.month_of, Spec.year_of, Spec.day_of in Hr.
  cbn [substring] in Hr.
  split; [lia|].
  unfold Datetime.strftime, Spec.month_of, Spec.year_of, Spec.day_of.
  cbn [substring Datetime.year Datetime.month Datetime.day].
  rewrite two_digits_int by assumption.
  rewrite !upper_app, upper_decimal. cbn [upper String.app].
  rewrite (upper_digit d1), (upper_digit d2) by assumption.
  reflexivity.
Qed.

(** The twelve abbreviations are twelve different texts of three
    letters. *)
Lemma month_abbr_inj m m' rest rest' :
  1 <= m <= 12 -> 1 <= m' <= 12 ->
  upper (Datetime.month_abbr m) +:+ rest = upper (Datetime.month_abbr m') +:+ rest' ->
  m = m' /\ rest = rest'.
Proof.
  intros Hm Hm'.
  assert (C : m = 1 \/ m = 2 \/ m = 3 \/ m = 4 \/ m = 5 \/ m = 6 \/ m = 7
              \/ m = 8 \/ m = 9 \/ m = 10 \/ m = 11 \/ m = 12) by lia.
  assert (C' : m' = 1 \/ m' = 2 \/ m' = 3 \/ m' = 4 \/ m' = 5 \/ m' = 6 \/ m' = 7
               \/ m' = 8 \/ m' = 9 \/ m' = 10 \/ m' = 11 \/ m' = 12) by lia.
  clear Hm Hm'.
  repeat destruct C as [-> | C]; try subst m;
    repeat destruct C' as [-> | C']; try subst m';
    intros H; cbn in H; rewrite !app_cons, !app_empty in H;
    first [discriminate H | injection H as ->; auto].
Qed.

End DisplayFacts.

(** X4: for a line of characters up to U+00FF that is taken, with a
    year from 1000 on, the display form that [get_date_input] returns
    is made of the canonical form: its two day digits, a space, the
    upper-case abbreviation of its month, a space, and its four year
    digits. *)
Theorem display_form_keeps_the_digits (line canon disp : string) :
  snd (attempt line) = Some (canon, disp) ->
  1000 <= Spec.year_of canon ->
  1 <= Spec.month_of canon <= 12
  /\ disp = substring 0 2 canon +:+ " "
            +:+ PyStr.upper (Datetime.month_abbr (Spec.month_of canon)) +:+ " "
            +:+ substring 6 4 canon.
Proof.
  intros H. apply accepted_shape in H
    as (d1 & d2 & m1 & m2 & y1 & y2 & y3 & y4 & -> & _ & _ & Hy1 & Hy2 & Hy3 & Hy4
        & Hm & ->).
  unfold Spec.month_of, Spec.year_of. cbn [substring]. intros Hy.
  split; [exact Hm|].
  rewrite (decimal_four _ Hy), four_digits_int by assumption.
  rewrite !app_cons, app_empty. reflexivity.
Qed.

Lemma display_form_keeps_the_digits_witness :
  snd (attempt "05-03-2024") = Some ("05-03-2024", "05 MAR 2024")
  /\ "05 MAR 2024"
     = substring 0 2 "05-03-2024" +:+ " "
       +:+ PyStr.upper (Datetime.month_abbr (Spec.month_of "05-03-2024")) +:+ " "
       +:+ substring 6 4 "05-03-2024".
Proof.
  split; [reflexivity|].
  apply (display_form_keeps_the_digits "05-03-2024" "05-03-2024" "05 MAR 2024").
  - reflexivity.
  - vm_compute. discriminate.
Defined.

(** X5: two lines of characters up to U+00FF that [get_date_input]
    takes and that give the same display form give the same canonical
    form: the text typed into the filter fields stands for one date
    only, also when the year is written without its leading zeros. *)
Theorem display_form_determines_the_date (line line' canon canon' disp : string) :
  snd (attempt line) = Some (canon, disp) ->
  snd (attempt line') = Some (canon', disp) ->
  canon = canon'.
Proof.
  intros H H'.
  apply accepted_shape in H
    as (d1 & d2 & m1 & m2 & y1 & y2 & y3 & y4 & -> & Hm1 & Hm2 & Hy1 & Hy2 & Hy3 & Hy4
        & Hm & ->).
  apply accepted_shape in H'
    as (d1' & d2' & m1' & m2' & y1' & y2' & y3' & y4' & -> & Hm1' & Hm2'
        & Hy1' & Hy2' & Hy3' & Hy4' & Hm' & E).
  injection E as -> -> E.
  apply month_abbr_inj in E as [E [= Ey]]; [|assumption..].
  rewrite !int_two in E by assumption.
  pose proof (digit_value_range _ Hm1). pose proof (digit_value_range _ Hm2).
  pose proof (digit_value_range _ Hm1'). pose proof (digit_value_range _ Hm2').
  assert (m1 = m1') as -> by (apply digit_value_inj; lia).
  assert (m2 = m2') as -> by (apply digit_value_inj; lia).
  pose proof (digit_value_range _ Hy1). pose proof (digit_value_range _ Hy2).
  pose proof (digit_value_range _ Hy3). pose proof (digit_value_range _ Hy4).
  pose proof (digit_value_range _ Hy1'). pose proof (digit_value_range _ Hy2').
  pose proof (digit_value_range _ Hy3'). pose proof (digit_value_range _ Hy4').
  apply decimal_inj in Ey; [|rewrite int_four by assumption; lia..].
  rewrite !int_four in Ey by assumption.
  assert (y1 = y1') as -> by (apply digit_value_inj; lia).
  assert (y2 = y2') as -> by (apply digit_value_inj; lia).
  assert (y3 = y3') as -> by (apply digit_value_inj; lia).
  assert (y4 = y4') as -> by (apply digit_value_inj; lia).
  reflexivity.
Qed.

Lemma display_form_determines_the_date_witness :
  snd (attempt " 05-03-0999") = Some ("05-03-0999", "05 MAR 999")
  /\ snd (attempt "05-03-0999 ") = Some ("05-03-0999", "05 MAR 999")
  /\ "05-03-0999" = "05-03-0999".
Proof.
  split; [reflexivity|]. split; [reflexivity|].
  apply (display_form_determines_the_date " 05-03-0999" "05-03-0999 " _ _ "05 MAR 999");
    reflexivity.
Defined.

(** ** What the stages print and raise *)

Section Adds.
Variable ok : event -> bool.

Lemma adds_refl w : adds ok w w.
Proof. exists []. now rewrite app_nil_r. Qed.

Lemma adds_trans w1 w2 w3 : adds ok w1 w2 -> adds ok w2 w3 -> adds ok w1 w3.
Proof.
  intros (e1 & H1 & O1) (e2 & H2 & O2). exists (e1 ++ e2).
  rewrite H2, H1, <- app_assoc, forallb_app, O1, O2. auto.
Qed.

Lemma emit_adds ev : ok ev = true -> preserves (adds ok) (emit ev).
Proof. intros H w. exists [ev]. cbn. now rewrite H. Qed.

Lemma set_chrome_adds c : preserves (adds ok) (set_chrome c).
Proof. intros w. exists []. cbn. now rewrite app_nil_r. Qed.

Lemma browser_adds d : preserves (adds ok) (browser d).
Proof. intros w. unfold browser. destruct (chrome w); apply adds_refl. Qed.

End Adds.

Ltac adds_steps ok :=
  repeat first
    [ apply (emit_adds ok); reflexivity
    | apply (set_chrome_adds ok) | apply (browser_adds ok)
    | apply (preserves_ret (adds ok) (adds_refl ok))
    | apply (preserves_raise (adds ok) (adds_refl ok))
    | apply (preserves_bind (adds ok) (adds_trans ok)); [|intros ?]
    | apply preserves_if | apply preserves_option; [intros ?|] ].

Section StageEvents.
Variable env : Env.

Lemma login_quiet d : preserves (adds quiet) (login env d).
Proof.
  unfold login, wait_for, keys_with_enter, print, set_browser. adds_steps quiet.
Qed.

Lemma find_and_click_quiet d loc : preserves (adds quiet) (find_and_click env d loc).
Proof. unfold find_and_click, set_browser. adds_steps quiet. Qed.

Lemma apply_date_filters_quiet d a b :
  preserves (adds quiet) (apply_date_filters env d a b).
Proof.
  unfold apply_date_filters, find_and_click, wait_for, clear, send_keys, print, set_browser.
  adds_steps quiet.
Qed.

Lemma attempt_console line : forallb console (fst (attempt line)) = true.
Proof.
  unfold attempt. destruct (negb _); [reflexivity|].
  destruct (Datetime.strptime _); reflexivity.
Qed.

Lemma prompt_loop_console label lines :
  forallb console (fst (fst (prompt_loop label lines))) = true.
Proof.
  induction lines as [|line lines IH]; [reflexivity|].
  cbn [prompt_loop]. pose proof (attempt_console line) as Ha.
  destruct (attempt line) as [evs [r|]]; cbn [fst] in *.
  - exact Ha.
  - destruct (prompt_loop label lines) as [[evs' r'] rest']. cbn [fst] in *.
    cbn [forallb console andb]. rewrite forallb_app, Ha, IH. reflexivity.
Qed.

Lemma get_date_input_console label : preserves (adds console) (get_date_input label).
Proof.
  intros w. unfold get_date_input.
  pose proof (prompt_loop_console label (stdin w)) as H.
  destruct (prompt_loop label (stdin w)) as [[evs r] rest]. cbn in *.
  exists evs. auto.
Qed.

End StageEvents.

Section Raises.
Variable S : exn -> bool.

Lemma raises_ret {A} (a : A) : raises_only S (ret a).
Proof. intros w e w' [=]. Qed.

Lemma raises_raise {A} e : S e = true -> raises_only S (@raise A e).
Proof. intros H w e' w' [= <- _]. exact H. Qed.

Lemma raises_bind {A B} (m : M A) (k : A -> M B) :
  raises_only S m -> (forall a, raises_only S (k a)) -> raises_only S (bind m k).
Proof.
  intros Hm Hk w e w' H.
  apply bind_inv in H as [(e' & H & [= <-]) | (a & w1 & _ & H)].
  - exact (Hm _ _ _ H).
  - exact (Hk _ _ _ _ H).
Qed.

Lemma raises_if {A} (c : bool) (m1 m2 : M A) :
  raises_only S m1 -> raises_only S m2 -> raises_only S (if c then m1 else m2).
Proof. now destruct c. Qed.

Lemma raises_option {A B} (o : option B) (k : B -> M A) (m : M A) :
  (forall b, raises_only S (k b)) -> raises_only S m ->
  raises_only S (match o with Some b => k b | None => m end).
Proof. now destruct o. Qed.

Lemma raises_emit ev : raises_only S (emit ev).
Proof. intros w e w' [=]. Qed.

Lemma raises_set_chrome c : raises_only S (set_chrome c).
Proof. intros w e w' [=]. Qed.

Lemma raises_browser d : S WebDriverException = true -> raises_only S (browser d).
Proof.
  intros H w e w'. unfold browser. destruct (chrome w); intros [= <- _] || intros [=]; exact H.
Qed.

End Raises.

Ltac raises_steps S :=
  repeat first
    [ apply (raises_emit S) | apply (raises_set_chrome S)
    | apply (raises_browser S); reflexivity
    | apply (raises_ret S)
    | apply (raises_raise S); reflexivity
    | apply (raises_bind S); [|intros ?]
    | apply raises_if | apply raises_option; [intros ?|] ].

Section StageErrors.
Variable env : Env.

Lemma find_and_click_raises d loc :
  raises_only browser_error (find_and_click env d loc).
Proof. unfold find_and_click, set_browser. raises_steps browser_error. Qed.

Lemma apply_date_filters_raises d a b :
  raises_only browser_error (apply_date_filters env d a b).
Proof.
  unfold apply_date_filters, find_and_click, wait_for, clear, send_keys, print, set_browser.
  raises_steps browser_error.
Qed.

(** With the two credentials set, [send_keys] gets text to type. *)
Lemma login_raises d :
  is_Some (USER_EMAIL env) -> is_Some (USER_PASS env) ->
  raises_only wait_error (login env d).
Proof.
  intros [em Hem] [pw Hpw].
  unfold login, wait_for, keys_with_enter, print, set_browser. rewrite Hem, Hpw.
  raises_steps wait_error.
Qed.

Lemma wait_error_browser_error e : wait_error e = true -> browser_error e = true.
Proof. destruct e; cbn; congruence. Qed.

Lemma truthy_is_Some o : truthy o = true -> is_Some o.
Proof. destruct o; [eauto | discriminate]. Qed.

(** The stages up to the download: whatever they end in, no file is
    touched and the events are quiet ones. *)
Lemma stages_inv d a b w r w' :
  stages env d a b w = (r, w') ->
  (exists e, r = Raise e /\ fs w' = fs w /\ adds quiet w w'
             /\ (is_Some (USER_EMAIL env) -> is_Some (USER_PASS env) ->
                 browser_error e = true))
  \/ exists w3 r3,
      fs w3 = fs w /\ adds quiet w w3
      /\ download_and_parse_csv env d (fst a) (fst b) w3 = (r3, w')
      /\ r = match r3 with Ok _ => Ok tt | Raise e => Raise e end.
Proof.
  unfold stages. intros H.
  apply bind_inv in H as [(e & H & ->) | (? & w1 & H1 & H)].
  { left. exists e. split; [reflexivity|].
    split; [exact (step_result same_fs _ _ _ _ (login_fs env d) H)|].
    split; [exact (step_result (adds quiet) _ _ _ _ (login_quiet env d) H)|].
    intros He Hp. apply wait_error_browser_error. exact (login_raises d He Hp _ _ _ H). }
  pose proof (step_result same_fs _ _ _ _ (login_fs env d) H1) as F1.
  pose proof (step_result (adds quiet) _ _ _ _ (login_quiet env d) H1) as Q1.
  apply bind_inv in H as [(e & H & ->) | (? & w2 & H2 & H)].
  { left. exists e. split; [reflexivity|].
    pose proof (step_result same_fs _ _ _ _ (find_and_click_fs env d _) H) as F2.
    pose proof (step_result (adds quiet) _ _ _ _ (find_and_click_quiet env d _) H) as Q2.
    unfold same_fs in *.
    split; [congruence|]. split; [eapply adds_trans; eauto|].
    intros _ _. exact (find_and_click_raises d _ _ _ _ H). }
  pose proof (step_result same_fs _ _ _ _ (find_and_click_fs env d _) H2) as F2.
  pose proof (step_result (adds quiet) _ _ _ _ (find_and_click_quiet env d _) H2) as Q2.
  apply bind_inv in H as [(e & H & ->) | (? & w3 & H3 & H)].
  { left. exists e. split; [reflexivity|].
    pose proof (step_result same_fs _ _ _ _ (apply_date_filters_fs env d _ _) H) as F3.
    pose proof (step_result (adds quiet) _ _ _ _ (apply_date_filters_quiet env d _ _) H) as Q3.
    unfold same_fs in *.
    split; [congruence|]. split; [eauto using adds_trans|].
    intros _ _. exact (apply_date_filters_raises d _ _ _ _ _ H). }
  pose proof (step_result same_fs _ _ _ _ (apply_date_filters_fs env d _ _) H3) as F3.
  pose proof (step_result (adds quiet) _ _ _ _ (apply_date_filters_quiet env d _ _) H3) as Q3.
  right. exists w3.
  unfold same_fs in *.
  apply bind_inv in H as [(e & H & ->) | (recs & w4 & H4 & [= <- <-])].
  - exists (Raise e). split; [congruence|]. split; [eauto using adds_trans|]. auto.
  - exists (Ok recs). split; [congruence|]. split; [eauto using adds_trans|]. auto.
Qed.

End StageErrors.

(** X6: with the two credentials set, [login] fails only because the
    browser fails or because a wait runs out; by then it has asked the
    browser for [WEBSITE_URL], and it has touched no file. *)
Theorem login_fails_by_browser_or_timeout
    (env : Env) (d : WebDriver) (w w' : World) (e : exn) :
  is_Some (USER_EMAIL env) -> is_Some (USER_PASS env) ->
  login env d w = (Raise e, w') ->
  (e = WebDriverException \/ e = TimeoutException)
  /\ fs w' = fs w
  /\ Get (WEBSITE_URL env) ∈ trace w'.
Proof.
  intros Hem Hpw H. split; [|split].
  - pose proof (login_raises env d Hem Hpw _ _ _ H) as He.
    destruct e; try discriminate He; auto.
  - exact (step_result same_fs _ _ _ _ (login_fs env d) H).
  - pose proof (login_navigates env d w) as Hin. now rewrite H in Hin.
Qed.

Lemma login_fails_by_browser_or_timeout_witness :
  let w := Demo.at_list in
  login Cases.no_dashboard ChromeDriver w
  = (Raise TimeoutException, snd (login Cases.no_dashboard ChromeDriver w))
  /\ (TimeoutException = WebDriverException \/ TimeoutException = TimeoutException)
  /\ fs (snd (login Cases.no_dashboard ChromeDriver w)) = fs w.
Proof.
  intros w.
  assert (H : login Cases.no_dashboard ChromeDriver w
              = (Raise TimeoutException, snd (login Cases.no_dashboard ChromeDriver w)))
    by (vm_compute; reflexivity).
  split; [exact H|].
  destruct (login_fails_by_browser_or_timeout Cases.no_dashboard ChromeDriver w _ _
              (ltac:(eexists; reflexivity)) (ltac:(eexists; reflexivity)) H)
    as (He & Hf & _).
  split; [exact He | exact Hf].
Defined.

(** ** The filter form *)

Lemma input_text_set_input_eq l loc t : input_text (set_input l loc t) loc = t.
Proof.
  induction l as [|[loc' t'] l IH]; cbn.
  - now rewrite bool_decide_eq_true_2.
  - case_bool_decide as E; cbn.
    + now rewrite bool_decide_eq_true_2.
    + now rewrite bool_decide_eq_false_2.
Qed.

Lemma input_text_set_input_ne l loc loc' t :
  loc <> loc' -> input_text (set_input l loc t) loc' = input_text l loc'.
Proof.
  intros Hne. induction l as [|[loc0 t0] l IH]; cbn.
  - now rewrite bool_decide_eq_false_2.
  - case_bool_decide as E; cbn.
    + subst loc0. now rewrite !bool_decide_eq_false_2.
    + case_bool_decide; [reflexivity | exact IH].
Qed.

(** X7: when [apply_date_filters] succeeds, the page on which the
    submit button was clicked had exactly [date_from] in the first
    filter field and [date_to] in the second, whatever text the fields
    held before; the location and the other fields were as at the
    start. *)
Theorem filters_are_typed_over_old_text
    (env : Env) (d : WebDriver) (date_from date_to : string) (w w' : World)
    (b0 : Browser) :
  let from := ByName "reservation_filter[date_from_display]" in
  let to := ByName "reservation_filter[date_to_display]" in
  chrome w = Running b0 ->
  apply_date_filters env d date_from date_to w = (Ok tt, w') ->
  exists form b',
    click env (ByXPath "//button[@type='submit']") form = Some b'
    /\ chrome w' = Running b'
    /\ current_url form = current_url b0
    /\ input_text (inputs form) from = date_from
    /\ input_text (inputs form) to = date_to
    /\ forall loc, loc <> from -> loc <> to ->
         input_text (inputs form) loc = input_text (inputs b0) loc.
Proof.
  intros from to Hc.
  unfold apply_date_filters, wait_for, clear, send_keys, find_and_click, set_browser,
    set_chrome, browser, print, emit, bind, ret, raise.
  cbn. rewrite Hc. cbn.
  destruct (present env 15 _ b0); cbn; [|discriminate].
  destruct (present env 15 _ _); cbn; [|discriminate].
  match goal with |- context [click env ?l ?f] => set (form := f) end.
  destruct (click env _ form) as [b'|] eqn:Hclick; cbn; [|discriminate].
  case_bool_decide; [|discriminate].
  intros [= <-]. cbn.
  exists form, b'. split; [exact Hclick|]. split; [reflexivity|].
  subst form. cbn [current_url inputs]. split; [reflexivity|].
  fold from to.
  assert (Hft : to <> from) by discriminate.
  split; [|split].
  - rewrite input_text_set_input_ne by exact Hft.
    rewrite input_text_set_input_ne by exact Hft.
    now rewrite !input_text_set_input_eq.
  - now rewrite !input_text_set_input_eq.
  - intros loc Hf Ht.
    rewrite !input_text_set_input_ne by congruence. reflexivity.
Qed.

Lemma filters_are_typed_over_old_text_witness :
  let w := Cases.filter_left_over in
  let w' := snd (apply_date_filters Cases.good ChromeDriver "01 JAN 2025" "31 JAN 2025" w) in
  apply_date_filters Cases.good ChromeDriver "01 JAN 2025" "31 JAN 2025" w = (Ok tt, w')
  /\ exists form b',
      click Cases.good (ByXPath "//button[@type='submit']") form = Some b'
      /\ chrome w' = Running b'
      /\ input_text (inputs form) (ByName "reservation_filter[date_from_display]")
         = "01 JAN 2025"
      /\ input_text (inputs form) (ByName "reservation_filter[date_to_display]")
         = "31 JAN 2025".
Proof.
  intros w w'.
  assert (H : apply_date_filters Cases.good ChromeDriver "01 JAN 2025" "31 JAN 2025" w
              = (Ok tt, w')) by (vm_compute; reflexivity).
  split; [exact H|].
  destruct (filters_are_typed_over_old_text Cases.good ChromeDriver _ _ w w' _ eq_refl H)
    as (form & b' & H1 & H2 & _ & H3 & H4 & _).
  exists form, b'. auto.
Defined.

(** ** The download, step by step *)

Section Download.
Variable env : Env.

Lemma normalize_nothing_kept df :
  (forall c, c ∈ Pandas.columns df -> c ∉ columns_to_keep) ->
  normalize env df
  = Some match pandas env with
         | Pandas.Pandas2 => []
         | Pandas.Pandas3 => replicate (Pandas.nrows df) []
         end.
Proof.
  intros H. destruct (normalize_frame env df) as (df' & _ & Hcols & ->).
  assert (Hk : kept_columns df = []).
  { destruct (kept_columns df) as [|c l] eqn:E; [reflexivity|].
    assert (Hc : c ∈ kept_columns df) by (rewrite E; left).
    apply kept_columns_spec in Hc as [Hc1 Hc2]. destruct (H c Hc2 Hc1). }
  rewrite Hk in Hcols. destruct df' as [|s df']; [reflexivity | discriminate Hcols].
Qed.

(** X8: when the export link is on the page, the download answers
    with a status outside 400..599, the text parses, no field of the
    records is [pd.NA] and the output file can be opened, then
    [download_and_parse_csv] returns the records; it has printed its
    five lines, asked for the one URL, written the records in their
    order to the output file, and left the browser as it was. *)
Theorem download_writes_the_records
    (d : WebDriver) (date_from date_to : string) (w : World)
    (br : Browser) (status : Z) (text : string)
    (df : Pandas.DataFrame) (recs : list Pandas.dict) :
  let url := urljoin env (current_url br) (export_href env br) in
  let name := output_filename date_from date_to in
  chrome w = Running br ->
  present env 15 (ByCss "a.export") br = true ->
  http_get env url (get_cookies env br) = Some (status, text) ->
  (400 <=? status) && (status <? 600) = false ->
  read_csv env text = Some df ->
  normalize env df = Some recs ->
  Forall (Forall (fun kv => snd kv <> Pandas.VNA)) recs ->
  can_open env name = true ->
  download_and_parse_csv env d date_from date_to w
  = (Ok recs,
     {| stdin := stdin w;
        trace := trace w ++ [Printed MsgGettingLink; Printed (MsgDownloading url);
                             Download url; Printed (MsgFound (length recs));
                             Printed MsgSaving; Printed (MsgSaved name)];
        fs := <[name := Json.layout (map Json.encode_record recs)]> (fs w);
        chrome := chrome w |}).
Proof.
  intros url name Hc Hp Hget Hst Hcsv Hn Hna Hopen.
  rewrite download_steps, Hc, Hp. cbv zeta. fold url. rewrite Hget, Hst, Hcsv, Hn.
  fold name. rewrite Hopen.
  apply iterencode_ok in Hna. rewrite Hna, (iterencode_layout _ Hna).
  unfold log, store. cbn [stdin trace fs chrome app]. rewrite ?Hc, <- ?app_assoc.
  reflexivity.
Qed.

(** X9: when the export has none of the sixteen columns the call
    still succeeds, and no record has a field: with pandas 2 there is
    no record at all, however many rows the export has, and with
    pandas 3 there is an empty record for every row; their number is
    printed and they are written to the output file. *)
Theorem export_without_the_columns_gives_empty_records
    (d : WebDriver) (date_from date_to : string) (w : World)
    (br : Browser) (status : Z) (text : string) (df : Pandas.DataFrame) :
  let url := urljoin env (current_url br) (export_href env br) in
  let name := output_filename date_from date_to in
  let recs := match pandas env with
              | Pandas.Pandas2 => []
              | Pandas.Pandas3 => replicate (Pandas.nrows df) []
              end in
  chrome w = Running br ->
  present env 15 (ByCss "a.export") br = true ->
  http_get env url (get_cookies env br) = Some (status, text) ->
  (400 <=? status) && (status <? 600) = false ->
  read_csv env text = Some df ->
  (forall c, c ∈ Pandas.columns df -> c ∉ columns_to_keep) ->
  can_open env name = true ->
  download_and_parse_csv env d date_from date_to w
  = (Ok recs,
     {| stdin := stdin w;
        trace := trace w ++ [Printed MsgGettingLink; Printed (MsgDownloading url);
                             Download url; Printed (MsgFound (length recs));
                             Printed MsgSaving; Printed (MsgSaved name)];
        fs := <[name := Json.layout (map (fun _ => [Json.Text "{}"]) recs)]> (fs w);
        chrome := chrome w |}).
Proof.
  intros url name recs Hc Hp Hget Hst Hcsv Hno Hopen.
  rewrite (download_returns env d date_from date_to w br status text df recs
             Hc Hp Hget Hst Hcsv (normalize_nothing_kept df Hno) Hopen).
  fold url name. do 4 f_equal.
  unfold recs. destruct (pandas env); [reflexivity|].
  induction (Pandas.nrows df) as [|n IH]; [reflexivity|]. cbn. now rewrite IH.
Qed.

(** X10: [download_and_parse_csv] leaves the browser where it was, so
    that a second call against a site that answers as before returns
    the same records and leaves the file system as the first call left
    it: the output file is written over with the same content. *)
Theorem download_twice_is_the_same
    (d : WebDriver) (date_from date_to : string) (w w1 : World) (recs : list Pandas.dict) :
  download_and_parse_csv env d date_from date_to w = (Ok recs, w1) ->
  exists w2,
    download_and_parse_csv env d date_from date_to w1 = (Ok recs, w2)
    /\ fs w2 = fs w1 /\ chrome w2 = chrome w1.
Proof.
  intros H.
  destruct (download_cases _ _ _ _ _ _ _ H) as (Hc & _ & _).
  rewrite download_steps in H. rewrite download_steps, Hc.
  destruct (chrome w) as [|br|]; try discriminate H.
  destruct (present env 15 (ByCss "a.export") br); [|discriminate H].
  cbv zeta in *.
  destruct (http_get env _ _) as [[status text]|]; [|discriminate H].
  destruct ((400 <=? status) && (status <? 600)); [discriminate H|].
  destruct (read_csv env text) as [df|]; [|discriminate H].
  destruct (normalize env df) as [recs'|]; [|discriminate H].
  destruct (can_open env (output_filename date_from date_to)); [|discriminate H].
  destruct (snd (Json.iterencode recs')) as [e|]; [discriminate H|].
  injection H as -> <-.
  eexists. split; [reflexivity|].
  cbn [log store fs chrome] in Hc |- *. split; [apply insert_insert_eq | exact Hc].
Qed.

End Download.

Lemma full_records_clean :
  Forall (Forall (fun kv : string * Pandas.value => snd kv <> Pandas.VNA)) Cases.full_records.
Proof. repeat constructor; discriminate. Qed.

Lemma download_writes_the_records_witness :
  download_and_parse_csv Cases.good ChromeDriver "01-01-2025" "31-01-2025" Demo.at_list
  = (Ok Cases.full_records,
     {| stdin := [];
        trace := [Printed MsgGettingLink;
                  Printed (MsgDownloading "https://app.littlehotelier.com/reservations.csv");
                  Download "https://app.littlehotelier.com/reservations.csv";
                  Printed (MsgFound 2); Printed MsgSaving;
                  Printed (MsgSaved Demo.january_file)];
        fs := <[Demo.january_file
                := Json.layout (map Json.encode_record Cases.full_records)]> ∅;
        chrome := chrome Demo.at_list |}).
Proof.
  apply (download_writes_the_records Cases.good ChromeDriver "01-01-2025" "31-01-2025"
           Demo.at_list {| current_url := Demo.list_url; inputs := [] |} 200 "csv"
           Demo.full_export Cases.full_records).
  - reflexivity.
  - reflexivity.
  - reflexivity.
  - reflexivity.
  - reflexivity.
  - vm_compute. reflexivity.
  - exact full_records_clean.
  - reflexivity.
Defined.

Lemma other_columns_not_kept c :
  c ∈ Pandas.columns Cases.other_columns -> c ∉ columns_to_keep.
Proof.
  intros Hc Hin. apply list_elem_of_singleton in Hc. subst c.
  repeat (apply elem_of_cons in Hin as [Hin|Hin]; [discriminate Hin|]).
  inversion Hin.
Qed.

Lemma export_without_the_columns_gives_empty_records_witness :
  download_and_parse_csv (Demo.site Cases.other_columns 200 true) ChromeDriver
    "01-01-2025" "31-01-2025" Demo.at_list
  = (Ok [[]; []],
     {| stdin := [];
        trace := [Printed MsgGettingLink;
                  Printed (MsgDownloading "https://app.littlehotelier.com/reservations.csv");
                  Download "https://app.littlehotelier.com/reservations.csv";
                  Printed (MsgFound 2); Printed MsgSaving;
                  Printed (MsgSaved Demo.january_file)];
        fs := <[Demo.january_file
                := Json.layout [[Json.Text "{}"]; [Json.Text "{}"]]]> ∅;
        chrome := chrome Demo.at_list |}).
Proof.
  apply (export_without_the_columns_gives_empty_records
           (Demo.site Cases.other_columns 200 true) ChromeDriver "01-01-2025" "31-01-2025"
           Demo.at_list {| current_url := Demo.list_url; inputs := [] |} 200 "csv"
           Cases.other_columns).
  - reflexivity.
  - reflexivity.
  - reflexivity.
  - reflexivity.
  - reflexivity.
  - exact other_columns_not_kept.
  - reflexivity.
Defined.

Lemma download_twice_is_the_same_witness :
  let w1 := snd (download_and_parse_csv Cases.good ChromeDriver "01-01-2025" "31-01-2025"
                   Demo.at_list) in
  download_and_parse_csv Cases.good ChromeDriver "01-01-2025" "31-01-2025" Demo.at_list
  = (Ok Cases.full_records, w1)
  /\ exists w2,
      download_and_parse_csv Cases.good ChromeDriver "01-01-2025" "31-01-2025" w1
      = (Ok Cases.full_records, w2)
      /\ fs w2 = fs w1 /\ chrome w2 = chrome w1.
Proof.
  intros w1.
  assert (H : download_and_parse_csv Cases.good ChromeDriver "01-01-2025" "31-01-2025"
                Demo.at_list = (Ok Cases.full_records, w1)) by (vm_compute; reflexivity).
  split; [exact H|].
  exact (download_twice_is_the_same Cases.good ChromeDriver _ _ _ _ _ H).
Defined.


(** X11: every field of every record is [None], a text, an integer,
    a float other than NaN or a truth value: what [read_csv] marked as
    missing is [None] in the record of its row, whatever the marker
    and whatever the column.  So the encoder gets through the records
    of every frame, and it never writes the token [NaN]. *)
Theorem records_hold_no_NaN
    (env : Env) (df : Pandas.DataFrame) (recs : list Pandas.dict) :
  normalize env df = Some recs ->
  Forall (Forall (fun kv => snd kv <> Pandas.VNaN /\ snd kv <> Pandas.VNA)) recs
  /\ snd (Json.iterencode recs) = None
  /\ (Pandas.wf df ->
      forall c i v,
        c ∈ kept_columns df -> Pandas.cell df c i = Some v -> Pandas.isnull v = true ->
        exists r, recs !! i = Some r /\ Pandas.dict_get r c = Some Pandas.VNone).
Proof.
  intros Hn. split; [|split].
  - apply Forall_forall. intros r Hr. apply Forall_forall. intros [k v] Hkv. cbn.
    destruct (record_values env _ _ _ _ _ Hn Hr Hkv) as (s & v1 & Hv1 & ->).
    split; [|apply box_not_NA].
    apply converted_values_no_NaN in Hv1. destruct v1; cbn; congruence.
  - exact (normalize_encodes env df recs Hn).
  - intros Hwf c i v Hc Hcell Hnull.
    destruct (normalize_cells env df recs Hwf Hn) as (_ & _ & Hcells).
    destruct (Hcells c i v Hc Hcell) as (r & v' & Hr & Hget & Hs).
    exists r. split; [exact Hr|]. now rewrite Hget, (same_value_null v v' Hnull Hs).
Qed.

Lemma records_hold_no_NaN_witness :
  normalize Cases.gaps Demo.export = Some Cases.gaps_records
  /\ Pandas.cell Demo.export "Occupants" 1 = Some Pandas.VNaN
  /\ snd (Json.iterencode Cases.gaps_records) = None
  /\ exists r,
      Cases.gaps_records !! 1%nat = Some r
      /\ Pandas.dict_get r "Occupants" = Some Pandas.VNone.
Proof.
  assert (H : normalize Cases.gaps Demo.export = Some Cases.gaps_records)
    by (vm_compute; reflexivity).
  split; [exact H|]. split; [reflexivity|].
  destruct (records_hold_no_NaN Cases.gaps Demo.export _ H) as (_ & Henc & Hnull).
  split; [exact Henc|].
  apply (Hnull wf_export "Occupants" 1%nat Pandas.VNaN).
  - apply kept_columns_spec. split.
    + do 5 right. left.
    + do 3 right. left.
  - reflexivity.
  - reflexivity.
Defined.

(** X12: a cell of text in a kept column is in the record of its row
    as it was read: neither [where] nor [convert_dtypes] nor the
    selection nor [to_dict] changes it. *)
Theorem text_cells_are_kept
    (env : Env) (df : Pandas.DataFrame) (recs : list Pandas.dict) (c : string) (i : nat)
    (r : Pandas.dict) (t : string) :
  normalize env df = Some recs ->
  c ∈ kept_columns df ->
  recs !! i = Some r ->
  Pandas.cell df c i = Some (Pandas.VStr t) ->
  Pandas.dict_get r c = Some (Pandas.VStr t).
Proof.
  intros Hn Hc Hr Hcell.
  destruct (normalize_frame env df) as (df' & Hget & Hcols & Hn'). rewrite Hn' in Hn.
  injection Hn as <-.
  assert (Hnd' : NoDup (Pandas.columns df')) by (rewrite Hcols; apply kept_columns_NoDup).
  assert (Hz : Pandas.zip_records (map Pandas.box_series df') !! i = Some r).
  { destruct df' as [|s1 df1]; [|exact Hr].
    cbn in Hcols. rewrite <- Hcols in Hc. inversion Hc. }
  destruct (record_cell (map Pandas.box_series df') i r c) as [-> _];
    [now rewrite columns_box | exact Hz | now rewrite columns_box, Hcols|].
  unfold Pandas.cell in *.
  rewrite column_box, (getitem_column _ _ _ c (kept_columns_NoDup df) Hget Hc),
    column_converted.
  destruct (Pandas.column df c) as [s|]; cbn in *; [|discriminate Hcell].
  rewrite boxed_converted, list_lookup_fmap.
  now rewrite (convert_series_text s i t Hcell).
Qed.

Lemma text_cells_are_kept_witness :
  normalize Cases.good Demo.full_export = Some Cases.full_records
  /\ Pandas.cell Demo.full_export "Guest first name" 1 = Some (Pandas.VStr "Bob")
  /\ Pandas.dict_get [("Status", Pandas.VStr "cancelled");
                      ("Guest first name", Pandas.VStr "Bob");
                      ("Occupants", Pandas.VInt 1)] "Guest first name"
     = Some (Pandas.VStr "Bob").
Proof.
  assert (H : normalize Cases.good Demo.full_export = Some Cases.full_records)
    by (vm_compute; reflexivity).
  split; [exact H|]. split; [reflexivity|].
  apply (text_cells_are_kept Cases.good Demo.full_export Cases.full_records
           "Guest first name" 1%nat _ "Bob" H).
  - apply kept_columns_spec. split.
    + right. left.
    + right. left.
  - reflexivity.
  - reflexivity.
Defined.

(** ** The name of the output file *)

(** X13: the names of the output files of two runs are the same only
    when the two runs were given the same start date and the same end
    date: the canonical forms that [get_date_input] returns can be read
    back from the name. *)
Theorem output_filename_separates_date_ranges
    (l1 l2 l1' l2' a b a' b' da db da' db' : string) :
  snd (attempt l1) = Some (a, da) -> snd (attempt l2) = Some (b, db) ->
  snd (attempt l1') = Some (a', da') -> snd (attempt l2') = Some (b', db') ->
  output_filename a b = output_filename a' b' ->
  a = a' /\ b = b'.
Proof.
  intros H1 H2 H1' H2'.
  apply accepted_shape in H1 as (? & ? & ? & ? & ? & ? & ? & ? & -> & _).
  apply accepted_shape in H2 as (? & ? & ? & ? & ? & ? & ? & ? & -> & _).
  apply accepted_shape in H1' as (? & ? & ? & ? & ? & ? & ? & ? & -> & _).
  apply accepted_shape in H2' as (? & ? & ? & ? & ? & ? & ? & ? & -> & _).
  unfold output_filename. rewrite !app_cons, !app_empty.
  intros [=]. subst. auto.
Qed.

Lemma output_filename_separates_date_ranges_witness :
  output_filename "01-01-2025" "31-01-2025" = Demo.january_file
  /\ ("01-01-2025" = "01-01-2025" /\ "31-01-2025" = "31-01-2025").
Proof.
  split; [reflexivity|].
  apply (output_filename_separates_date_ranges
           "01-01-2025" "31-01-2025" " 01-01-2025" "31-01-2025 "
           "01-01-2025" "31-01-2025" "01-01-2025" "31-01-2025"
           "01 JAN 2025" "31 JAN 2025" "01 JAN 2025" "31 JAN 2025");
    reflexivity.
Defined.

(** ** The ways a run can go *)

Section Run.
Variable env : Env.

Lemma console_quiet ev : console ev = true -> quiet ev = true.
Proof. destruct ev as [| [] | | | |]; cbn; congruence. Qed.

Lemma forallb_console_quiet evs : forallb console evs = true -> forallb quiet evs = true.
Proof.
  rewrite !forallb_forall. intros H ev Hin. apply console_quiet, H, Hin.
Qed.

Lemma initialize_driver_inv w r w1 :
  initialize_driver env w = (r, w1) ->
  trace w1 = trace w ++ [Printed MsgInitializing] /\ fs w1 = fs w
  /\ (forall e, r = Raise e ->
      e = WebDriverException
      /\ (chrome w1 = chrome w \/ chrome w1 = Running initial_page))
  /\ (forall d, r = Ok d -> chrome w1 = Running initial_page).
Proof.
  unfold initialize_driver, print, emit, set_chrome, bind, ret, raise.
  destruct (chrome_starts env); cbn; [destruct (maximize_ok env); cbn|];
    intros [= <- <-]; cbn; (split; [reflexivity|]); (split; [reflexivity|]);
    split; intros ? [=]; subst; auto.
Qed.

(** The [try] statement: how it ends, and the world it leaves. *)
Lemma guarded_cases a b w r w' :
  guarded env a b w = (r, w') ->
  (exists e w1,
      initialize_driver env w = (Raise e, w1)
      /\ r = Ok (Failed e) /\ w' = log [Printed (MsgError e)] w1)
  \/ exists d w1 w2,
      initialize_driver env w = (Ok d, w1)
      /\ ((exists u, stages env d a b w1 = (Ok u, w2)
                     /\ r = Ok Finished /\ w' = closed w2)
          \/ exists e, stages env d a b w1 = (Raise e, w2)
                       /\ r = Ok (Failed e)
                       /\ w' = closed (log [Printed (MsgError e)] w2)).
Proof.
  unfold guarded.
  destruct (initialize_driver env w) as [[d|e] w1] eqn:Hi.
  - destruct (stages env d a b w1) as [[u|e] w2] eqn:Hs; cbn; intros [= <- <-];
      right; exists d, w1, w2; (split; [reflexivity|]).
    + left. exists u. split; [exact Hs|]. split; [reflexivity|].
      unfold closed. cbn. now rewrite <- ?app_assoc.
    + right. exists e. split; [exact Hs|]. split; [reflexivity|].
      unfold closed, log. cbn. now rewrite <- ?app_assoc.
  - cbn. intros [= <- <-]. left. exists e, w1. auto.
Qed.

Ltac app_norm :=
  rewrite <- ?app_assoc; cbn [app]; rewrite <- ?app_assoc; cbn [app]; reflexivity.

(** Every run goes one of the five ways. *)
Lemma run_scraper_outcome w r w' :
  run_scraper env w = (r, w') -> outcome env w r w'.
Proof.
  unfold run_scraper. intros H.
  apply bind_inv in H as [(e & H1 & ->) | (date_from & w1 & H1 & H)].
  { destruct (get_date_input_frame _ _ _ _ H1) as (Hc & Hf & _ & He).
    rewrite (He e eq_refl).
    destruct (step_result (adds console) _ _ _ _ (get_date_input_console "start") H1)
      as (evs & Ht & Ho).
    eapply EndOfInput; eauto. }
  destruct (get_date_input_frame _ _ _ _ H1) as (Hc1 & Hf1 & _ & _).
  destruct (step_result (adds console) _ _ _ _ (get_date_input_console "start") H1)
    as (evs1 & Ht1 & Ho1).
  apply bind_inv in H as [(e & H2 & ->) | (date_to & w2 & H2 & H)].
  { destruct (get_date_input_frame _ _ _ _ H2) as (Hc & Hf & _ & He).
    rewrite (He e eq_refl).
    destruct (step_result (adds console) _ _ _ _ (get_date_input_console "end") H2)
      as (evs & Ht & Ho).
    apply (EndOfInput env w (evs1 ++ evs)).
    - now rewrite forallb_app, Ho1, Ho.
    - now rewrite Ht, Ht1, <- app_assoc.
    - congruence.
    - congruence. }
  destruct (get_date_input_frame _ _ _ _ H2) as (Hc2 & Hf2 & _ & _).
  destruct (step_result (adds console) _ _ _ _ (get_date_input_console "end") H2)
    as (evs2 & Ht2 & Ho2).
  assert (Ho : forallb console (evs1 ++ evs2) = true) by now rewrite forallb_app, Ho1, Ho2.
  assert (Ht : trace w2 = trace w ++ evs1 ++ evs2) by now rewrite Ht2, Ht1, <- app_assoc.
  assert (Hf : fs w2 = fs w) by congruence.
  assert (Hc : chrome w2 = chrome w) by congruence.
  clear Ho1 Ho2 Ht1 Ht2 Hc1 Hc2 Hf1 Hf2.
  revert Ho Ht. generalize (evs1 ++ evs2). clear evs1 evs2. intros evs Ho Ht.
  revert H. cbn [forallb].
  rewrite WEBSITE_URL_truthy, andb_true_r. cbn [andb].
  destruct (truthy (USER_EMAIL env) && truthy (USER_PASS env)) eqn:Hcred; cbn [negb].
  2:{ unfold print, emit, bind, ret. cbn. intros [= <- <-].
      apply (NotConfigured env w evs); cbn; auto.
      now rewrite Ht, <- app_assoc. }
  intros H. apply guarded_cases in H.
  destruct H as [(e & w3 & Hi & -> & ->) | (d & w3 & w4 & Hi & H)].
  { apply initialize_driver_inv in Hi as (Ht3 & Hf3 & He & _).
    destruct (He e eq_refl) as [-> Hc3].
    apply (NoDriver env w evs); cbn; auto.
    - rewrite Ht3, Ht, <- !app_assoc. reflexivity.
    - congruence.
    - destruct Hc3; [left; congruence | right; assumption]. }
  apply initialize_driver_inv in Hi as (Ht3 & Hf3 & _ & _).
  apply andb_true_iff in Hcred as [Hem Hpw].
  assert (Hcred : truthy (USER_EMAIL env) && truthy (USER_PASS env) = true)
    by now rewrite Hem, Hpw.
  apply truthy_is_Some in Hem, Hpw.
  destruct H as [(u & Hs & -> & ->) | (e & Hs & -> & ->)].
  - apply stages_inv in Hs as [(e & [=] & _) | (w5 & r5 & Hf5 & (evs5 & Ht5 & Ho5) & Hd & Hr)].
    destruct r5 as [recs|e]; [|discriminate Hr].
    apply download_cases in Hd as (_ & _ & Hd).
    destruct Hd as [(e & evs6 & [=] & _)
                   | (br & status & text & df & recs' & evs6 & _ & Hget & _ & Hcsv & Hn
                      & Henc & [= <-] & Ho6 & Hin6 & Ht6 & Hf6)].
    apply (Done env w date_from date_to w1 w2 br status text df recs
             (evs ++ [Printed MsgInitializing] ++ evs5 ++ evs6)); auto.
    + rewrite !elem_of_app. auto.
    + rewrite !forallb_app, Ho5, Ho6, (forallb_console_quiet _ Ho). reflexivity.
    + cbn [trace closed log]. rewrite Ht6, Ht5, Ht3, Ht. app_norm.
    + cbn. rewrite Hf6. congruence.
  - apply stages_inv in Hs
      as [(e' & [= <-] & Hf5 & (evs5 & Ht5 & Ho5) & He)
         | (w5 & r5 & Hf5 & (evs5 & Ht5 & Ho5) & Hd & Hr)].
    + specialize (He Hem Hpw).
      apply (StageFailed env w e (evs ++ [Printed MsgInitializing] ++ evs5)); auto.
      * destruct e; try discriminate He; reflexivity.
      * intros ->. discriminate He.
      * rewrite !forallb_app, Ho5, (forallb_console_quiet _ Ho). reflexivity.
      * cbn [trace closed log]. rewrite Ht5, Ht3, Ht. app_norm.
      * cbn. congruence.
    + destruct r5 as [recs|e']; [discriminate Hr|]. injection Hr as ->.
      apply download_cases in Hd as (_ & _ & Hd).
      destruct Hd as [(e & evs6 & [= <-] & He & Hne & Ho6 & Ht6 & Hf6)
                     | (br & status & text & df & recs' & evs6 & _ & _ & _ & _ & _ & _
                        & [=] & _)].
      apply (StageFailed env w e' (evs ++ [Printed MsgInitializing] ++ evs5 ++ evs6)); auto.
      * rewrite !forallb_app, Ho5, Ho6, (forallb_console_quiet _ Ho). reflexivity.
      * cbn [trace closed log]. rewrite Ht6, Ht5, Ht3, Ht. app_norm.
      * cbn. congruence.
Qed.

Lemma quiet_not_quit evs : forallb quiet evs = true -> forallb not_quit evs = true.
Proof.
  rewrite !forallb_forall. intros H ev Hin. specialize (H ev Hin).
  unfold quiet in H. unfold not_quit. now apply andb_true_iff in H as [H _].
Qed.

Lemma quiet_not_saved evs : forallb quiet evs = true -> existsb is_saved evs = false.
Proof.
  induction evs as [|ev evs IH]; [reflexivity|].
  cbn. intros [Hq H]%andb_true_iff. rewrite (IH H), orb_false_r.
  unfold quiet in Hq. apply andb_true_iff in Hq as [_ Hq]. now apply negb_true_iff in Hq.
Qed.

Lemma console_not_saved evs : forallb console evs = true -> existsb is_saved evs = false.
Proof. intros H. now apply quiet_not_saved, forallb_console_quiet. Qed.

Lemma stage_error_kinds e :
  stage_error e = true ->
  e <> KeyError /\ e <> EOFError
  /\ forall status, e = HTTPError status -> 400 <= status < 600.
Proof.
  intros H. split; [intros ->; discriminate H|]. split; [intros ->; discriminate H|].
  intros status ->. cbn in H. lia.
Qed.

End Run.




(** X15: when the login identity or the login secret is unset or
    empty, the run does nothing but ask for the two dates and print
    the message about the environment: no browser is started, nothing
    is asked of the site, and no file is touched. *)
Theorem nothing_starts_without_credentials (env : Env) (w w' : World) r :
  truthy (USER_EMAIL env) = false \/ truthy (USER_PASS env) = false ->
  run_scraper env w = (r, w') ->
  chrome w' = chrome w /\ fs w' = fs w
  /\ exists evs,
      forallb console evs = true
      /\ (r = Raise EOFError /\ trace w' = trace w ++ evs
          \/ r = Ok MissingConfiguration
             /\ trace w' = trace w ++ evs ++ [Printed MsgMissingEnv]).
Proof.
  intros Hcred H. apply andb_false_iff in Hcred.
  apply run_scraper_outcome in H.
  inversion H; subst; try congruence; eauto 10.
Qed.

Lemma nothing_starts_without_credentials_witness :
  let w := Demo.start Demo.january in
  run_scraper Cases.no_password w
  = (Ok MissingConfiguration, snd (run_scraper Cases.no_password w))
  /\ chrome (snd (run_scraper Cases.no_password w)) = NotStarted
  /\ fs (snd (run_scraper Cases.no_password w)) = ∅.
Proof.
  intros w.
  assert (H : run_scraper Cases.no_password w
              = (Ok MissingConfiguration, snd (run_scraper Cases.no_password w)))
    by (vm_compute; reflexivity).
  split; [exact H|].
  destruct (nothing_starts_without_credentials Cases.no_password w _ _
              (or_intror eq_refl) H) as (Hc & Hf & _).
  split; [exact Hc | exact Hf].
Defined.

(** X16: [driver.quit()] is called at most once in a run, as the last
    thing sent to the browser: when it is called, the line that the
    browser is closed follows and nothing else, and the session is
    closed; when it is not called, the session is as it was at the
    start, or it is the one that [initialize_driver] started and did
    not hand over. *)
Theorem browser_closed_once_and_last (env : Env) (w w' : World) r :
  run_scraper env w = (r, w') ->
  exists evs,
    trace w' = trace w ++ evs
    /\ (forallb not_quit evs = true
        /\ (chrome w' = chrome w \/ chrome w' = Running initial_page)
        \/ exists evs0,
            evs = evs0 ++ [BrowserQuit; Printed MsgBrowserClosed]
            /\ forallb not_quit evs0 = true
            /\ chrome w' = Closed).
Proof.
  intros H. apply run_scraper_outcome in H.
  inversion H; subst.
  - exists evs. split; [assumption|]. left.
    split; [now apply quiet_not_quit, forallb_console_quiet | auto].
  - exists (evs ++ [Printed MsgMissingEnv]). split; [assumption|]. left.
    split; [|auto]. rewrite forallb_app.
    rewrite (quiet_not_quit evs) by now apply forallb_console_quiet. reflexivity.
  - eexists. split; [eassumption|]. left. split; [|assumption].
    rewrite forallb_app.
    rewrite (quiet_not_quit evs) by now apply forallb_console_quiet. reflexivity.
  - exists (evs ++ [Printed (MsgError e); BrowserQuit; Printed MsgBrowserClosed]).
    split; [assumption|]. right. exists (evs ++ [Printed (MsgError e)]).
    split; [now rewrite <- app_assoc|]. split; [|assumption].
    rewrite forallb_app, (quiet_not_quit evs) by assumption. reflexivity.
  - eexists. split; [eassumption|]. right.
    exists (evs ++ [Printed (MsgSaved (output_filename (fst date_from) (fst date_to)))]).
    split; [now rewrite <- app_assoc|]. split; [|assumption].
    rewrite forallb_app, (quiet_not_quit evs) by assumption. reflexivity.
Qed.

Lemma browser_closed_once_and_last_witness :
  let w := Demo.start Demo.january in
  run_scraper Cases.not_found w
  = (Ok (Failed (HTTPError 404)), snd (run_scraper Cases.not_found w))
  /\ exists evs,
      trace (snd (run_scraper Cases.not_found w)) = trace w ++ evs
      /\ (forallb not_quit evs = true
          /\ (chrome (snd (run_scraper Cases.not_found w)) = chrome w
              \/ chrome (snd (run_scraper Cases.not_found w)) = Running initial_page)
          \/ exists evs0,
              evs = evs0 ++ [BrowserQuit; Printed MsgBrowserClosed]
              /\ forallb not_quit evs0 = true
              /\ chrome (snd (run_scraper Cases.not_found w)) = Closed).
Proof.
  intros w.
  assert (H : run_scraper Cases.not_found w
              = (Ok (Failed (HTTPError 404)), snd (run_scraper Cases.not_found w)))
    by (vm_compute; reflexivity).
  split; [exact H|].
  exact (browser_closed_once_and_last Cases.not_found w _ _ H).
Defined.

(** X17: a run that fails prints its error, as the last line or as
    the last line before the browser is closed.  The error is never
    [KeyError], for the selection of the columns cannot fail, and never
    [EOFError], for the prompts are outside the [try] block; when it
    is [HTTPError] the status is one from 400 to 599. *)
Theorem failed_run_reports_its_error (env : Env) (w w' : World) (e : exn) :
  run_scraper env w = (Ok (Failed e), w') ->
  e <> KeyError /\ e <> EOFError
  /\ (forall status, e = HTTPError status -> 400 <= status < 600)
  /\ exists t,
      trace w' = t ++ [Printed (MsgError e)]
      \/ trace w' = t ++ [Printed (MsgError e); BrowserQuit; Printed MsgBrowserClosed].
Proof.
  intros H. apply run_scraper_outcome in H.
  assert (Hk : stage_error e = true ->
               e <> KeyError /\ e <> EOFError
               /\ (forall status, e = HTTPError status -> 400 <= status < 600))
    by apply stage_error_kinds.
  inversion H; subst.
  - destruct (Hk eq_refl) as (? & ? & ?). repeat (split; [assumption|]).
    exists (trace w ++ evs ++ [Printed MsgInitializing]). left.
    rewrite <- !app_assoc. assumption.
  - destruct (Hk ltac:(assumption)) as (? & ? & ?). repeat (split; [assumption|]).
    exists (trace w ++ evs). right. rewrite <- app_assoc. assumption.
Qed.

Lemma failed_run_reports_its_error_witness :
  let w := Demo.start Demo.january in
  run_scraper Cases.not_found w
  = (Ok (Failed (HTTPError 404)), snd (run_scraper Cases.not_found w))
  /\ exists t,
      trace (snd (run_scraper Cases.not_found w)) = t ++ [Printed (MsgError (HTTPError 404))]
      \/ trace (snd (run_scraper Cases.not_found w))
         = t ++ [Printed (MsgError (HTTPError 404)); BrowserQuit; Printed MsgBrowserClosed].
Proof.
  intros w.
  assert (H : run_scraper Cases.not_found w
              = (Ok (Failed (HTTPError 404)), snd (run_scraper Cases.not_found w)))
    by (vm_compute; reflexivity).
  split; [exact H|].
  exact (proj2 (proj2 (proj2 (failed_run_reports_its_error Cases.not_found w _ _ H)))).
Defined.

(** X18: the line that says the reservations were saved is printed in
    the runs that finish and in no other. *)
Theorem saved_line_means_finished (env : Env) (w w' : World) r :
  run_scraper env w = (r, w') ->
  exists evs,
    trace w' = trace w ++ evs
    /\ (existsb is_saved evs = true <-> r = Ok Finished).
Proof.
  intros H. apply run_scraper_outcome in H.
  inversion H; subst; eexists; (split; [eassumption|]);
    rewrite ?existsb_app;
    rewrite ?(console_not_saved evs), ?(quiet_not_saved evs) by assumption;
    cbn; split; congruence.
Qed.

Lemma saved_line_means_finished_witness :
  let w := Demo.start Demo.january in
  run_scraper Cases.gaps w = (Ok Finished, snd (run_scraper Cases.gaps w))
  /\ exists evs,
      trace (snd (run_scraper Cases.gaps w)) = trace w ++ evs
      /\ (existsb is_saved evs = true <-> Ok Finished = Ok Finished).
Proof.
  intros w.
  assert (H : run_scraper Cases.gaps w = (Ok Finished, snd (run_scraper Cases.gaps w)))
    by (vm_compute; reflexivity).
  split; [exact H|].
  exact (saved_line_means_finished Cases.gaps w _ _ H).
Defined.





(** X21: when a run finishes, the output file holds the whole list of
    this run: the records of the frame that [read_csv] made of the
    text that the site sent in answer to the request of the run, made
    with the cookies of the browser, one after the other between the
    brackets. *)
Theorem finished_run_leaves_a_complete_file (env : Env) (w w' : World) :
  run_scraper env w = (Ok Finished, w') ->
  exists date_from date_to w1 w2 br status text df recs,
    let url := urljoin env (current_url br) (export_href env br) in
    get_date_input "start" w = (Ok date_from, w1)
    /\ get_date_input "end" w1 = (Ok date_to, w2)
    /\ Download url ∈ trace w'
    /\ http_get env url (get_cookies env br) = Some (status, text)
    /\ read_csv env text = Some df
    /\ normalize env df = Some recs
    /\ fs w' !! output_filename (fst date_from) (fst date_to)
       = Some (Json.layout (map Json.encode_record recs)).
Proof.
  intros H. apply run_scraper_outcome in H. inversion H; subst.
  exists date_from, date_to, w1, w2, br, status, text, df, recs. cbv zeta.
  do 2 (split; [assumption|]). split.
  - match goal with Ht : trace w' = _ |- _ => rewrite Ht end.
    rewrite !elem_of_app. auto.
  - do 3 (split; [assumption|]).
    match goal with Hf : fs w' = _ |- _ => rewrite Hf end.
    rewrite lookup_insert_eq. f_equal. now apply iterencode_layout.
Qed.

Lemma finished_run_leaves_a_complete_file_witness :
  let w := Demo.start Demo.january in
  run_scraper Cases.gaps w = (Ok Finished, snd (run_scraper Cases.gaps w))
  /\ normalize Cases.gaps Demo.export = Some Cases.gaps_records
  /\ fs (snd (run_scraper Cases.gaps w)) !! Demo.january_file
     = Some (Json.layout (map Json.encode_record Cases.gaps_records)).
Proof.
  intros w.
  assert (H : run_scraper Cases.gaps w = (Ok Finished, snd (run_scraper Cases.gaps w)))
    by (vm_compute; reflexivity).
  split; [exact H|]. split; [vm_compute; reflexivity|].
  destruct (finished_run_leaves_a_complete_file Cases.gaps w _ H)
    as (date_from & date_to & w1 & w2 & br & status & text & df & recs
        & H1 & H2 & _ & _ & Hcsv & Hn & Hfs).
  injection Hcsv as <-.
  assert (Hr : Some recs = Some Cases.gaps_records)
    by (rewrite <- Hn; vm_compute; reflexivity).
  injection Hr as ->.
  assert (Hw1 : w1 = snd (get_date_input "start" w)) by now rewrite H1.
  assert (Hd1 : fst date_from = "01-01-2025").
  { transitivity (fst (default ("", "") (match fst (get_date_input "start" w) with
                                         | Ok p => Some p | Raise _ => None end))).
    - now rewrite H1.
    - vm_compute. reflexivity. }
  assert (Hd2 : fst date_to = "31-01-2025").
  { transitivity (fst (default ("", "")
                         (match fst (get_date_input "end" (snd (get_date_input "start" w))) with
                          | Ok p => Some p | Raise _ => None end))).
    - rewrite <- Hw1. now rewrite H2.
    - vm_compute. reflexivity. }
  rewrite Hd1, Hd2 in Hfs. exact Hfs.
Defined.
